(** * apt-package-function: the repository maintenance pass of [function_app.py]

    A shallow embedding of [PackageBlob], [RepoManager] and the two trigger
    entry points, over an explicit model of the blob container.

    Conventions.
    - Python [str] and [bytes] values are both Rocq [string]s (sequences of
      8-bit characters); a text is represented by its UTF-8 encoding, so the
      implicit encoding done by [upload_blob] on a [str] is the identity.
      A character of a text is one UTF-8 sequence of its bytes: [str.rstrip]
      and [len] work on those.
    - A raised exception is an [outcome]; the world reached when it was raised
      is kept, because uploads done before the exception stay in the store.
    - The libraries the code calls but does not contain (pydpkg, lzma, the
      textual form of a datetime) are the fields of one record, [Library]. *)

From Stdlib Require Import Ascii.
From stdpp Require Import base list strings gmap pretty.

Open Scope string_scope.
Open Scope list_scope.

(** ** Python string operations *)

Module PyStr.

(** [s.startswith(p)] *)
Fixpoint startswith (s p : string) {struct p} : bool :=
  match p, s with
  | "", _ => true
  | String a p', String b s' => if Ascii.eqb a b then startswith s' p' else false
  | String _ _, "" => false
  end.

(** [s.endswith(suf)]: some tail of [s] is [suf]. *)
Fixpoint endswith (s suf : string) : bool :=
  if String.eqb s suf then true
  else match s with
       | "" => false
       | String _ s' => endswith s' suf
       end.

(** [s.lstrip(c)] for a single character [c]; the second component is the
    number of characters removed. *)
Fixpoint lstrip_char (c : ascii) (s : string) : nat * string :=
  match s with
  | "" => (0, "")
  | String a s' =>
      if Ascii.eqb a c then let '(n, r) := lstrip_char c s' in (S n, r)
      else (0, s)
  end.

(** [s.split(c)] for a single character separator. *)
Fixpoint split (c : ascii) (s : string) : list string :=
  match s with
  | "" => [""]
  | String a s' =>
      if Ascii.eqb a c then "" :: split c s'
      else match split c s' with
           | h :: t => String a h :: t
           | [] => [String a ""]
           end
  end.

(** [sep.join(parts)] *)
Fixpoint join (sep : string) (parts : list string) : string :=
  match parts with
  | [] => ""
  | [p] => p
  | p :: ps => p +:+ sep +:+ join sep ps
  end.

(** [s.rfind(c)] for a single character: the index of the last occurrence,
    [None] standing for Python's [-1]. *)
Fixpoint rfind (c : ascii) (s : string) : option nat :=
  match s with
  | "" => None
  | String a s' =>
      match rfind c s' with
      | Some i => Some (S i)
      | None => if Ascii.eqb a c then Some 0 else None
      end
  end.

(** [s[:n]] and [s[n:]] for [0 <= n]. *)
Fixpoint take (n : nat) (s : string) : string :=
  match n, s with
  | S n', String a s' => String a (take n' s')
  | _, _ => ""
  end.

Fixpoint drop (n : nat) (s : string) : string :=
  match n, s with
  | S n', String _ s' => drop n' s'
  | _, _ => s
  end.

(** The UTF-8 encoding of a character below U+10000. *)
Definition utf8 (code : N) : string :=
  let byte (n : N) := Ascii.ascii_of_N n in
  if (code <? 128)%N then String (byte code) ""
  else if (code <? 2048)%N then
    String (byte (192 + code / 64)%N) (String (byte (128 + code mod 64)%N) "")
  else
    String (byte (224 + code / 4096)%N)
      (String (byte (128 + (code / 64) mod 64)%N)
         (String (byte (128 + code mod 64)%N) "")).

(** The characters for which [str.isspace] holds, as CPython lists them
    ([_PyUnicode_IsWhitespace]): U+0009 to U+000D, U+001C to U+0020, U+0085,
    U+00A0, U+1680, U+2000 to U+200A, U+2028, U+2029, U+202F, U+205F and
    U+3000. *)
Definition whitespace : list string :=
  map utf8
    [9; 10; 11; 12; 13; 28; 29; 30; 31; 32; 133; 160; 5760;
     8192; 8193; 8194; 8195; 8196; 8197; 8198; 8199; 8200; 8201; 8202;
     8232; 8233; 8239; 8287; 12288]%N.

(** [s] without its last character, when that is one of [chars]. *)
Fixpoint strip_last (chars : list string) (s : string) : option string :=
  match chars with
  | [] => None
  | c :: chars' =>
      if endswith s c then Some (take (String.length s - String.length c) s)
      else strip_last chars' s
  end.

(** The loop of [rstrip]: the last character is removed for as long as it
    is white space; [n] bounds the number of turns. *)
Fixpoint rstrip_loop (n : nat) (s : string) : string :=
  match n with
  | 0 => s
  | S n' =>
      match strip_last whitespace s with
      | Some s' => rstrip_loop n' s'
      | None => s
      end
  end.

(** [s.rstrip()]; no more characters can be removed than [s] has bytes. *)
Definition rstrip (s : string) : string := rstrip_loop (String.length s) s.

(** A byte that continues a UTF-8 sequence: 0x80 to 0xBF. *)
Definition is_continuation (c : ascii) : bool :=
  let n := nat_of_ascii c in Nat.leb 128 n && Nat.ltb n 192.

(** [len(s)]: the number of characters, each being one byte that does not
    continue a sequence, followed by those that continue it. *)
Fixpoint len (s : string) : nat :=
  match s with
  | "" => 0
  | String c s' => if is_continuation c then len s' else S (len s')
  end.

(** ["%s" % x] for an optional value: [None] prints as the word None. *)
Definition str_opt {A} (f : A → string) (x : option A) : string :=
  match x with Some a => f a | None => "None" end.

(** [needle in s] *)
Fixpoint contains (s needle : string) : bool :=
  if startswith s needle then true
  else match s with
       | "" => false
       | String _ s' => contains s' needle
       end.

End PyStr.

(** ** Exceptions *)

Inductive exception :=
  | ResourceNotFoundError     (* azure.core.exceptions: the blob does not exist *)
  | ResourceExistsError       (* upload without overwrite onto an existing blob *)
  | DpkgError                 (* pydpkg cannot read the archive *)
  | ValueError.               (* pathlib: with_suffix on an empty name *)

Inductive outcome (A : Type) :=
  | Return (a : A)
  | Raise (e : exception).
Arguments Return {A} a.
Arguments Raise {A} e.

(** ** pathlib.PurePosixPath *)

Module Pathlib.

(** A parsed path.  pathlib keeps the root as the first element of its
    part list; here it is a field of its own and [parts] are the others. *)
Record Path := mkPath { root : string; parts : list string }.

Definition sep : ascii := "/"%char.

(** [_PosixFlavour.splitroot]: exactly two leading slashes are kept as the
    root, one or three and more collapse to one. *)
Definition splitroot (part : string) : string * string :=
  match part with
  | String c _ =>
      if Ascii.eqb c sep then
        let '(n, stripped) := PyStr.lstrip_char sep part in
        if Nat.eqb n 2 then ("//", stripped) else ("/", stripped)
      else ("", part)
  | "" => ("", part)
  end.

Definition keep_part (x : string) : bool :=
  negb (String.eqb x "") && negb (String.eqb x ".").

(** [Path(s)]: [parse_parts] for a single argument; empty components and
    single dots are dropped. *)
Definition parse (s : string) : Path :=
  let '(r, rel) := splitroot s in
  mkPath r (filter (λ x, keep_part x = true) (PyStr.split sep rel)).

(** [str(p)] *)
Definition str (p : Path) : string :=
  match root p, parts p with
  | "", [] => "."
  | r, ps => r +:+ PyStr.join "/" ps
  end.

(** [p.name]: the last component, empty when there is none. *)
Definition name (p : Path) : string := List.last (parts p) "".

(** [p.suffix] *)
Definition suffix (p : Path) : string :=
  let n := name p in
  match PyStr.rfind "."%char n with
  | Some i =>
      if Nat.ltb 0 i && Nat.ltb i (String.length n - 1) then PyStr.drop i n else ""
  | None => ""
  end.

(** [p.with_suffix(suffix)], for a suffix that passes pathlib's validity
    test (it starts with a dot, is not a single dot, holds no slash). *)
Definition with_suffix (p : Path) (suffix' : string) : outcome Path :=
  let n := name p in
  if String.eqb n "" then Raise ValueError
  else
    let old_suffix := suffix p in
    let n' :=
      if String.eqb old_suffix "" then n +:+ suffix'
      else PyStr.take (String.length n - String.length old_suffix) n +:+ suffix' in
    Return (mkPath (root p) (removelast (parts p) ++ [n'])).

End Pathlib.

(** ** The blob container *)

(** What the store keeps for one blob: its bytes, the last-modified stamp the
    store assigned at its last write, and its metadata dictionary. *)
Record Blob := mkBlob {
  content : string;
  last_modified : N;
  metadata : gmap string string
}.

(** What the process did, in order: uploads and logging calls. *)
Inductive event :=
  | Upload (name : string)
  | LogInfo (msg : string)
  | LogError (msg : string).

(** The container is an association list in the order [list_blobs] reports;
    [clock] is the stamp the store gives to the next write; [trace] holds the
    events, the latest first. *)
Record World := mkWorld {
  blobs : list (string * Blob);
  clock : N;
  trace : list event
}.

Fixpoint store_get (name : string) (l : list (string * Blob)) : option Blob :=
  match l with
  | [] => None
  | (k, b) :: l' => if String.eqb k name then Some b else store_get name l'
  end.

(** A write replaces the blob of that name where it stands, or adds a new
    blob at the end of the enumeration. *)
Fixpoint store_put (name : string) (b : Blob) (l : list (string * Blob))
  : list (string * Blob) :=
  match l with
  | [] => [(name, b)]
  | (k, b') :: l' =>
      if String.eqb k name then (k, b) :: l' else (k, b') :: store_put name b l'
  end.

(** ** Computations: state and exceptions *)

Definition M (A : Type) : Type := World → outcome A * World.

Global Instance M_ret : MRet M := λ A a w, (Return a, w).
Global Instance M_bind : MBind M := λ A B f m w,
  match m w with
  | (Return a, w') => f a w'
  | (Raise e, w') => (Raise e, w')
  end.

Definition raise {A} (e : exception) : M A := λ w, (Raise e, w).

Definition lift_outcome {A} (o : outcome A) : M A := λ w, (o, w).

Definition emit (e : event) : M unit :=
  λ w, (Return (), mkWorld (blobs w) (clock w) (e :: trace w)).

Definition log_info (msg : string) : M unit := emit (LogInfo msg).
Definition log_error (msg : string) : M unit := emit (LogError msg).

(** [for x in xs: body(x)]; an exception leaves the loop. *)
Fixpoint for_each {A} (xs : list A) (body : A → M unit) : M unit :=
  match xs with
  | [] => mret ()
  | x :: xs' => body x ≫= λ _, for_each xs' body
  end.

(** ** The container client *)

(** [container_client.list_blobs()]: the names, in enumeration order. *)
Definition list_blobs : M (list string) := λ w, (Return (blobs w).*1, w).

(** [blob_client.exists()] *)
Definition blob_exists (name : string) : M bool :=
  λ w, (Return (bool_decide (is_Some (store_get name (blobs w)))), w).

(** [blob_client.get_blob_properties()] *)
Definition get_blob_properties (name : string) : M Blob :=
  λ w, match store_get name (blobs w) with
       | Some b => (Return b, w)
       | None => (Raise ResourceNotFoundError, w)
       end.

(** [blob_client.download_blob().readall()] *)
Definition download_blob (name : string) : M string :=
  λ w, match store_get name (blobs w) with
       | Some b => (Return (content b), w)
       | None => (Raise ResourceNotFoundError, w)
       end.

(** [blob_client.upload_blob(data, metadata=md, overwrite=ow)] *)
Definition upload_blob (name data : string) (md : gmap string string)
    (overwrite : bool) : M unit :=
  λ w, if bool_decide (is_Some (store_get name (blobs w))) && negb overwrite
       then (Raise ResourceExistsError, w)
       else (Return (),
             mkWorld (store_put name (mkBlob data (clock w) md) (blobs w))
                     (N.succ (clock w))
                     (Upload name :: trace w)).

(** ** The libraries outside the repository *)

Record Library := mkLibrary {
  (** [pydpkg.Dpkg(file).control_str] for a file holding these bytes;
      [None] when pydpkg raises on them. *)
  dpkg_control_str : string → option string;
  (** [Dpkg.md5], [Dpkg.sha1], [Dpkg.sha256]: hex digests of the file. *)
  dpkg_md5 : string → string;
  dpkg_sha1 : string → string;
  dpkg_sha256 : string → string;
  (** [lzma.compress] *)
  lzma_compress : string → string;
  (** [str(d)] for the datetime of a last-modified stamp. *)
  str_datetime : N → string
}.

(** [Dpkg.filesize]: [os.path.getsize] of the staged file. *)
Definition dpkg_filesize (data : string) : nat := String.length data.

Definition DEB_CHECK_KEY : string := "DebLastModified".

(** The line feed character, as a string. *)
Definition nl : string := String "010"%char "".

(** ** function_app.py *)

(** [func.InputStream], as far as the blob trigger reads it. *)
Record InputStream := mkInputStream {
  is_name : option string;
  is_length : option nat
}.

(** [func.EventGridEvent] *)
Record EventGridEvent := mkEventGridEvent {
  ev_id : string;
  ev_topic : string;
  ev_subject : string;
  ev_event_type : string;
  ev_data : string
}.

(** The attributes of a [PackageBlob]; the two blob clients are represented
    by the names they were created for, [blob_name] and
    [Pathlib.str metadata_path]. *)
Record PackageBlob := mkPackageBlob {
  path : Pathlib.Path;
  blob_name : string;
  pb_last_modified : string;
  metadata_path : Pathlib.Path
}.

Definition metadata_blob_name (pb : PackageBlob) : string :=
  Pathlib.str (metadata_path pb).

(** The attributes of a [RepoManager]: the names of its two blob clients. *)
Record RepoManager := mkRepoManager {
  package_file : string;
  package_file_xz : string
}.

Section FunctionApp.

Context (lib : Library).

(** [PackageBlob.__init__] *)
Definition PackageBlob_init (name : string) : M PackageBlob :=
  let path := Pathlib.parse name in
  package_properties ← get_blob_properties name;
  let last_modified := str_datetime lib (last_modified package_properties) in
  metadata_path ← lift_outcome (Pathlib.with_suffix path ".package");
  mret (mkPackageBlob path name last_modified metadata_path).

(** The f-string of [create_metadata]. *)
Definition metadata_contents (pb : PackageBlob) (control_str data : string)
  : string :=
  PyStr.rstrip control_str +:+ nl +:+
  "Filename: " +:+ Pathlib.str (path pb) +:+ nl +:+
  "MD5sum: " +:+ dpkg_md5 lib data +:+ nl +:+
  "SHA1: " +:+ dpkg_sha1 lib data +:+ nl +:+
  "SHA256: " +:+ dpkg_sha256 lib data +:+ nl +:+
  "Size: " +:+ pretty (dpkg_filesize data) +:+ nl +:+
  nl.

(** [PackageBlob.create_metadata].  The package is staged in a temporary
    file that is unlinked on every way out; pydpkg reads the staged bytes
    when the first property, [control_str], is asked for. *)
Definition create_metadata (pb : PackageBlob) : M unit :=
  log_info ("Creating metadata file for: " +:+ Pathlib.str (path pb));;
  data ← download_blob (blob_name pb);
  match dpkg_control_str lib data with
  | None => raise DpkgError
  | Some control_str =>
      let contents := metadata_contents pb control_str data in
      log_info ("Metadata info for " +:+ Pathlib.str (path pb) +:+ ": " +:+ contents);;
      upload_blob (metadata_blob_name pb) contents
                  {[ DEB_CHECK_KEY := pb_last_modified pb ]} true
  end.

(** [PackageBlob.check] *)
Definition check (pb : PackageBlob) : M unit :=
  log_info ("Checking package: " +:+ Pathlib.str (path pb));;
  ex ← blob_exists (metadata_blob_name pb);
  if negb ex then
    log_error ("Metadata file missing for: " +:+ Pathlib.str (path pb));;
    create_metadata pb
  else
    metadata_properties ← get_blob_properties (metadata_blob_name pb);
    match metadata metadata_properties !! DEB_CHECK_KEY with
    | None =>
        log_error ("Metadata file missing DebLastModified for: "
                   +:+ Pathlib.str (path pb));;
        create_metadata pb
    | Some v =>
        if negb (String.eqb (pb_last_modified pb) v) then
          log_error ("Metadata file out of date for: " +:+ Pathlib.str (path pb));;
          create_metadata pb
        else mret ()
    end.

(** [RepoManager.__init__].  The connection string and the container name
    come from the environment of the function host and are taken as present;
    the container client is the world itself. *)
Definition RepoManager_init : M RepoManager :=
  mret (mkRepoManager "Packages" "Packages.xz").

(** One turn of the loop of [check_metadata]. *)
Definition check_metadata_body (name : string) : M unit :=
  if negb (PyStr.endswith name ".deb") then mret ()
  else pb ← PackageBlob_init name; check pb.

(** [RepoManager.check_metadata] *)
Definition check_metadata (rm : RepoManager) : M unit :=
  names ← list_blobs;
  for_each names check_metadata_body.

(** The loop of [create_packages]; [packages_stream] is the [BytesIO]
    buffer, to which [readinto] appends. *)
Fixpoint read_packages (names : list string) (packages_stream : string)
  : M string :=
  match names with
  | [] => mret packages_stream
  | name :: rest =>
      if negb (PyStr.endswith name ".package") then
        read_packages rest packages_stream
      else
        log_info ("Processing metadata file: " +:+ name);;
        data ← download_blob name;
        log_info ("Read " +:+ pretty (String.length data) +:+ " bytes from " +:+ name);;
        read_packages rest (packages_stream +:+ data)
  end.

(** [RepoManager.create_packages] *)
Definition create_packages (rm : RepoManager) : M unit :=
  names ← list_blobs;
  packages_bytes ← read_packages names "";
  upload_blob (package_file rm) packages_bytes ∅ true;;
  log_info "Created Packages file";;
  let compressed_data := lzma_compress lib packages_bytes in
  upload_blob (package_file_xz rm) compressed_data ∅ true;;
  log_info "Created Packages.xz file".

(** [not newfile.name or not newfile.name.endswith(".deb")] *)
Definition not_a_package (name : option string) : bool :=
  match name with
  | None => true
  | Some n => String.eqb n "" || negb (PyStr.endswith n ".deb")
  end.

(** [blob_trigger] *)
Definition blob_trigger (newfile : InputStream) : M unit :=
  log_info ("Python blob trigger function processed blob; Name: "
            +:+ PyStr.str_opt id (is_name newfile) +:+ ", Blob Size: "
            +:+ PyStr.str_opt pretty (is_length newfile) +:+ " bytes");;
  if not_a_package (is_name newfile) then
    log_info ("Not a Debian package: " +:+ PyStr.str_opt id (is_name newfile))
  else
    rm ← RepoManager_init;
    check_metadata rm;;
    create_packages rm;;
    log_info ("Done processing " +:+ PyStr.str_opt id (is_name newfile)).

(** [eventGridTrigger] *)
Definition eventGridTrigger (event : EventGridEvent) : M unit :=
  log_info ("Processing event " +:+ ev_id event);;
  rm ← RepoManager_init;
  check_metadata rm;;
  create_packages rm;;
  log_info ("Done processing event " +:+ ev_id event).

End FunctionApp.

(** ** Vocabulary of the specification *)

(** The last character of a string, or [d] for the empty string. *)
Fixpoint last_char (d : ascii) (s : string) : ascii :=
  match s with
  | "" => d
  | String a s' => last_char a s'
  end.

(** The names uploaded to, latest first. *)
Fixpoint uploads (t : list event) : list string :=
  match t with
  | [] => []
  | Upload n :: t' => n :: uploads t'
  | _ :: t' => uploads t'
  end.

(** Two worlds hold the same container and have done the same writes; their
    logs may differ. *)
Definition same_store (w1 w2 : World) : Prop :=
  blobs w1 = blobs w2 ∧ clock w1 = clock w2 ∧ uploads (trace w1) = uploads (trace w2).

(** A world with more events on its trace. *)
Definition logged (evs : list event) (w : World) : World :=
  mkWorld (blobs w) (clock w) (evs ++ trace w).

Definition is_package_name (name : string) : bool := PyStr.endswith name ".deb".
Definition is_metadata_name (name : string) : bool := PyStr.endswith name ".package".

(** The metadata record of an artifact is valid: both exist and the record's
    [DebLastModified] tag is the text of the artifact's last-modified stamp. *)
Definition valid_record (lib : Library) (l : list (string * Blob))
    (artifact record : string) : bool :=
  match store_get artifact l, store_get record l with
  | Some a, Some r =>
      bool_decide (metadata r !! DEB_CHECK_KEY = Some (str_datetime lib (last_modified a)))
  | _, _ => false
  end.

(** The concatenation, in enumeration order, of the contents of the blobs
    whose name ends with [.package]. *)
Definition concat_bytes (l : list string) : string := foldr String.append "" l.

Definition spec_index_buffer (l : list (string * Blob)) : string :=
  concat_bytes (map (λ e, content e.2) (filter (λ e, is_metadata_name e.1 = true) l)).

(** The string is made of white space characters only. *)
Definition all_space (s : string) : Prop :=
  ∃ chars, Forall (λ c, c ∈ PyStr.whitespace) chars ∧ s = concat_bytes chars.

(** What the loop of [create_packages] reads: for each listed name that ends
    with [.package], in order, the content found under that name. *)
Definition downloaded_bytes (l : list (string * Blob)) (names : list string) : string :=
  concat_bytes
    (map (λ n, from_option content "" (store_get n l))
         (filter (λ n, is_metadata_name n = true) names)).

(** The name of the metadata record that [PackageBlob] derives from an
    artifact name, when [with_suffix] accepts it. *)
Definition record_name_of (name : string) : option string :=
  match Pathlib.with_suffix (Pathlib.parse name) ".package" with
  | Return p => Some (Pathlib.str p)
  | Raise _ => None
  end.

(** No package of the container owns the record [k]. *)
Definition orphan (k : string) (l : list (string * Blob)) : Prop :=
  ∀ d, d ∈ l.*1 → is_package_name d = true → record_name_of d ≠ Some k.

(** The scanner followed by the assembler, as both triggers run them. *)
Definition maintenance_pass (lib : Library) : M unit :=
  rm ← RepoManager_init;
  check_metadata lib rm;;
  create_packages lib rm.

(** [check] was entered for the artifact named [name]. *)
Definition package_checked (name : string) (w : World) : Prop :=
  LogInfo ("Checking package: " +:+ Pathlib.str (Pathlib.parse name)) ∈ trace w.

(** The tag [check] looks for is present with the value it expects. *)
Definition tag_matches (pb : PackageBlob) (w : World) : Prop :=
  ∃ r, store_get (metadata_blob_name pb) (blobs w) = Some r ∧
       metadata r !! DEB_CHECK_KEY = Some (pb_last_modified pb).

(** *** Relations between runs *)

(** Two runs end alike: same outcome, same container, same writes. *)
Definition sim_result {A} (r1 r2 : outcome A * World) : Prop :=
  r1.1 = r2.1 ∧ same_store r1.2 r2.2.

(** Two computations end alike from worlds that differ in their logs only. *)
Definition Msim {A} (m1 m2 : M A) : Prop :=
  ∀ w1 w2, same_store w1 w2 → sim_result (m1 w1) (m2 w2).

(** Whether it returns or raises, [m] ends with a container related by [R] to
    the one it started with. *)
Definition stable {A} (R : relation (list (string * Blob))) (m : M A) : Prop :=
  ∀ w, R (blobs w) (blobs (m w).2).

(** What [m] returns satisfies [Q]. *)
Definition post {A} (m : M A) (Q : A → Prop) : Prop :=
  ∀ w a w', m w = (Return a, w') → Q a.

(** A write to the name [n] respects [R]. *)
Definition writable (R : relation (list (string * Blob))) (n : string) : Prop :=
  ∀ l b, R l (store_put n b l).

(** The blob named [k] is the same in both containers (or absent from both). *)
Definition keeps_blob (k : string) (l l' : list (string * Blob)) : Prop :=
  store_get k l' = store_get k l.

(** Every name of the first container is a name of the second. *)
Definition keeps_names (l l' : list (string * Blob)) : Prop :=
  ∀ n, n ∈ l.*1 → n ∈ l'.*1.

(** Every package of the second container is a package of the first. *)
Definition no_new_package (l l' : list (string * Blob)) : Prop :=
  ∀ n, n ∈ l'.*1 → is_package_name n = true → n ∈ l.*1.

(** Distinct names stay distinct. *)
Definition keeps_distinct (l l' : list (string * Blob)) : Prop :=
  NoDup l.*1 → NoDup l'.*1.

(** *** More vocabulary: what a pass needs and what it reaches *)

(** Every blob whose name ends with [.deb] is the same in both containers. *)
Definition keeps_packages (l l' : list (string * Blob)) : Prop :=
  ∀ d, is_package_name d = true → store_get d l' = store_get d l.

(** pydpkg can read every package of the container. *)
Definition all_readable (lib : Library) (l : list (string * Blob)) : Prop :=
  ∀ d a, store_get d l = Some a → is_package_name d = true →
         dpkg_control_str lib (content a) ≠ None.

(** The package [d] has a valid metadata record. *)
Definition package_valid (lib : Library) (l : list (string * Blob)) (d : string) : Prop :=
  ∃ r, record_name_of d = Some r ∧ valid_record lib l d r = true.

(** No two packages of the container share a metadata record. *)
Definition records_injective (l : list (string * Blob)) : Prop :=
  ∀ d1 d2, d1 ∈ l.*1 → d2 ∈ l.*1 →
           is_package_name d1 = true → is_package_name d2 = true →
           record_name_of d1 = record_name_of d2 → d1 = d2.

(** ** A small instance of the libraries, and sample containers *)

Module Demo.

(** An archive is accepted when it starts with the [ar] magic line; the
    control text is what follows it. *)
Definition ar_magic : string := "!<arch>" +:+ nl.

Definition control_str (data : string) : option string :=
  if PyStr.startswith data ar_magic then Some (PyStr.drop 8 data) else None.

Definition compress (data : string) : string := "XZ" +:+ data.

Definition decompress (data : string) : option string :=
  if PyStr.startswith data "XZ" then Some (PyStr.drop 2 data) else None.

Definition library : Library :=
  mkLibrary control_str
            (λ d, "m" +:+ pretty (String.length d))
            (λ d, "s" +:+ pretty (String.length d))
            (λ d, "S" +:+ pretty (String.length d))
            compress
            (λ t, "T" +:+ pretty t).

Definition foo_deb : Blob :=
  mkBlob (ar_magic +:+ "Package: foo" +:+ nl +:+ "Version: 1.0" +:+ nl) 2 ∅.

Definition bad_deb : Blob := mkBlob "not an archive" 1 ∅.

Definition old_package : Blob := mkBlob ("Package: old" +:+ nl +:+ nl) 3 ∅.

(** One package, no metadata yet, and a record whose package is gone. *)
Definition world_foo : World :=
  mkWorld [("foo_1.0.deb", foo_deb); ("old.package", old_package)] 4 [].

(** A corrupt package enumerated before a sound one. *)
Definition world_bad : World :=
  mkWorld [("bad.deb", bad_deb); ("foo_1.0.deb", foo_deb)] 4 [].

(** A corrupt package between two sound ones. *)
Definition world_mixed : World :=
  mkWorld [("a.deb", foo_deb); ("bad.deb", bad_deb); ("z.deb", foo_deb)] 4 [].

Definition rm : RepoManager := mkRepoManager "Packages" "Packages.xz".

(** The [PackageBlob] of [foo_1.0.deb] in [world_foo]. *)
Definition foo_pb : PackageBlob :=
  mkPackageBlob (Pathlib.mkPath "" ["foo_1.0.deb"]) "foo_1.0.deb" "T2"
                (Pathlib.mkPath "" ["foo_1.0.package"]).

(** The [PackageBlob] of [bad.deb] in [world_bad]. *)
Definition bad_pb : PackageBlob :=
  mkPackageBlob (Pathlib.mkPath "" ["bad.deb"]) "bad.deb" "T1"
                (Pathlib.mkPath "" ["bad.package"]).

(** [world_foo] after [foo_pb.check()]. *)
Definition world_foo_checked : World := (check library foo_pb world_foo).2.

End Demo.

(** * The deployment scripts

    [azcmd.py], [bicep_deployment.py], [resource_group.py], [func_app.py] and
    the parameter handling of [create_resources.py].  A script acts on the
    world by launching processes; a launch is a [call]: the argument vector
    handed to [subprocess], and what the script makes of the response of the
    process.  Logging calls are left out. *)

Module Scripts.

(** Python values, as [json.loads] builds them and as the scripts pass them
    around.  A dictionary is the list of its items, in insertion order.
    Numbers with a fraction are not represented. *)
#[warnings="-register-all"] Inductive value :=
  | VNone
  | VBool (b : bool)
  | VInt (z : Z)
  | VStr (s : string)
  | VList (l : list value)
  | VDict (d : list (string * value)).

(** The exceptions of the scripts. *)
Inductive error :=
  | CalledProcessError     (* subprocess: non-zero exit status *)
  | JSONDecodeError        (* json.loads *)
  | ValueError
  | KeyError
  | TypeError.

Inductive result (A : Type) :=
  | Ok (a : A)
  | Err (e : error).
Arguments Ok {A} a.
Arguments Err {A} e.

(** The standard output of a process, by what [json.loads] makes of it. *)
Inductive stdout :=
  | NotJson
  | JsonText (v : value).

(** What a launched process did. *)
Inductive response :=
  | Failed                    (* non-zero exit status *)
  | Exited (out : stdout).    (* exit status zero *)

Record call (A : Type) := mkCall {
  argv : list string;
  answer : response → result A
}.
Arguments mkCall {A} argv answer.
Arguments argv {A} c.
Arguments answer {A} c r.

(** The call [c], its answer passed on to [f] unless it is an exception. *)
Definition call_bind {A B} (c : call A) (f : A → result B) : call B :=
  mkCall (argv c)
         (λ r, match answer c r with
               | Ok a => f a
               | Err e => Err e
               end).

(** [d[k]] as an option, [d[k] = v] and [d.update(other)]. *)
Fixpoint dict_get {V} (k : string) (d : list (string * V)) : option V :=
  match d with
  | [] => None
  | (k', v) :: d' => if String.eqb k' k then Some v else dict_get k d'
  end.

Fixpoint dict_set {V} (k : string) (v : V) (d : list (string * V))
  : list (string * V) :=
  match d with
  | [] => [(k, v)]
  | (k', v') :: d' =>
      if String.eqb k' k then (k', v) :: d' else (k', v') :: dict_set k v d'
  end.

Definition dict_update {V} (d other : list (string * V)) : list (string * V) :=
  fold_left (λ acc item, dict_set item.1 item.2 acc) other d.

(** [json.loads] *)
Definition json_loads (out : stdout) : result value :=
  match out with
  | NotJson => Err JSONDecodeError
  | JsonText v => Ok v
  end.

(** ** azcmd.py *)

Definition delimiter : string := "@@@".

(** The command [_az_cmd] builds: [self.cmd] itself, or with the output
    modifier added. *)
Definition add_output (OUTPUT : string) (cmd : list string) : list string :=
  let full_cmd := PyStr.join delimiter cmd in
  if negb (PyStr.contains full_cmd ("-o" +:+ delimiter +:+ OUTPUT))
     && negb (PyStr.contains full_cmd ("-o" +:+ OUTPUT))
     && negb (PyStr.contains full_cmd ("--output" +:+ delimiter +:+ OUTPUT))
  then cmd ++ ["--output"; OUTPUT]
  else cmd.

(** [AzCmd._az_cmd], for a class whose output modifier is [OUTPUT] and whose
    [_run_cmd] is [_run_cmd]. *)
Definition _az_cmd {R} (OUTPUT : string) (_run_cmd : list string → R)
    (cmd : list string) : R :=
  _run_cmd (add_output OUTPUT cmd).

(** [AzCmdNone.run]: [subprocess.run(cmd, check=True)], the output is not
    looked at. *)
Definition AzCmdNone_run (cmd : list string) : call unit :=
  _az_cmd "none"
    (λ cmd, mkCall cmd (λ r, match r with
                             | Failed => Err CalledProcessError
                             | Exited _ => Ok ()
                             end))
    cmd.

(** [AzCmdJson.run]: [json.loads] of [subprocess.check_output(cmd)]. *)
Definition AzCmdJson_run (cmd : list string) : call value :=
  call_bind
    (_az_cmd "json"
       (λ cmd, mkCall cmd (λ r, match r with
                                | Failed => Err CalledProcessError
                                | Exited out => Ok out
                                end))
       cmd)
    json_loads.

(** [AzCmdJson.run_expect_dict] *)
Definition run_expect_dict (cmd : list string) : call (list (string * value)) :=
  call_bind (AzCmdJson_run cmd)
            (λ data, match data with
                     | VDict d => Ok d
                     | _ => Err ValueError
                     end).

(** [AzCmdJson.run_expect_list] *)
Definition run_expect_list (cmd : list string) : call (list value) :=
  call_bind (AzCmdJson_run cmd)
            (λ data, match data with
                     | VList l => Ok l
                     | _ => Err ValueError
                     end).

(** ** resource_group.py *)

Definition create_rg (resource_group location : string) : call unit :=
  AzCmdNone_run ["az"; "group"; "create"; "--name"; resource_group;
                 "--location"; location].

Section Values.

(** [repr] of a list or of a dictionary, which [str] returns for them. *)
Context (repr : value → string).

(** [str(v)], which is also what an f-string makes of [v]. *)
Definition py_str (v : value) : string :=
  match v with
  | VNone => "None"
  | VBool true => "True"
  | VBool false => "False"
  | VInt z => pretty z
  | VStr s => s
  | VList _ | VDict _ => repr v
  end.

(** ** bicep_deployment.py *)

Record BicepDeployment := mkBicepDeployment {
  deployment_name : string;
  resource_group_name : string;
  template_file : Pathlib.Path;
  description : string;
  parameters : list string
}.

(** [BicepDeployment.__init__] *)
Definition BicepDeployment_init (deployment_name resource_group_name : string)
    (template_file : Pathlib.Path) (parameters : list (string * value))
    (description : string) : BicepDeployment :=
  mkBicepDeployment deployment_name resource_group_name template_file description
    (fold_left (λ acc item, acc ++ ["--parameter"; item.1 +:+ "=" +:+ py_str item.2])
               parameters []).

(** [BicepDeployment.create] *)
Definition create (self : BicepDeployment) : call unit :=
  AzCmdNone_run (["az"; "deployment"; "group"; "create";
                  "--name"; deployment_name self;
                  "--resource-group"; resource_group_name self;
                  "--template-file"; Pathlib.str (template_file self)]
                 ++ parameters self).

(** [info[key]] for a string [key]: only a dictionary can be subscripted by
    a string. *)
Definition subscript (info : value) (key : string) : result value :=
  match info with
  | VDict d =>
      match dict_get key d with
      | Some v => Ok v
      | None => Err KeyError
      end
  | _ => Err TypeError
  end.

(** [v == "String"] *)
Definition is_String (v : value) : bool :=
  match v with
  | VStr s => String.eqb s "String"
  | _ => false
  end.

(** The loop of [outputs]. *)
Fixpoint outputs_loop (items : list (string * value))
    (outputs : list (string * string)) : result (list (string * string)) :=
  match items with
  | [] => Ok outputs
  | (key, info) :: rest =>
      match subscript info "type" with
      | Err e => Err e
      | Ok ty =>
          if is_String ty then
            match subscript info "value" with
            | Err e => Err e
            | Ok v => outputs_loop rest (dict_set key (py_str v) outputs)
            end
          else Err ValueError
      end
  end.

(** [BicepDeployment.outputs] *)
Definition outputs (self : BicepDeployment) : call (list (string * string)) :=
  call_bind
    (run_expect_dict ["az"; "deployment"; "group"; "show";
                      "--name"; deployment_name self;
                      "--resource-group"; resource_group_name self;
                      "--query"; "properties.outputs"])
    (λ data, outputs_loop data []).

(** ** func_app.py *)

Record FuncApp := mkFuncApp {
  name : string;
  resource_group : string;
  output_path : Pathlib.Path
}.

(** The command [wait_for_event_trigger] polls with. *)
Definition wait_cmd (self : FuncApp) : call (list value) :=
  run_expect_list ["az"; "functionapp"; "function"; "list";
                   "-n"; name self; "-g"; resource_group self;
                   "--query"; "[].name"].

(** [needle in v] for a string [needle]: a substring test on a string, a
    membership test on a list, a key test on a dictionary, a [TypeError] on
    anything else. *)
Definition py_in (needle : string) (v : value) : result bool :=
  match v with
  | VStr s => Ok (PyStr.contains s needle)
  | VList l =>
      Ok (existsb (λ x, match x with
                        | VStr s => String.eqb s needle
                        | _ => false
                        end) l)
  | VDict d => Ok (bool_decide (is_Some (dict_get needle d)))
  | VNone | VBool _ | VInt _ => Err TypeError
  end.

(** The [for] loop of [wait_for_event_trigger]: [true] when it returns from
    the function. *)
Fixpoint find_trigger (functions : list value) : result bool :=
  match functions with
  | [] => Ok false
  | function :: rest =>
      match py_in "eventGridTrigger" function with
      | Err e => Err e
      | Ok true => Ok true
      | Ok false => find_trigger rest
      end
  end.

(** How [wait_for_event_trigger] stands after some polls, with the seconds
    it has slept: it has returned, it has raised, or it goes on polling. *)
Inductive waiting :=
  | Returned (slept : nat)
  | Raised (e : error) (slept : nat)
  | Polling (slept : nat).

(** The [while True] loop, over the responses of the processes it launches
    one after the other. *)
Fixpoint wait_loop (cmd : call (list value)) (responses : list response)
    (slept : nat) : waiting :=
  match responses with
  | [] => Polling slept
  | r :: rest =>
      match answer cmd r with
      | Ok functions =>
          match find_trigger functions with
          | Ok true => Returned slept
          | Ok false => wait_loop cmd rest (slept + 5)
          | Err e => Raised e slept
          end
      | Err JSONDecodeError | Err CalledProcessError => wait_loop cmd rest (slept + 5)
      | Err e => Raised e slept
      end
  end.

(** [FuncApp.wait_for_event_trigger] *)
Definition wait_for_event_trigger (self : FuncApp) (responses : list response)
  : waiting :=
  wait_loop (wait_cmd self) responses 0.

(** [FuncAppZip.deploy] *)
Definition FuncAppZip_deploy (self : FuncApp) : call unit :=
  AzCmdNone_run ["az"; "functionapp"; "deployment"; "source"; "config-zip";
                 "--resource-group"; resource_group self;
                 "--name"; name self;
                 "--src"; Pathlib.str (output_path self);
                 "--build-remote"; "true"].

(** The deployment [FuncAppBundle.deploy] creates after its upload, for a
    bundle built with [parameters]. *)
Definition FuncAppBundle_func_app_deploy (self : FuncApp)
    (parameters : list (string * value)) : BicepDeployment :=
  let func_app_params := dict_update [("use_shared_keys", VBool false)] parameters in
  BicepDeployment_init ("deploy_" +:+ name self) (resource_group self)
    (Pathlib.parse "rg_funcapp.bicep") func_app_params "function app".

(** ** create_resources.py *)

(** The parsed command line of [main]. *)
Record Args := mkArgs {
  arg_resource_group : string;
  arg_location : string;
  arg_no_shared_keys : bool;
  arg_suffix : option string
}.

(** The truth value of [args.suffix]. *)
Definition has_suffix (args : Args) : bool :=
  match arg_suffix args with
  | Some s => negb (String.eqb s "")
  | None => false
  end.

(** The test [main] makes before it creates anything. *)
Definition main_check_suffix (args : Args) : result unit :=
  if has_suffix args
     && Nat.ltb 14 (PyStr.len (default "" (arg_suffix args)))
  then Err ValueError
  else Ok ().

(** [common_parameters] and [initial_parameters] of [main]. *)
Definition main_common_parameters (args : Args) : list (string * value) :=
  if has_suffix args then dict_set "suffix" (VStr (default "" (arg_suffix args))) []
  else [].

Definition main_initial_parameters (args : Args) : list (string * value) :=
  dict_update [("use_shared_keys", VBool (negb (arg_no_shared_keys args)))]
              (main_common_parameters args).

(** The two deployments [main] builds itself. *)
Definition main_initial_resources (args : Args) : BicepDeployment :=
  BicepDeployment_init (arg_resource_group args) (arg_resource_group args)
    (Pathlib.parse "rg.bicep") (main_initial_parameters args) "initial resources".

Definition main_event_grid_deployment (args : Args) : BicepDeployment :=
  BicepDeployment_init (arg_resource_group args +:+ "_eg") (arg_resource_group args)
    (Pathlib.parse "rg_add_eventgrid.bicep") (main_common_parameters args)
    "Event Grid trigger configuration".

End Values.

(** *** Vocabulary of the properties *)

(** An entry of the deployment's outputs that [outputs] accepts: an object
    whose type is the string [String] and that has a value. *)
Definition string_output (info v : value) : Prop :=
  ∃ d, info = VDict d ∧ dict_get "type" d = Some (VStr "String")
       ∧ dict_get "value" d = Some v.

(** An entry that [outputs] does not accept, with the exception it raises
    for it. *)
Inductive rejected_output : value → error → Prop :=
  | rejected_not_object info :
      (∀ d, info ≠ VDict d) → rejected_output info TypeError
  | rejected_no_type d :
      dict_get "type" d = None → rejected_output (VDict d) KeyError
  | rejected_type d ty :
      dict_get "type" d = Some ty → ty ≠ VStr "String" →
      rejected_output (VDict d) ValueError
  | rejected_no_value d :
      dict_get "type" d = Some (VStr "String") → dict_get "value" d = None →
      rejected_output (VDict d) KeyError.

(** A poll after which [wait_for_event_trigger] sleeps and polls again: the
    process failed, or it printed no JSON, or it printed a list of names none
    of which contains [eventGridTrigger]. *)
Definition quiet (r : response) : Prop :=
  r = Failed ∨ r = Exited NotJson
  ∨ ∃ names, r = Exited (JsonText (VList (VStr <$> names)))
             ∧ ∀ n, n ∈ names → PyStr.contains n "eventGridTrigger" = false.

(** The flags [main] passes for [--suffix]. *)
Definition suffix_flags (args : Args) : list string :=
  match arg_suffix args with
  | Some s => if String.eqb s "" then [] else ["--parameter"; "suffix=" +:+ s]
  | None => []
  end.

End Scripts.

(** * Properties *)

#[local] Arguments String.append : simpl nomatch.
#[local] Arguments PyStr.endswith : simpl never.
#[local] Arguments String.eqb : simpl never.

(** ** Strings *)

Section StringFacts.

Implicit Types s p suf : string.

Lemma append_nil_r s : s +:+ "" = s.
Proof. induction s as [|a s IH]; simpl; [done | by f_equal]. Qed.

Lemma append_assoc s1 s2 s3 : (s1 +:+ s2) +:+ s3 = s1 +:+ (s2 +:+ s3).
Proof. induction s1 as [|a s1 IH]; simpl; [done | by f_equal]. Qed.

Lemma append_length s1 s2 :
  String.length (s1 +:+ s2) = String.length s1 + String.length s2.
Proof. induction s1 as [|a s1 IH]; simpl; [done | by f_equal]. Qed.

Lemma endswith_unfold s suf :
  PyStr.endswith s suf =
    if String.eqb s suf then true
    else match s with "" => false | String _ s' => PyStr.endswith s' suf end.
Proof. by destruct s. Qed.

Lemma endswith_refl s : PyStr.endswith s s = true.
Proof. by rewrite endswith_unfold, String.eqb_refl. Qed.

Lemma endswith_cons a s suf :
  PyStr.endswith s suf = true → PyStr.endswith (String a s) suf = true.
Proof. intros H. rewrite endswith_unfold, H. by destruct (String.eqb _ _). Qed.

Lemma endswith_app p suf : PyStr.endswith (p +:+ suf) suf = true.
Proof.
  induction p as [|a p IH]; simpl.
  - apply endswith_refl.
  - by apply endswith_cons.
Qed.

(** [endswith] is the suffix relation. *)
Lemma endswith_spec s suf :
  PyStr.endswith s suf = true ↔ ∃ p, s = p +:+ suf.
Proof.
  split.
  - induction s as [|a s IH]; rewrite endswith_unfold.
    + destruct (String.eqb_spec "" suf) as [<-|]; [|done].
      intros _. by exists "".
    + destruct (String.eqb_spec (String a s) suf) as [<-|].
      * intros _. by exists "".
      * intros [p ->]%IH. by exists (String a p).
  - intros [p ->]. apply endswith_app.
Qed.

Lemma endswith_trans s t u :
  PyStr.endswith s t = true → PyStr.endswith t u = true → PyStr.endswith s u = true.
Proof.
  intros [p ->]%endswith_spec [q ->]%endswith_spec.
  rewrite <- append_assoc. apply endswith_app.
Qed.

Lemma endswith_length s suf :
  PyStr.endswith s suf = true → (String.length suf ≤ String.length s)%nat.
Proof. intros [p ->]%endswith_spec. rewrite append_length. lia. Qed.

(** A proper tail of [String a s] that is a suffix is a suffix of [s]. *)
Lemma endswith_uncons a s suf :
  PyStr.endswith (String a s) suf = true → String a s ≠ suf →
  PyStr.endswith s suf = true.
Proof.
  rewrite endswith_unfold.
  by destruct (String.eqb_spec (String a s) suf).
Qed.

Lemma last_char_app d s a t : last_char d (s +:+ String a t) = last_char a t.
Proof. revert d. induction s as [|b s IH]; intros d; simpl; [done | apply IH]. Qed.

Lemma endswith_last_char d s a t :
  PyStr.endswith s (String a t) = true → last_char d s = last_char a t.
Proof. intros [p ->]%endswith_spec. apply last_char_app. Qed.

(** A package name is not a metadata name: the two end with different
    characters. *)
Lemma package_name_not_metadata_name s :
  is_package_name s = true → is_metadata_name s = false.
Proof.
  unfold is_package_name, is_metadata_name. intros H.
  destruct (PyStr.endswith s ".package") eqn:E; [|done].
  apply (endswith_last_char "x") in H. apply (endswith_last_char "x") in E.
  rewrite H in E. simpl in E. discriminate.
Qed.

Lemma metadata_name_not_package_name s :
  is_metadata_name s = true → is_package_name s = false.
Proof.
  intros H. destruct (is_package_name s) eqn:E; [|done].
  apply package_name_not_metadata_name in E. congruence.
Qed.

(** *** [rstrip] *)

Lemma take_append_length s t :
  PyStr.take (String.length (s +:+ t) - String.length t) (s +:+ t) = s.
Proof.
  rewrite append_length. replace (String.length s + String.length t - String.length t)%nat
    with (String.length s) by lia.
  induction s as [|a s IH]; cbn [String.append String.length PyStr.take].
  - by destruct t.
  - by rewrite IH.
Qed.

(** What [strip_last] removes is one of the characters. *)
Lemma strip_last_Some chars s s' :
  PyStr.strip_last chars s = Some s' → ∃ c, c ∈ chars ∧ s = s' +:+ c.
Proof.
  induction chars as [|c chars IH]; cbn [PyStr.strip_last]; [done|].
  destruct (PyStr.endswith s c) eqn:E.
  - apply endswith_spec in E as [p ->]. rewrite take_append_length.
    intros [= <-]. exists c. split; [apply list_elem_of_here | done].
  - intros (c' & Hc' & ->)%IH. exists c'. split; [by apply list_elem_of_further | done].
Qed.

(** Where [strip_last] removes nothing, the string ends with none of the
    characters. *)
Lemma strip_last_None chars s c :
  PyStr.strip_last chars s = None → c ∈ chars → PyStr.endswith s c = false.
Proof.
  induction chars as [|c' chars IH]; cbn [PyStr.strip_last]; [by intros _ ?%elem_of_nil|].
  destruct (PyStr.endswith s c') eqn:E; [done|].
  intros Hn [->|Hc]%elem_of_cons; [done | by apply IH].
Qed.

Lemma whitespace_nonempty c : c ∈ PyStr.whitespace → (0 < String.length c)%nat.
Proof.
  revert c. apply Forall_forall.
  apply (bool_decide_unpack (Forall (λ c, 0 < String.length c)%nat PyStr.whitespace)).
  vm_compute. exact I.
Qed.

Lemma concat_bytes_snoc l c : concat_bytes (l ++ [c]) = concat_bytes l +:+ c.
Proof.
  induction l as [|x l IH]; cbn [app concat_bytes foldr].
  - apply append_nil_r.
  - fold (concat_bytes (l ++ [c])) (concat_bytes l). by rewrite IH, append_assoc.
Qed.

(** The loop removes a tail made of white space characters. *)
Lemma rstrip_loop_decompose n s :
  ∃ ws, s = PyStr.rstrip_loop n s +:+ ws ∧ all_space ws.
Proof.
  revert s. induction n as [|n IH]; intros s; cbn [PyStr.rstrip_loop].
  - exists "". split; [by rewrite append_nil_r | by exists []].
  - destruct (PyStr.strip_last PyStr.whitespace s) as [s'|] eqn:E.
    + apply strip_last_Some in E as (c & Hc & ->).
      destruct (IH s') as (ws & Hs' & chars & Hchars & ->).
      exists (concat_bytes (chars ++ [c])). split.
      * rewrite concat_bytes_snoc, <- append_assoc. by rewrite <- Hs'.
      * exists (chars ++ [c]). split; [|done].
        apply Forall_app. split; [done|]. by constructor.
    + exists "". split; [by rewrite append_nil_r | by exists []].
Qed.

(** With as many turns as the string has bytes, the loop ends on a string
    whose last character is not white space. *)
Lemma rstrip_loop_done n s :
  (String.length s ≤ n)%nat →
  PyStr.strip_last PyStr.whitespace (PyStr.rstrip_loop n s) = None.
Proof.
  revert s. induction n as [|n IH]; intros s Hn; cbn [PyStr.rstrip_loop].
  - destruct (PyStr.strip_last PyStr.whitespace s) as [s'|] eqn:E; [|done].
    apply strip_last_Some in E as (c & Hc%whitespace_nonempty & ->).
    rewrite append_length in Hn. lia.
  - destruct (PyStr.strip_last PyStr.whitespace s) as [s'|] eqn:E; [|done].
    apply IH. apply strip_last_Some in E as (c & Hc%whitespace_nonempty & ->).
    rewrite append_length in Hn. lia.
Qed.

(** [rstrip] removes a tail made of white space characters only. *)
Lemma rstrip_decompose s : ∃ ws, s = PyStr.rstrip s +:+ ws ∧ all_space ws.
Proof. apply rstrip_loop_decompose. Qed.

(** What [rstrip] returns does not end with a white space character. *)
Lemma rstrip_last_not_space s c :
  c ∈ PyStr.whitespace → PyStr.endswith (PyStr.rstrip s) c = false.
Proof.
  intros Hc. apply (strip_last_None PyStr.whitespace); [|done].
  by apply rstrip_loop_done.
Qed.

End StringFacts.

(** ** Paths *)

Section PathFacts.

Import Pathlib.

Lemma split_nonempty c s : PyStr.split c s ≠ [].
Proof.
  destruct s as [|a s]; simpl; [done|].
  destruct (Ascii.eqb a c); [done|]. by destruct (PyStr.split c s).
Qed.

(** Stripping leading separators keeps a suffix that does not start with
    one. *)
Lemma lstrip_endswith c a suf s :
  Ascii.eqb a c = false →
  PyStr.endswith s (String a suf) = true →
  PyStr.endswith (PyStr.lstrip_char c s).2 (String a suf) = true.
Proof.
  intros Hac. induction s as [|b s IH]; [done|].
  intros H. simpl. destruct (Ascii.eqb b c) eqn:Hbc; [|done].
  destruct (PyStr.lstrip_char c s) as [n r] eqn:E. simpl.
  apply IH. apply endswith_uncons in H; [done|].
  intros [= -> ->]. congruence.
Qed.

(** The last component of a split string carries the suffix of the string,
    for a suffix that holds no separator. *)
Lemma split_last_endswith c suf s d :
  PyStr.split c suf = [suf] →
  PyStr.endswith s suf = true →
  PyStr.endswith (List.last (PyStr.split c s) d) suf = true.
Proof.
  intros Hsuf. induction s as [|b s IH]; intros H.
  - rewrite endswith_unfold in H.
    destruct (String.eqb_spec "" suf) as [<-|]; [done | done].
  - destruct (String.eqb_spec (String b s) suf) as [<-|Hne].
    { rewrite Hsuf. simpl. apply endswith_refl. }
    apply endswith_uncons in H; [|done]. specialize (IH H).
    pose proof (split_nonempty c s) as Hs.
    simpl. destruct (Ascii.eqb b c).
    + by destruct (PyStr.split c s).
    + destruct (PyStr.split c s) as [|h [|h' t]] eqn:E; [done | | done].
      simpl in *. by apply endswith_cons.
Qed.

Lemma last_elem_of {A} (l : list A) d : l ≠ [] → List.last l d ∈ l.
Proof.
  induction l as [|x [|y l] IH]; intros Hne; [done | apply list_elem_of_here |].
  apply list_elem_of_further. by apply IH.
Qed.

Lemma last_filter_keep {A} (P : A → Prop) `{∀ x, Decision (P x)} (l : list A) d :
  l ≠ [] → P (List.last l d) → List.last (filter P l) d = List.last l d.
Proof.
  induction l as [|x [|y l] IH]; intros Hne HP; [done | |].
  - simpl in *. by rewrite filter_cons_True.
  - specialize (IH ltac:(done) HP).
    change (List.last (x :: y :: l) d) with (List.last (y :: l) d) in *.
    assert (List.last (y :: l) d ∈ filter P (y :: l)) as Hin.
    { apply list_elem_of_filter. split; [done|].
      by apply last_elem_of. }
    destruct (decide (P x)).
    + rewrite filter_cons_True by done.
      destruct (filter P (y :: l)) eqn:E; [by apply elem_of_nil in Hin | done].
    + by rewrite filter_cons_False.
Qed.

Lemma splitroot_endswith a suf s :
  Ascii.eqb a sep = false →
  PyStr.endswith s (String a suf) = true →
  PyStr.endswith (splitroot s).2 (String a suf) = true.
Proof.
  intros Ha H. unfold splitroot. destruct s as [|b s]; [done|].
  destruct (Ascii.eqb b sep) eqn:Hb; [|done].
  pose proof (lstrip_endswith sep a suf (String b s) Ha H) as Hl.
  destruct (PyStr.lstrip_char sep (String b s)) as [n r].
  by destruct (Nat.eqb n 2).
Qed.

(** The last component of the path of a package name ends with [.deb]. *)
Lemma name_parse_package s :
  is_package_name s = true → PyStr.endswith (name (parse s)) ".deb" = true.
Proof.
  intros H. unfold name, parse.
  pose proof (splitroot_endswith "." "deb" s eq_refl H) as Hrel.
  destruct (splitroot s) as [r rel]. simpl in *.
  pose proof (split_last_endswith sep ".deb" rel "" eq_refl Hrel) as Hlast.
  rewrite last_filter_keep; [done | apply split_nonempty |].
  unfold keep_part.
  destruct (String.eqb_spec (List.last (PyStr.split sep rel) "") "") as [E|_].
  { by rewrite E in Hlast. }
  destruct (String.eqb_spec (List.last (PyStr.split sep rel) "") ".") as [E|_].
  { by rewrite E in Hlast. }
  done.
Qed.

Lemma join_snoc_endswith sp l x : PyStr.endswith (PyStr.join sp (l ++ [x])) x = true.
Proof.
  induction l as [|y l IH]; simpl.
  - apply endswith_refl.
  - destruct (l ++ [x])%list eqn:E; [by destruct l|].
    rewrite <- append_assoc. eapply endswith_trans; [apply endswith_app | done].
Qed.

Lemma str_snoc_endswith r l x : PyStr.endswith (str (mkPath r (l ++ [x]))) x = true.
Proof.
  unfold str. simpl.
  assert (PyStr.endswith (r +:+ PyStr.join "/" (l ++ [x])) x = true) as H.
  { eapply endswith_trans; [apply endswith_app | apply join_snoc_endswith]. }
  destruct r; [|done]. destruct (l ++ [x])%list eqn:E; [by destruct l | done].
Qed.

Lemma rfind_app_Some c s t i :
  PyStr.rfind c t = Some i → PyStr.rfind c (s +:+ t) = Some (String.length s + i).
Proof.
  intros Ht. induction s as [|a s IH]; [done|].
  cbn [String.append PyStr.rfind String.length]. by rewrite IH.
Qed.

Lemma drop_app_length s t : PyStr.drop (String.length s) (s +:+ t) = t.
Proof. induction s as [|a s IH]; [by destruct t | done]. Qed.

Lemma take_app_length s t : PyStr.take (String.length s) (s +:+ t) = s.
Proof.
  induction s as [|a s IH]; [by destruct t|].
  cbn [String.append PyStr.take String.length]. by rewrite IH.
Qed.

(** On a path whose last component is [stem.deb], with a stem that is not
    empty, [with_suffix] replaces [.deb]: the other components and the root
    are kept and the last component becomes [stem.package]. *)
Lemma with_suffix_replaces_deb r ps stem :
  stem ≠ "" →
  with_suffix (mkPath r (ps ++ [stem +:+ ".deb"])) ".package"
  = Return (mkPath r (ps ++ [stem +:+ ".package"])).
Proof.
  intros Hstem.
  assert (0 < String.length stem)%nat as Hlen by (destruct stem; [done | cbn; lia]).
  unfold with_suffix, suffix, name. cbn [root parts].
  rewrite List.last_last, List.removelast_last.
  destruct (String.eqb_spec (stem +:+ ".deb") "") as [E|_].
  { apply (f_equal String.length) in E. rewrite append_length in E. cbn in E. lia. }
  rewrite (rfind_app_Some "." stem ".deb" 0 eq_refl), append_length, Nat.add_0_r.
  cbn [String.length].
  replace (0 <? String.length stem)%nat with true by (symmetry; apply Nat.ltb_lt; lia).
  replace (String.length stem <? String.length stem + 4 - 1)%nat with true
    by (symmetry; apply Nat.ltb_lt; lia).
  cbn [andb]. rewrite drop_app_length.
  change (String.eqb ".deb" "") with false. cbn [String.length].
  replace (String.length stem + 4 - 4)%nat with (String.length stem) by lia.
  by rewrite take_app_length.
Qed.

(** Whatever [with_suffix] returns ends with the new suffix. *)
Lemma with_suffix_endswith p suf q :
  with_suffix p suf = Return q → PyStr.endswith (str q) suf = true.
Proof.
  unfold with_suffix. destruct (String.eqb (name p) ""); [done|].
  intros [= <-].
  eapply endswith_trans; [apply str_snoc_endswith|].
  destruct (String.eqb (suffix p) ""); apply endswith_app.
Qed.

(** On a package name [with_suffix] does not raise. *)
Lemma with_suffix_package s suf :
  is_package_name s = true → ∃ q, with_suffix (parse s) suf = Return q.
Proof.
  intros H%name_parse_package. unfold with_suffix.
  destruct (String.eqb_spec (name (parse s)) "") as [E|_]; [|by eexists].
  by rewrite E in H.
Qed.

Lemma record_name_of_package s :
  is_package_name s = true →
  ∃ k, record_name_of s = Some k ∧ is_metadata_name k = true ∧ k ≠ s.
Proof.
  intros H. destruct (with_suffix_package s ".package" H) as [q Hq].
  unfold record_name_of. rewrite Hq. eexists. split; [done|].
  pose proof (with_suffix_endswith _ _ _ Hq) as He. split; [done|].
  intros E. apply package_name_not_metadata_name in H.
  unfold is_metadata_name in H. congruence.
Qed.

(** A last component that is [.deb] and nothing more has no suffix for
    pathlib: [with_suffix] adds the new suffix to it. *)
Lemma with_suffix_bare_deb r ps :
  with_suffix (mkPath r (ps ++ [".deb"])) ".package"
  = Return (mkPath r (ps ++ [".deb.package"])).
Proof.
  unfold with_suffix, suffix, name. cbn [root parts].
  by rewrite List.last_last, List.removelast_last.
Qed.

(** The path of a package name has a last component, which ends with
    [.deb]. *)
Lemma parse_package_parts s :
  is_package_name s = true →
  ∃ r ps stem, parse s = mkPath r (ps ++ [stem +:+ ".deb"]).
Proof.
  intros H%name_parse_package. destruct (parse s) as [r ps]. unfold name in H.
  cbn [parts] in H. destruct ps as [|x ps _] using rev_ind; [done|].
  rewrite List.last_last in H. apply endswith_spec in H as [stem ->].
  by exists r, ps, stem.
Qed.

End PathFacts.

(** ** The store *)

Section StoreFacts.

Implicit Types (l : list (string * Blob)) (k : string) (b : Blob).

Lemma store_get_put_eq k b l : store_get k (store_put k b l) = Some b.
Proof.
  induction l as [|[k' b'] l IH]; simpl.
  - by rewrite String.eqb_refl.
  - destruct (String.eqb k' k) eqn:E; simpl; by rewrite E.
Qed.

Lemma store_get_put_ne k k' b l :
  k ≠ k' → store_get k' (store_put k b l) = store_get k' l.
Proof.
  intros Hne. induction l as [|[k0 b0] l IH]; simpl.
  - by destruct (String.eqb_spec k k').
  - destruct (String.eqb_spec k0 k) as [->|]; simpl.
    + by destruct (String.eqb_spec k k').
    + by rewrite IH.
Qed.

Lemma store_get_Some_elem_of k b l : store_get k l = Some b → (k, b) ∈ l.
Proof.
  induction l as [|[k0 b0] l IH]; simpl; [done|].
  destruct (String.eqb_spec k0 k) as [->|].
  - intros [= ->]. apply list_elem_of_here.
  - intros H. apply list_elem_of_further. by apply IH.
Qed.

Lemma store_get_is_Some k l : is_Some (store_get k l) ↔ k ∈ l.*1.
Proof.
  induction l as [|[k0 b0] l IH]; simpl.
  - split; [by intros [? ?] | by intros ?%elem_of_nil].
  - destruct (String.eqb_spec k0 k) as [->|Hne].
    + split; [intros _; apply list_elem_of_here | by eexists].
    + rewrite IH. split; [apply list_elem_of_further|].
      intros [?|?]%elem_of_cons; [congruence | done].
Qed.

(** With distinct names, looking a name up gives the blob listed with it. *)
Lemma store_get_NoDup k b l : NoDup l.*1 → (k, b) ∈ l → store_get k l = Some b.
Proof.
  induction l as [|[k0 b0] l IH]; simpl; [by intros _ ?%elem_of_nil|].
  intros [Hk0 Hnd]%NoDup_cons [[= -> ->]|Hin]%elem_of_cons.
  - by rewrite String.eqb_refl.
  - destruct (String.eqb_spec k0 k) as [->|]; [|by apply IH].
    exfalso. apply Hk0. apply list_elem_of_fmap. by exists (k, b).
Qed.

(** A write keeps the enumeration, or extends it at its end. *)
Lemma store_put_names k b l :
  (store_put k b l).*1 = if decide (k ∈ l.*1) then l.*1 else l.*1 ++ [k].
Proof.
  induction l as [|[k0 b0] l IH]; [done|].
  rewrite fmap_cons. cbn [store_put fst].
  destruct (String.eqb_spec k0 k) as [->|Hne]; rewrite fmap_cons; cbn [fst].
  - rewrite decide_True; [done | apply list_elem_of_here].
  - rewrite IH. destruct (decide (k ∈ l.*1)).
    + rewrite decide_True; [done | by apply list_elem_of_further].
    + rewrite decide_False; [done|].
      intros [?|?]%elem_of_cons; [congruence | done].
Qed.

Lemma store_put_NoDup k b l : NoDup l.*1 → NoDup (store_put k b l).*1.
Proof.
  intros H. rewrite store_put_names. destruct (decide (k ∈ l.*1)); [done|].
  apply NoDup_app. split; [done|]. split; [|apply NoDup_singleton].
  intros x Hx ->%list_elem_of_singleton. done.
Qed.

Lemma store_put_elem_of k b l x : x ∈ l.*1 → x ∈ (store_put k b l).*1.
Proof.
  intros H. rewrite store_put_names. destruct (decide (k ∈ l.*1)); [done|].
  apply elem_of_app. by left.
Qed.

(** A write to a name outside a class of names leaves the blobs of that
    class as they were listed. *)
Lemma store_put_filter (P : string → bool) k b l :
  P k = false →
  filter (λ e, P e.1 = true) (store_put k b l) = filter (λ e, P e.1 = true) l.
Proof.
  intros HP. induction l as [|[k0 b0] l IH]; simpl.
  - rewrite filter_cons_False; [done | simpl; congruence].
  - destruct (String.eqb_spec k0 k) as [->|Hne].
    + rewrite !filter_cons_False; [done | simpl; congruence | simpl; congruence].
    + destruct (P k0) eqn:E.
      * rewrite !filter_cons_True by done. by rewrite IH.
      * rewrite !filter_cons_False by (simpl; congruence). done.
Qed.

Lemma spec_index_buffer_put k b l :
  is_metadata_name k = false → spec_index_buffer (store_put k b l) = spec_index_buffer l.
Proof.
  intros H. unfold spec_index_buffer.
  by rewrite (store_put_filter is_metadata_name).
Qed.

Lemma uploads_app t1 t2 : uploads (t1 ++ t2) = uploads t1 ++ uploads t2.
Proof.
  induction t1 as [|[n|m|m] t1 IH]; simpl; [done | by rewrite IH | done | done].
Qed.

End StoreFacts.


(** ** Runs of the operations *)

Section Runs.

Context (lib : Library).

Lemma logged_nil w : logged [] w = w.
Proof. by destruct w. Qed.

Lemma logged_logged e1 e2 w : logged e1 (logged e2 w) = logged (e1 ++ e2) w.
Proof. unfold logged. simpl. by rewrite app_assoc. Qed.

Lemma same_store_logged evs w : uploads evs = [] → same_store w (logged evs w).
Proof.
  intros H. unfold same_store, logged. simpl.
  by rewrite uploads_app, H.
Qed.

Lemma bool_decide_is_Some {A} (o : option A) :
  bool_decide (is_Some o) = match o with Some _ => true | None => false end.
Proof.
  destruct o.
  - apply bool_decide_eq_true_2. by eexists.
  - apply bool_decide_eq_false_2. by intros [? ?].
Qed.

(** [PackageBlob.__init__] reads the store and leaves the world as it is. *)
Lemma PackageBlob_init_run name w :
  PackageBlob_init lib name w =
    match store_get name (blobs w) with
    | None => (Raise ResourceNotFoundError, w)
    | Some a =>
        match Pathlib.with_suffix (Pathlib.parse name) ".package" with
        | Return q =>
            (Return (mkPackageBlob (Pathlib.parse name) name
                       (str_datetime lib (last_modified a)) q), w)
        | Raise e => (Raise e, w)
        end
    end.
Proof.
  unfold PackageBlob_init, mbind, M_bind, get_blob_properties, lift_outcome.
  destruct (store_get name (blobs w)); [|done].
  by destruct (Pathlib.with_suffix _ _).
Qed.

Lemma create_metadata_run pb w :
  create_metadata lib pb w =
    let w1 := logged [LogInfo ("Creating metadata file for: " +:+ Pathlib.str (path pb))] w in
    match store_get (blob_name pb) (blobs w) with
    | None => (Raise ResourceNotFoundError, w1)
    | Some a =>
        match dpkg_control_str lib (content a) with
        | None => (Raise DpkgError, w1)
        | Some ctl =>
            let contents := metadata_contents lib pb ctl (content a) in
            (Return (),
             mkWorld (store_put (metadata_blob_name pb)
                        (mkBlob contents (clock w) {[ DEB_CHECK_KEY := pb_last_modified pb ]})
                        (blobs w))
                     (N.succ (clock w))
                     (Upload (metadata_blob_name pb)
                      :: LogInfo ("Metadata info for " +:+ Pathlib.str (path pb)
                                  +:+ ": " +:+ contents)
                      :: trace w1))
        end
    end.
Proof.
  unfold create_metadata, mbind, M_bind, log_info, emit, download_blob, raise,
    upload_blob, logged.
  simpl. destruct (store_get (blob_name pb) (blobs w)) as [a|]; [|done].
  destruct (dpkg_control_str lib (content a)); [|done].
  simpl. by rewrite andb_false_r.
Qed.

Lemma check_run pb w :
  check lib pb w =
    let checking := LogInfo ("Checking package: " +:+ Pathlib.str (path pb)) in
    match store_get (metadata_blob_name pb) (blobs w) with
    | None =>
        create_metadata lib pb
          (logged [LogError ("Metadata file missing for: " +:+ Pathlib.str (path pb));
                   checking] w)
    | Some r =>
        match metadata r !! DEB_CHECK_KEY with
        | None =>
            create_metadata lib pb
              (logged [LogError ("Metadata file missing DebLastModified for: "
                                 +:+ Pathlib.str (path pb)); checking] w)
        | Some v =>
            if String.eqb (pb_last_modified pb) v then (Return (), logged [checking] w)
            else
              create_metadata lib pb
                (logged [LogError ("Metadata file out of date for: "
                                   +:+ Pathlib.str (path pb)); checking] w)
        end
    end.
Proof.
  unfold check, mbind, M_bind, mret, M_ret, log_info, log_error, emit,
    blob_exists, get_blob_properties, logged.
  cbn [blobs clock trace]. rewrite bool_decide_is_Some.
  destruct (store_get (metadata_blob_name pb) (blobs w)) as [r|] eqn:E;
    cbn beta iota delta [negb blobs clock trace]; [|done].
  rewrite E. destruct (metadata r !! DEB_CHECK_KEY) as [v|]; [|done].
  by destruct (String.eqb (pb_last_modified pb) v).
Qed.

End Runs.


(** ** [PackageBlob]: construction, [check] and [create_metadata] *)

Section PackageBlobFacts.

Context (lib : Library).

Lemma endswith_append_l p s suf :
  PyStr.endswith s suf = true → PyStr.endswith (p +:+ s) suf = true.
Proof. intros H. eapply endswith_trans; [apply endswith_app | done]. Qed.

(** What a successful construction yields. *)
Lemma PackageBlob_init_Return name w pb w0 :
  PackageBlob_init lib name w = (Return pb, w0) →
  w0 = w ∧
  ∃ a q,
    store_get name (blobs w) = Some a ∧
    Pathlib.with_suffix (Pathlib.parse name) ".package" = Return q ∧
    pb = mkPackageBlob (Pathlib.parse name) name (str_datetime lib (last_modified a)) q.
Proof.
  rewrite PackageBlob_init_run.
  destruct (store_get name (blobs w)) as [a|]; [|done].
  destruct (Pathlib.with_suffix _ _) as [q|] eqn:E; [|done].
  intros [= <- <-]. split; [done|]. by exists a, q.
Qed.

Lemma PackageBlob_init_record_name name w pb w0 :
  PackageBlob_init lib name w = (Return pb, w0) →
  record_name_of name = Some (metadata_blob_name pb) ∧ blob_name pb = name.
Proof.
  intros (_ & a & q & _ & Hq & ->)%PackageBlob_init_Return.
  unfold record_name_of. by rewrite Hq.
Qed.

(** Construction succeeds for every package of the container. *)
Lemma PackageBlob_init_package name w a :
  is_package_name name = true →
  store_get name (blobs w) = Some a →
  ∃ pb, PackageBlob_init lib name w = (Return pb, w).
Proof.
  intros Hn Ha. rewrite PackageBlob_init_run, Ha.
  destruct (with_suffix_package name ".package" Hn) as [q ->]. by eexists.
Qed.

(** The world [create_metadata] ends in when it returns. *)
Lemma create_metadata_Return pb w w' :
  create_metadata lib pb w = (Return (), w') →
  ∃ a control_str,
    store_get (blob_name pb) (blobs w) = Some a ∧
    dpkg_control_str lib (content a) = Some control_str ∧
    blobs w' = store_put (metadata_blob_name pb)
                 (mkBlob (metadata_contents lib pb control_str (content a)) (clock w)
                         {[ DEB_CHECK_KEY := pb_last_modified pb ]})
                 (blobs w) ∧
    clock w' = N.succ (clock w) ∧
    uploads (trace w') = metadata_blob_name pb :: uploads (trace w).
Proof.
  rewrite create_metadata_run. cbv zeta.
  destruct (store_get (blob_name pb) (blobs w)) as [a|] eqn:Ea; [|done].
  destruct (dpkg_control_str lib (content a)) as [c|] eqn:Ec; [|done].
  intros [= <-]. by exists a, c.
Qed.

(** When [create_metadata] raises it has written nothing. *)
Lemma create_metadata_Raise pb w e w' :
  create_metadata lib pb w = (Raise e, w') → same_store w w'.
Proof.
  rewrite create_metadata_run. cbv zeta.
  destruct (store_get (blob_name pb) (blobs w)) as [a|].
  - destruct (dpkg_control_str lib (content a)) as [c|]; [done|].
    intros [= _ <-]. by apply same_store_logged.
  - intros [= _ <-]. by apply same_store_logged.
Qed.

(** The two ways through [check]. *)
Lemma check_cases pb w :
  let checking := LogInfo ("Checking package: " +:+ Pathlib.str (path pb)) in
  (tag_matches pb w ∧ check lib pb w = (Return (), logged [checking] w))
  ∨ (¬ tag_matches pb w ∧
     ∃ msg, check lib pb w = create_metadata lib pb (logged [LogError msg; checking] w)).
Proof.
  intros checking. rewrite check_run. fold checking. unfold tag_matches.
  destruct (store_get (metadata_blob_name pb) (blobs w)) as [r|].
  - destruct (metadata r !! DEB_CHECK_KEY) as [v|] eqn:Ev.
    + destruct (String.eqb_spec (pb_last_modified pb) v) as [->|Hne].
      * left. split; [by exists r | done].
      * right. split; [|by eexists]. intros (r' & [= <-] & Hr). congruence.
    + right. split; [|by eexists]. intros (r' & [= <-] & Hr). congruence.
  - right. split; [|by eexists]. by intros (r' & ? & _).
Qed.

End PackageBlobFacts.


(** * Properties of [PackageBlob] *)

(** C6. Every metadata record body written by [create_metadata] has this
    shape: the control text of the artifact with its trailing white space
    removed (what is removed is made of white space characters, in the sense
    of [str.isspace], and what is left ends with none), then the lines
    [Filename: <artifact path>], [MD5sum: <md5>], [SHA1: <sha1>],
    [SHA256: <sha256>] and [Size: <byte size>], each ended by a line feed,
    then one more line feed, so that the body ends with two. *)
Theorem create_metadata_body_shape lib pb w w' :
  create_metadata lib pb w = (Return (), w') →
  ∃ a control_str r,
    store_get (blob_name pb) (blobs w) = Some a ∧
    dpkg_control_str lib (content a) = Some control_str ∧
    store_get (metadata_blob_name pb) (blobs w') = Some r ∧
    content r =
      PyStr.rstrip control_str +:+ nl +:+
      "Filename: " +:+ Pathlib.str (path pb) +:+ nl +:+
      "MD5sum: " +:+ dpkg_md5 lib (content a) +:+ nl +:+
      "SHA1: " +:+ dpkg_sha1 lib (content a) +:+ nl +:+
      "SHA256: " +:+ dpkg_sha256 lib (content a) +:+ nl +:+
      "Size: " +:+ pretty (String.length (content a)) +:+ nl +:+
      nl ∧
    (∃ ws, control_str = PyStr.rstrip control_str +:+ ws ∧ all_space ws) ∧
    (∀ c, c ∈ PyStr.whitespace →
          PyStr.endswith (PyStr.rstrip control_str) c = false) ∧
    PyStr.endswith (content r) (nl +:+ nl) = true.
Proof.
  intros (a & c & Ha & Hc & Hb & _ & _)%create_metadata_Return.
  eexists a, c, _. split; [done|]. split; [done|].
  split; [rewrite Hb; apply store_get_put_eq|].
  split; [done|]. split; [apply rstrip_decompose|].
  split; [intros ch; apply rstrip_last_not_space|].
  cbn [content]. unfold metadata_contents.
  do 16 apply endswith_append_l. apply endswith_refl.
Qed.

Lemma create_metadata_body_shape_witness :
  ∃ a control_str r,
    store_get "foo_1.0.deb" (blobs Demo.world_foo) = Some a ∧
    dpkg_control_str Demo.library (content a) = Some control_str ∧
    store_get "foo_1.0.package"
      (blobs (create_metadata Demo.library Demo.foo_pb Demo.world_foo).2) = Some r ∧
    content r =
      PyStr.rstrip control_str +:+ nl +:+
      "Filename: " +:+ "foo_1.0.deb" +:+ nl +:+
      "MD5sum: " +:+ dpkg_md5 Demo.library (content a) +:+ nl +:+
      "SHA1: " +:+ dpkg_sha1 Demo.library (content a) +:+ nl +:+
      "SHA256: " +:+ dpkg_sha256 Demo.library (content a) +:+ nl +:+
      "Size: " +:+ pretty (String.length (content a)) +:+ nl +:+
      nl ∧
    (∃ ws, control_str = PyStr.rstrip control_str +:+ ws ∧ all_space ws) ∧
    (∀ c, c ∈ PyStr.whitespace →
          PyStr.endswith (PyStr.rstrip control_str) c = false) ∧
    PyStr.endswith (content r) (nl +:+ nl) = true.
Proof.
  apply (create_metadata_body_shape Demo.library Demo.foo_pb Demo.world_foo
           (create_metadata Demo.library Demo.foo_pb Demo.world_foo).2).
  vm_compute. reflexivity.
Defined.

(** For a freshly built [PackageBlob], the tag test of [check] is the validity
    of the record. *)
Lemma valid_record_tag_matches lib name w pb w0 :
  PackageBlob_init lib name w = (Return pb, w0) →
  valid_record lib (blobs w) name (metadata_blob_name pb) = true ↔ tag_matches pb w.
Proof.
  intros (_ & a & q & Ha & _ & ->)%PackageBlob_init_Return.
  unfold valid_record, tag_matches. rewrite Ha. cbn [pb_last_modified].
  destruct (store_get (metadata_blob_name _) (blobs w)) as [r|]; cbn beta iota.
  - rewrite bool_decide_eq_true. split; [by exists r | by intros (? & [= <-] & ?)].
  - split; [done | by intros (? & ? & _)].
Qed.

(** C3. [check] recomputes the metadata record exactly when the record is
    absent, has no [DebLastModified] tag, or has a tag that is not, as a
    string, the artifact's current last-modified value.  In those cases it
    runs [create_metadata], which, when the package can be read, writes the
    record anew: the trimmed control text and the digests and size that
    pydpkg reports for the artifact's current content, tagged with the
    current last-modified value; when the package cannot be read it raises
    and writes nothing.  Otherwise [check] only logs: the container is
    untouched and nothing is uploaded. *)
Theorem check_recomputes_exactly_when_invalid lib name w pb w0 a :
  PackageBlob_init lib name w = (Return pb, w0) →
  store_get name (blobs w) = Some a →
  let record := metadata_blob_name pb in
  let current := str_datetime lib (last_modified a) in
  let checking := LogInfo ("Checking package: " +:+ Pathlib.str (path pb)) in
  if valid_record lib (blobs w) name record
  then check lib pb w = (Return (), logged [checking] w)
  else
    (store_get record (blobs w) = None
     ∨ (∃ r, store_get record (blobs w) = Some r ∧ metadata r !! DEB_CHECK_KEY = None)
     ∨ (∃ r v, store_get record (blobs w) = Some r ∧
               metadata r !! DEB_CHECK_KEY = Some v ∧ v ≠ current)) ∧
    (∃ msg, check lib pb w
            = create_metadata lib pb (logged [LogError msg; checking] w)) ∧
    (∀ control_str,
       dpkg_control_str lib (content a) = Some control_str →
       ∃ w', check lib pb w = (Return (), w') ∧
             blobs w' = store_put record
                          (mkBlob (PyStr.rstrip control_str +:+ nl +:+
                                   "Filename: " +:+ Pathlib.str (Pathlib.parse name) +:+ nl +:+
                                   "MD5sum: " +:+ dpkg_md5 lib (content a) +:+ nl +:+
                                   "SHA1: " +:+ dpkg_sha1 lib (content a) +:+ nl +:+
                                   "SHA256: " +:+ dpkg_sha256 lib (content a) +:+ nl +:+
                                   "Size: " +:+ pretty (String.length (content a)) +:+ nl +:+
                                   nl)
                                  (clock w) {[ DEB_CHECK_KEY := current ]})
                          (blobs w) ∧
             uploads (trace w') = record :: uploads (trace w)) ∧
    (dpkg_control_str lib (content a) = None →
     ∃ w', check lib pb w = (Raise DpkgError, w') ∧
           blobs w' = blobs w ∧ uploads (trace w') = uploads (trace w)).
Proof.
  intros Hinit Ha record current checking.
  pose proof (valid_record_tag_matches _ _ _ _ _ Hinit) as Hv.
  pose proof (PackageBlob_init_Return _ _ _ _ _ Hinit) as (_ & a' & q & Ha' & _ & Hpb).
  assert (a' = a) as -> by congruence.
  assert (pb_last_modified pb = current) as Hlm by (by rewrite Hpb).
  assert (blob_name pb = name) as Hbn by (by rewrite Hpb).
  destruct (check_cases lib pb w) as [[Htm Hc]|[Htm [msg Hc]]].
  - apply Hv in Htm. fold record in Htm. by rewrite Htm.
  - destruct (valid_record lib (blobs w) name record) eqn:E.
    { exfalso. apply Htm, Hv. done. }
    split; [|split; [by exists msg|split]].
    + unfold tag_matches in Htm. fold record in Htm. rewrite Hlm in Htm.
      destruct (store_get record (blobs w)) as [r|]; [|by left].
      right. destruct (metadata r !! DEB_CHECK_KEY) as [v|] eqn:Ev.
      * right. exists r, v. split; [done|]. split; [done|].
        intros ->. apply Htm. by exists r.
      * left. by exists r.
    + intros c Hc'. rewrite Hc, create_metadata_run. cbv zeta.
      cbn [blobs clock trace logged]. rewrite Hbn, Ha, Hc', Hlm.
      eexists. split; [done|]. split; [|done].
      assert (path pb = Pathlib.parse name) as Hpath by (by rewrite Hpb).
      cbn [blobs]. unfold metadata_contents, dpkg_filesize. by rewrite Hpath.
    + intros Hc'. rewrite Hc, create_metadata_run. cbv zeta.
      cbn [blobs clock trace logged]. rewrite Hbn, Ha, Hc'.
      eexists. by split.
Qed.

Lemma check_recomputes_exactly_when_invalid_witness :
  ∃ w', check Demo.library Demo.foo_pb Demo.world_foo = (Return (), w') ∧
        uploads (trace w') = ["foo_1.0.package"].
Proof.
  pose proof (check_recomputes_exactly_when_invalid Demo.library "foo_1.0.deb"
                Demo.world_foo Demo.foo_pb Demo.world_foo Demo.foo_deb
                eq_refl eq_refl) as H.
  cbv zeta in H.
  change (valid_record Demo.library (blobs Demo.world_foo) "foo_1.0.deb"
            (metadata_blob_name Demo.foo_pb)) with false in H.
  destruct H as (_ & _ & H & _).
  destruct (H ("Package: foo" +:+ nl +:+ "Version: 1.0" +:+ nl) eq_refl)
    as (w' & Hc & _ & Hu).
  exists w'. split; [exact Hc | exact Hu].
Defined.

(** After a successful [check] of a package, the artifact is as it was and
    the record carries the tag [check] looks for. *)
Lemma check_Return_post lib name w pb w0 w1 :
  is_package_name name = true →
  PackageBlob_init lib name w = (Return pb, w0) →
  check lib pb w0 = (Return (), w1) →
  store_get name (blobs w1) = store_get name (blobs w) ∧ tag_matches pb w1.
Proof.
  intros Hn Hinit Hc.
  pose proof (PackageBlob_init_record_name _ _ _ _ _ Hinit) as [Hrec Hbn].
  pose proof (PackageBlob_init_Return _ _ _ _ _ Hinit) as (-> & _).
  destruct (record_name_of_package name Hn) as (k & Hk & _ & Hne).
  assert (metadata_blob_name pb ≠ name) as Hne' by congruence.
  destruct (check_cases lib pb w) as [[Htm Hc']|[_ [msg Hc']]]; rewrite Hc' in Hc.
  - injection Hc as <-. done.
  - apply create_metadata_Return in Hc as (a & c & _ & _ & Hb & _ & _).
    cbn [logged blobs clock] in Hb. unfold tag_matches. rewrite Hb. split.
    + by apply store_get_put_ne.
    + eexists. split; [apply store_get_put_eq|]. cbn [metadata].
      apply lookup_singleton_eq.
Qed.

(** C2, as the code has it.  After a successful [check] of a package
    artifact, a metadata record exists under the name
    [str(Path(name).with_suffix(".package"))]: the artifact's name as [Path]
    normalises it, whose last component [stem.deb] has become [stem.package],
    or [.deb.package] when the stem is empty.  The record carries the
    [DebLastModified] tag, and the value of the tag is the text of the
    artifact's current last-modified value. *)
Theorem check_establishes_validity lib name w pb w0 w1 :
  is_package_name name = true →
  PackageBlob_init lib name w = (Return pb, w0) →
  check lib pb w0 = (Return (), w1) →
  ∃ root ps stem a r,
    Pathlib.parse name = Pathlib.mkPath root (ps ++ [stem +:+ ".deb"]) ∧
    metadata_blob_name pb
    = Pathlib.str (Pathlib.mkPath root
                     (ps ++ [if String.eqb stem "" then ".deb.package"
                             else stem +:+ ".package"])) ∧
    is_metadata_name (metadata_blob_name pb) = true ∧
    store_get name (blobs w1) = Some a ∧
    store_get name (blobs w) = Some a ∧
    store_get (metadata_blob_name pb) (blobs w1) = Some r ∧
    metadata r !! DEB_CHECK_KEY = Some (str_datetime lib (last_modified a)) ∧
    valid_record lib (blobs w1) name (metadata_blob_name pb) = true.
Proof.
  intros Hn Hinit Hc.
  destruct (check_Return_post _ _ _ _ _ _ Hn Hinit Hc) as [Hart (r & Hr & Htag)].
  pose proof (PackageBlob_init_Return _ _ _ _ _ Hinit) as (_ & a & q & Ha & Hq & ->).
  cbn [metadata_path pb_last_modified] in *. unfold metadata_blob_name in *.
  cbn [metadata_path] in *.
  destruct (parse_package_parts name Hn) as (root & ps & stem & Hparse).
  exists root, ps, stem, a, r. split; [done|]. split.
  { rewrite Hparse in Hq. destruct (String.eqb_spec stem "") as [->|Hstem].
    - change ("" +:+ ".deb") with ".deb" in Hq.
      rewrite with_suffix_bare_deb in Hq. by injection Hq as <-.
    - rewrite (with_suffix_replaces_deb root ps stem Hstem) in Hq. by injection Hq as <-. }
  split; [by apply (with_suffix_endswith _ _ _ Hq)|].
  rewrite Hart. split; [done|]. split; [done|]. split; [done|]. split; [done|].
  unfold valid_record. rewrite Hart, Ha, Hr. by apply bool_decide_eq_true.
Qed.

Lemma check_establishes_validity_witness :
  ∃ root ps stem a r,
    Pathlib.parse "foo_1.0.deb" = Pathlib.mkPath root (ps ++ [stem +:+ ".deb"]) ∧
    "foo_1.0.package"
    = Pathlib.str (Pathlib.mkPath root
                     (ps ++ [if String.eqb stem "" then ".deb.package"
                             else stem +:+ ".package"])) ∧
    is_metadata_name "foo_1.0.package" = true ∧
    store_get "foo_1.0.deb" (blobs Demo.world_foo_checked) = Some a ∧
    store_get "foo_1.0.deb" (blobs Demo.world_foo) = Some a ∧
    store_get "foo_1.0.package" (blobs Demo.world_foo_checked) = Some r ∧
    metadata r !! DEB_CHECK_KEY = Some (str_datetime Demo.library (last_modified a)) ∧
    valid_record Demo.library (blobs Demo.world_foo_checked)
      "foo_1.0.deb" "foo_1.0.package" = true.
Proof.
  apply (check_establishes_validity Demo.library "foo_1.0.deb" Demo.world_foo
           Demo.foo_pb Demo.world_foo Demo.world_foo_checked).
  - reflexivity.
  - reflexivity.
  - vm_compute. reflexivity.
Defined.

(** C2, as the specification states it, fails.  For the package [.deb] a
    successful [check] leaves no record at the name with the extension
    replaced, [.package]: the record is [.deb.package].  For the package
    [pool//foo.deb] it leaves none at [pool//foo.package]: the record is
    [pool/foo.package]. *)
Lemma record_is_not_at_the_replaced_extension :
  let w := mkWorld [(".deb", Demo.foo_deb)] 4 [] in
  let v := mkWorld [("pool//foo.deb", Demo.foo_deb)] 4 [] in
  is_package_name ".deb" = true ∧
  is_package_name "pool//foo.deb" = true ∧
  (∃ pb w1,
     PackageBlob_init Demo.library ".deb" w = (Return pb, w) ∧
     check Demo.library pb w = (Return (), w1) ∧
     store_get ".package" (blobs w1) = None ∧
     (blobs w1).*1 = [".deb"; ".deb.package"]) ∧
  (∃ pb v1,
     PackageBlob_init Demo.library "pool//foo.deb" v = (Return pb, v) ∧
     check Demo.library pb v = (Return (), v1) ∧
     store_get "pool//foo.package" (blobs v1) = None ∧
     (blobs v1).*1 = ["pool//foo.deb"; "pool/foo.package"]).
Proof.
  split; [reflexivity|]. split; [reflexivity|]. split.
  - eexists _, _. split; [vm_compute; reflexivity|].
    split; [vm_compute; reflexivity|]. split; reflexivity.
  - eexists _, _. split; [vm_compute; reflexivity|].
    split; [vm_compute; reflexivity|]. split; reflexivity.
Qed.

(** C4. [check] is idempotent on an unchanged artifact.  When a first call
    on a package has returned, the artifact is what it was and its metadata
    record is in place, tagged with the artifact's last-modified value (and,
    where the first call had to write it, holding the body made from the
    artifact's content).  A second call in the world the first one left
    returns too, uploads nothing, and leaves the container as it was: the
    record is, byte for byte, the one the first call left. *)
Theorem check_idempotent lib name w pb w0 w1 :
  is_package_name name = true →
  PackageBlob_init lib name w = (Return pb, w0) →
  check lib pb w0 = (Return (), w1) →
  ∃ a r,
    store_get name (blobs w) = Some a ∧
    store_get name (blobs w1) = Some a ∧
    store_get (metadata_blob_name pb) (blobs w1) = Some r ∧
    metadata r !! DEB_CHECK_KEY = Some (str_datetime lib (last_modified a)) ∧
    (valid_record lib (blobs w) name (metadata_blob_name pb) = false →
     ∃ control_str,
       dpkg_control_str lib (content a) = Some control_str ∧
       content r =
         PyStr.rstrip control_str +:+ nl +:+
         "Filename: " +:+ Pathlib.str (Pathlib.parse name) +:+ nl +:+
         "MD5sum: " +:+ dpkg_md5 lib (content a) +:+ nl +:+
         "SHA1: " +:+ dpkg_sha1 lib (content a) +:+ nl +:+
         "SHA256: " +:+ dpkg_sha256 lib (content a) +:+ nl +:+
         "Size: " +:+ pretty (String.length (content a)) +:+ nl +:+
         nl) ∧
    PackageBlob_init lib name w1 = (Return pb, w1) ∧
    ∃ w2, check lib pb w1 = (Return (), w2) ∧
          blobs w2 = blobs w1 ∧
          clock w2 = clock w1 ∧
          uploads (trace w2) = uploads (trace w1) ∧
          store_get (metadata_blob_name pb) (blobs w2) = Some r.
Proof.
  intros Hn Hinit Hc.
  destruct (check_Return_post _ _ _ _ _ _ Hn Hinit Hc) as [Hart Htm].
  pose proof (valid_record_tag_matches _ _ _ _ _ Hinit) as Hv.
  pose proof (PackageBlob_init_Return _ _ _ _ _ Hinit) as (-> & a & q & Ha & Hq & Hpb).
  assert (pb_last_modified pb = str_datetime lib (last_modified a)) as Hlm
    by (by rewrite Hpb).
  assert (blob_name pb = name) as Hbn by (by rewrite Hpb).
  assert (path pb = Pathlib.parse name) as Hpath by (by rewrite Hpb).
  destruct Htm as (r & Hr & Htag). exists a, r.
  split; [done|]. split; [by rewrite Hart|]. split; [done|].
  split; [by rewrite <- Hlm|]. split; [|split].
  - intros Hinvalid.
    destruct (check_cases lib pb w) as [[Htm _]|[_ [msg Hc']]].
    { apply Hv in Htm. congruence. }
    rewrite Hc' in Hc.
    apply create_metadata_Return in Hc as (a' & c & Ha' & Hcs & Hb & _ & _).
    cbn [logged blobs clock] in Ha', Hb. rewrite Hbn, Ha in Ha'. injection Ha' as <-.
    exists c. split; [done|].
    rewrite Hb, store_get_put_eq in Hr. injection Hr as <-.
    cbn [content]. unfold metadata_contents, dpkg_filesize. by rewrite Hpath.
  - rewrite PackageBlob_init_run, Hart, Ha, Hq. by rewrite Hpb.
  - destruct (check_cases lib pb w1) as [[_ Hc']|[Hno _]].
    + eexists. split; [exact Hc'|]. done.
    + destruct Hno. by exists r.
Qed.

Lemma check_idempotent_witness :
  ∃ a r,
    store_get "foo_1.0.deb" (blobs Demo.world_foo) = Some a ∧
    store_get "foo_1.0.deb" (blobs Demo.world_foo_checked) = Some a ∧
    store_get "foo_1.0.package" (blobs Demo.world_foo_checked) = Some r ∧
    metadata r !! DEB_CHECK_KEY = Some (str_datetime Demo.library (last_modified a)) ∧
    (valid_record Demo.library (blobs Demo.world_foo) "foo_1.0.deb" "foo_1.0.package"
     = false →
     ∃ control_str,
       dpkg_control_str Demo.library (content a) = Some control_str ∧
       content r =
         PyStr.rstrip control_str +:+ nl +:+
         "Filename: " +:+ "foo_1.0.deb" +:+ nl +:+
         "MD5sum: " +:+ dpkg_md5 Demo.library (content a) +:+ nl +:+
         "SHA1: " +:+ dpkg_sha1 Demo.library (content a) +:+ nl +:+
         "SHA256: " +:+ dpkg_sha256 Demo.library (content a) +:+ nl +:+
         "Size: " +:+ pretty (String.length (content a)) +:+ nl +:+
         nl) ∧
    PackageBlob_init Demo.library "foo_1.0.deb" Demo.world_foo_checked
    = (Return Demo.foo_pb, Demo.world_foo_checked) ∧
    ∃ w2, check Demo.library Demo.foo_pb Demo.world_foo_checked = (Return (), w2) ∧
          blobs w2 = blobs Demo.world_foo_checked ∧
          clock w2 = clock Demo.world_foo_checked ∧
          uploads (trace w2) = uploads (trace Demo.world_foo_checked) ∧
          store_get "foo_1.0.package" (blobs w2) = Some r.
Proof.
  apply (check_idempotent Demo.library "foo_1.0.deb" Demo.world_foo
           Demo.foo_pb Demo.world_foo Demo.world_foo_checked).
  - reflexivity.
  - reflexivity.
  - vm_compute. reflexivity.
Defined.

(** ** The assembler *)

Section AssemblerFacts.

Context (lib : Library).

(** The loop of [create_packages] only reads and logs. *)
Lemma read_packages_run names : ∀ acc w,
  (∀ n, n ∈ names → n ∈ (blobs w).*1) →
  ∃ evs, uploads evs = [] ∧
    read_packages names acc w
    = (Return (acc +:+ downloaded_bytes (blobs w) names), logged evs w).
Proof.
  unfold downloaded_bytes.
  induction names as [|name rest IH]; intros acc w Hin.
  - exists []. split; [done|]. cbn. by rewrite append_nil_r, logged_nil.
  - assert (∀ n, n ∈ rest → n ∈ (blobs w).*1) as Hrest.
    { intros n ?. apply Hin. by apply list_elem_of_further. }
    cbn [read_packages]. fold (is_metadata_name name).
    destruct (is_metadata_name name) eqn:E; cbn [negb].
    + rewrite filter_cons_True by done.
      destruct (proj2 (store_get_is_Some name (blobs w))) as [b Hb].
      { apply Hin, list_elem_of_here. }
      set (w1 := logged [LogInfo ("Read " +:+ pretty (String.length (content b))
                                  +:+ " bytes from " +:+ name);
                         LogInfo ("Processing metadata file: " +:+ name)] w).
      destruct (IH (acc +:+ content b) w1 Hrest) as (evs & Hevs & Hrun).
      exists (evs ++ [LogInfo ("Read " +:+ pretty (String.length (content b))
                                +:+ " bytes from " +:+ name);
                       LogInfo ("Processing metadata file: " +:+ name)]).
      split; [by rewrite uploads_app, Hevs|].
      unfold mbind, M_bind, log_info, emit, download_blob. cbn [blobs clock trace].
      rewrite Hb. etrans; [exact Hrun|].
      unfold w1. rewrite logged_logged.
      cbn [map concat_bytes foldr blobs logged]. rewrite Hb. cbn [from_option].
      by rewrite append_assoc.
    + rewrite filter_cons_False by congruence. by apply IH.
Qed.

(** With distinct names, what the loop reads is the concatenation of the
    metadata blobs as listed. *)
Lemma downloaded_bytes_entries l0 l :
  (∀ e, e ∈ l → store_get e.1 l0 = Some e.2) →
  downloaded_bytes l0 l.*1
  = concat_bytes (map (λ e, content e.2) (filter (λ e, is_metadata_name e.1 = true) l)).
Proof.
  unfold downloaded_bytes. induction l as [|[k b] l IH]; intros H; [done|].
  assert (∀ e, e ∈ l → store_get e.1 l0 = Some e.2) as Hl.
  { intros e ?. apply H. by apply list_elem_of_further. }
  rewrite fmap_cons. cbn [fst].
  destruct (is_metadata_name k) eqn:E.
  - rewrite !filter_cons_True by done. cbn [map concat_bytes foldr].
    pose proof (H (k, b) (list_elem_of_here _ _)) as Hk. cbn [fst snd] in Hk.
    rewrite Hk. cbn [from_option snd]. f_equal. by apply IH.
  - rewrite !filter_cons_False by (cbn; congruence). by apply IH.
Qed.

Lemma downloaded_bytes_spec l :
  NoDup l.*1 → downloaded_bytes l l.*1 = spec_index_buffer l.
Proof.
  intros Hnd. apply downloaded_bytes_entries.
  intros [k b] Hin. by apply store_get_NoDup.
Qed.

(** [create_packages] always returns, after two uploads. *)
Lemma create_packages_run rm w :
  ∃ w',
    create_packages lib rm w = (Return (), w') ∧
    let buf := downloaded_bytes (blobs w) (blobs w).*1 in
    blobs w' = store_put (package_file_xz rm)
                 (mkBlob (lzma_compress lib buf) (N.succ (clock w)) ∅)
                 (store_put (package_file rm) (mkBlob buf (clock w) ∅) (blobs w)) ∧
    clock w' = N.succ (N.succ (clock w)) ∧
    uploads (trace w') = package_file_xz rm :: package_file rm :: uploads (trace w).
Proof.
  destruct (read_packages_run (blobs w).*1 "" w ltac:(done)) as (evs & Hevs & Hrun).
  unfold create_packages, mbind, M_bind, list_blobs. rewrite Hrun.
  unfold upload_blob, log_info, emit. rewrite !andb_false_r.
  cbn [blobs clock trace logged negb]. rewrite ?andb_false_r.
  change ("" +:+ downloaded_bytes (blobs w) (blobs w).*1)
    with (downloaded_bytes (blobs w) (blobs w).*1).
  eexists. split; [done|]. cbn [blobs clock trace].
  split; [done|]. split; [done|].
  cbn [uploads]. by rewrite uploads_app, Hevs.
Qed.

End AssemblerFacts.

(** C1. From every container with distinct names, [create_packages] returns,
    having uploaded two blobs, overwriting whatever was there: [Packages],
    the concatenation in enumeration order of the contents of the blobs whose
    name ends with [.package], and [Packages.xz], the LZMA compression of the
    same bytes, which therefore decompresses to them.  With no such blob the
    two are the empty buffer and its compression. *)
Theorem create_packages_builds_index lib (decompress : string → option string) w :
  (∀ x, decompress (lzma_compress lib x) = Some x) →
  NoDup (blobs w).*1 →
  let buf := spec_index_buffer (blobs w) in
  ∃ w',
    create_packages lib (mkRepoManager "Packages" "Packages.xz") w = (Return (), w') ∧
    store_get "Packages" (blobs w') = Some (mkBlob buf (clock w) ∅) ∧
    store_get "Packages.xz" (blobs w')
    = Some (mkBlob (lzma_compress lib buf) (N.succ (clock w)) ∅) ∧
    decompress (lzma_compress lib buf) = Some buf ∧
    uploads (trace w') = "Packages.xz" :: "Packages" :: uploads (trace w) ∧
    spec_index_buffer (blobs w') = buf ∧
    NoDup (blobs w').*1 ∧
    (filter (λ e, is_metadata_name e.1 = true) (blobs w) = [] → buf = "").
Proof.
  intros Hrt Hnd buf.
  destruct (create_packages_run lib (mkRepoManager "Packages" "Packages.xz") w)
    as (w' & Hrun & Hb & _ & Hu).
  cbv zeta in Hb. cbn [package_file package_file_xz] in *.
  rewrite (downloaded_bytes_spec _ Hnd) in Hb. fold buf in Hb.
  exists w'. split; [done|]. rewrite Hb.
  split; [by rewrite store_get_put_ne, store_get_put_eq|].
  split; [apply store_get_put_eq|]. split; [apply Hrt|]. split; [done|].
  split; [by rewrite !spec_index_buffer_put|].
  split; [by do 2 apply store_put_NoDup|].
  unfold buf, spec_index_buffer. by intros ->.
Qed.

Lemma create_packages_builds_index_witness :
  ∃ w',
    create_packages Demo.library Demo.rm Demo.world_foo = (Return (), w') ∧
    store_get "Packages" (blobs w')
    = Some (mkBlob ("Package: old" +:+ nl +:+ nl) 4 ∅) ∧
    store_get "Packages.xz" (blobs w')
    = Some (mkBlob ("XZPackage: old" +:+ nl +:+ nl) 5 ∅).
Proof.
  destruct (create_packages_builds_index Demo.library Demo.decompress Demo.world_foo)
    as (w' & Hrun & Hp & Hx & _).
  - intros x. reflexivity.
  - apply (bool_decide_unpack (NoDup (blobs Demo.world_foo).*1)). vm_compute. exact I.
  - exists w'. split; [exact Hrun|]. split; [exact Hp | exact Hx].
Defined.

(** ** Runs that differ in their logs only *)

Section Oblivious.

Context (lib : Library).

Lemma same_store_refl w : same_store w w.
Proof. done. Qed.

Lemma same_store_sym w1 w2 : same_store w1 w2 → same_store w2 w1.
Proof. by intros (? & ? & ?). Qed.

Lemma same_store_trans w1 w2 w3 :
  same_store w1 w2 → same_store w2 w3 → same_store w1 w3.
Proof. intros (? & ? & ?) (? & ? & ?). repeat split; congruence. Qed.

Lemma Msim_ret {A} (a : A) : Msim (mret a) (mret a).
Proof. by intros w1 w2 H. Qed.

Lemma Msim_bind {A B} (m1 m2 : M A) (f1 f2 : A → M B) :
  Msim m1 m2 → (∀ a, Msim (f1 a) (f2 a)) → Msim (m1 ≫= f1) (m2 ≫= f2).
Proof.
  intros Hm Hf w1 w2 Hw. unfold mbind, M_bind.
  destruct (Hm w1 w2 Hw) as [Ho Hs].
  destruct (m1 w1) as [[a1|e1] w1'], (m2 w2) as [[a2|e2] w2']; simplify_eq/=.
  - by apply Hf.
  - done.
Qed.

Lemma Msim_emit e1 e2 : uploads [e1] = uploads [e2] → Msim (emit e1) (emit e2).
Proof.
  intros He w1 w2 (Hb & Hc & Hu). split; [done|].
  unfold emit, same_store. cbn [snd blobs clock trace].
  split; [done|]. split; [done|].
  destruct e1, e2; cbn in He |- *; congruence.
Qed.

Lemma Msim_log_info a b : Msim (log_info a) (log_info b).
Proof. by apply Msim_emit. Qed.

Lemma Msim_log_error a : Msim (log_error a) (log_error a).
Proof. by apply Msim_emit. Qed.

(** A log line more on the left changes nothing. *)
Lemma Msim_log_info_l {A} msg (m1 m2 : M A) :
  Msim m1 m2 → Msim (log_info msg ≫= λ _, m1) m2.
Proof.
  intros Hm w1 w2 Hw. unfold mbind, M_bind, log_info, emit.
  apply Hm. destruct Hw as (? & ? & ?). by repeat split.
Qed.

Lemma Msim_raise {A} e : Msim (raise (A:=A) e) (raise e).
Proof. by intros w1 w2 H. Qed.

Lemma Msim_lift_outcome {A} (o : outcome A) : Msim (lift_outcome o) (lift_outcome o).
Proof. by intros w1 w2 H. Qed.

Lemma Msim_list_blobs : Msim list_blobs list_blobs.
Proof. intros w1 w2 H. split; [|done]. destruct H as (Hb & _). cbn. by rewrite Hb. Qed.

Lemma Msim_blob_exists n : Msim (blob_exists n) (blob_exists n).
Proof. intros w1 w2 H. split; [|done]. destruct H as (Hb & _). cbn. by rewrite Hb. Qed.

Lemma Msim_get_blob_properties n : Msim (get_blob_properties n) (get_blob_properties n).
Proof.
  intros w1 w2 H. unfold get_blob_properties. destruct H as (Hb & Hc & Hu).
  rewrite Hb. by destruct (store_get n (blobs w2)).
Qed.

Lemma Msim_download_blob n : Msim (download_blob n) (download_blob n).
Proof.
  intros w1 w2 H. unfold download_blob. destruct H as (Hb & Hc & Hu).
  rewrite Hb. by destruct (store_get n (blobs w2)).
Qed.

Lemma Msim_upload_blob n data md ow :
  Msim (upload_blob n data md ow) (upload_blob n data md ow).
Proof.
  intros w1 w2 H. unfold upload_blob. destruct H as (Hb & Hc & Hu).
  rewrite Hb. destruct (_ && _); [done|].
  split; [done|]. unfold same_store. cbn. by rewrite Hc, Hu.
Qed.

Lemma Msim_for_each {A} (xs : list A) (body : A → M unit) :
  (∀ x, Msim (body x) (body x)) → Msim (for_each xs body) (for_each xs body).
Proof.
  intros Hbody. induction xs as [|x xs IH]; cbn [for_each].
  - apply Msim_ret.
  - apply Msim_bind; [apply Hbody | by intros _].
Qed.

Lemma Msim_read_packages names : ∀ acc,
  Msim (read_packages names acc) (read_packages names acc).
Proof.
  induction names as [|n names IH]; intros acc; cbn [read_packages].
  - apply Msim_ret.
  - destruct (negb _); [apply IH|].
    apply Msim_bind; [apply Msim_log_info | intros _].
    apply Msim_bind; [apply Msim_download_blob | intros data].
    apply Msim_bind; [apply Msim_log_info | intros _]. apply IH.
Qed.

Lemma Msim_PackageBlob_init name :
  Msim (PackageBlob_init lib name) (PackageBlob_init lib name).
Proof.
  unfold PackageBlob_init.
  apply Msim_bind; [apply Msim_get_blob_properties | intros props].
  apply Msim_bind; [apply Msim_lift_outcome | intros q]. apply Msim_ret.
Qed.

Lemma Msim_create_metadata pb :
  Msim (create_metadata lib pb) (create_metadata lib pb).
Proof.
  unfold create_metadata.
  apply Msim_bind; [apply Msim_log_info | intros _].
  apply Msim_bind; [apply Msim_download_blob | intros data].
  destruct (dpkg_control_str lib data); [|apply Msim_raise].
  apply Msim_bind; [apply Msim_log_info | intros _]. apply Msim_upload_blob.
Qed.

Lemma Msim_check pb : Msim (check lib pb) (check lib pb).
Proof.
  unfold check.
  apply Msim_bind; [apply Msim_log_info | intros _].
  apply Msim_bind; [apply Msim_blob_exists | intros ex].
  destruct (negb ex).
  { apply Msim_bind; [apply Msim_log_error | intros _]. apply Msim_create_metadata. }
  apply Msim_bind; [apply Msim_get_blob_properties | intros props].
  destruct (metadata props !! DEB_CHECK_KEY) as [v|].
  - destruct (negb _); [|apply Msim_ret].
    apply Msim_bind; [apply Msim_log_error | intros _]. apply Msim_create_metadata.
  - apply Msim_bind; [apply Msim_log_error | intros _]. apply Msim_create_metadata.
Qed.

Lemma Msim_check_metadata rm : Msim (check_metadata lib rm) (check_metadata lib rm).
Proof.
  unfold check_metadata.
  apply Msim_bind; [apply Msim_list_blobs | intros names].
  apply Msim_for_each. intros name. unfold check_metadata_body.
  destruct (negb _); [apply Msim_ret|].
  apply Msim_bind; [apply Msim_PackageBlob_init | intros pb]. apply Msim_check.
Qed.

Lemma Msim_create_packages rm : Msim (create_packages lib rm) (create_packages lib rm).
Proof.
  unfold create_packages.
  apply Msim_bind; [apply Msim_list_blobs | intros names].
  apply Msim_bind; [apply Msim_read_packages | intros bytes].
  apply Msim_bind; [apply Msim_upload_blob | intros _].
  apply Msim_bind; [apply Msim_log_info | intros _].
  apply Msim_bind; [apply Msim_upload_blob | intros _]. apply Msim_log_info.
Qed.

Lemma Msim_maintenance_pass : Msim (maintenance_pass lib) (maintenance_pass lib).
Proof.
  unfold maintenance_pass, RepoManager_init.
  apply Msim_bind; [apply Msim_ret | intros rm].
  apply Msim_bind; [apply Msim_check_metadata | intros _]. apply Msim_create_packages.
Qed.

(** The event-grid trigger is the maintenance pass between two log lines. *)
Lemma Msim_eventGridTrigger event :
  Msim (eventGridTrigger lib event) (maintenance_pass lib).
Proof.
  unfold eventGridTrigger, maintenance_pass, RepoManager_init.
  apply Msim_log_info_l.
  apply Msim_bind; [apply Msim_ret | intros rm].
  apply Msim_bind; [apply Msim_check_metadata | intros _].
  intros w1 w2 Hw. unfold mbind, M_bind, log_info, emit.
  destruct (Msim_create_packages rm w1 w2 Hw) as [Ho (? & ? & ?)].
  destruct (create_packages lib rm w1) as [[[]|e1] w1'],
           (create_packages lib rm w2) as [[[]|e2] w2']; by repeat split.
Qed.

(** So is the blob trigger, for a name that passes its test. *)
Lemma Msim_blob_trigger newfile :
  not_a_package (is_name newfile) = false →
  Msim (blob_trigger lib newfile) (maintenance_pass lib).
Proof.
  intros Hn. unfold blob_trigger, maintenance_pass, RepoManager_init. rewrite Hn.
  apply Msim_log_info_l.
  apply Msim_bind; [apply Msim_ret | intros rm].
  apply Msim_bind; [apply Msim_check_metadata | intros _].
  intros w1 w2 Hw. unfold mbind, M_bind, log_info, emit.
  destruct (Msim_create_packages rm w1 w2 Hw) as [Ho (? & ? & ?)].
  destruct (create_packages lib rm w1) as [[[]|e1] w1'],
           (create_packages lib rm w2) as [[[]|e2] w2']; by repeat split.
Qed.

End Oblivious.

(** C10. The event-grid trigger applies no filter: for every event it runs
    the scanner and then the assembler, and what it does to the container (its
    outcome, the blobs, the clock, the uploads) is what the maintenance pass
    does from the same container, whatever the event; two events can only
    differ in the two log lines that print their id. *)
Theorem eventGridTrigger_ignores_event lib e1 e2 w :
  let r1 := eventGridTrigger lib e1 w in
  let r2 := eventGridTrigger lib e2 w in
  let r := maintenance_pass lib w in
  (r1.1 = r2.1 ∧ blobs r1.2 = blobs r2.2 ∧ clock r1.2 = clock r2.2 ∧
   uploads (trace r1.2) = uploads (trace r2.2)) ∧
  (r1.1 = r.1 ∧ blobs r1.2 = blobs r.2 ∧ clock r1.2 = clock r.2 ∧
   uploads (trace r1.2) = uploads (trace r.2)).
Proof.
  intros r1 r2 r.
  destruct (Msim_eventGridTrigger lib e1 w w (same_store_refl w)) as [Ho1 Hs1].
  destruct (Msim_eventGridTrigger lib e2 w w (same_store_refl w)) as [Ho2 Hs2].
  fold r1 r in Ho1, Hs1. fold r2 r in Ho2, Hs2.
  split; [|by destruct Hs1 as (? & ? & ?)].
  pose proof (same_store_trans _ _ _ Hs1 (same_store_sym _ _ Hs2)) as (? & ? & ?).
  split; [congruence | done].
Qed.

Lemma not_a_package_spec name :
  not_a_package name = negb (from_option is_package_name false name).
Proof.
  destruct name as [n|]; [|done]. cbn [not_a_package from_option].
  destruct (String.eqb_spec n "") as [->|]; [done | done].
Qed.

(** C7. The blob trigger uses the name of the triggering blob as a filter
    only.  When the name is missing or does not end with [.deb], the trigger
    logs two lines and returns: no blob is touched and nothing is uploaded.
    When it ends with [.deb], what the trigger does to the container is what
    the maintenance pass (scanner over the whole container, then assembler
    over the whole container) does from the same container, so it is the
    same for every such name. *)
Theorem blob_trigger_filters_by_name lib newfile w :
  let name := PyStr.str_opt id (is_name newfile) in
  let r := blob_trigger lib newfile w in
  let p := maintenance_pass lib w in
  if from_option is_package_name false (is_name newfile)
  then
    (r.1 = p.1 ∧ blobs r.2 = blobs p.2 ∧ clock r.2 = clock p.2 ∧
     uploads (trace r.2) = uploads (trace p.2)) ∧
    (∀ other,
       from_option is_package_name false (is_name other) = true →
       let r' := blob_trigger lib other w in
       r.1 = r'.1 ∧ blobs r.2 = blobs r'.2 ∧ clock r.2 = clock r'.2 ∧
       uploads (trace r.2) = uploads (trace r'.2))
  else
    r = (Return (),
         logged [LogInfo ("Not a Debian package: " +:+ name);
                 LogInfo ("Python blob trigger function processed blob; Name: "
                          +:+ name +:+ ", Blob Size: "
                          +:+ PyStr.str_opt pretty (is_length newfile) +:+ " bytes")] w) ∧
    blobs r.2 = blobs w ∧ clock r.2 = clock w ∧ uploads (trace r.2) = uploads (trace w).
Proof.
  intros name r p.
  destruct (from_option is_package_name false (is_name newfile)) eqn:E.
  - assert (not_a_package (is_name newfile) = false) as Hn
      by (by rewrite not_a_package_spec, E).
    destruct (Msim_blob_trigger lib newfile Hn w w (same_store_refl w)) as [Ho Hs].
    fold r p in Ho, Hs. split; [by destruct Hs as (? & ? & ?)|].
    intros other Ho' r'.
    assert (not_a_package (is_name other) = false) as Hn'
      by (by rewrite not_a_package_spec, Ho').
    destruct (Msim_blob_trigger lib other Hn' w w (same_store_refl w)) as [Ho2 Hs2].
    fold r' p in Ho2, Hs2.
    pose proof (same_store_trans _ _ _ Hs (same_store_sym _ _ Hs2)) as (? & ? & ?).
    split; [congruence | done].
  - assert (r = (Return (),
         logged [LogInfo ("Not a Debian package: " +:+ name);
                 LogInfo ("Python blob trigger function processed blob; Name: "
                          +:+ name +:+ ", Blob Size: "
                          +:+ PyStr.str_opt pretty (is_length newfile) +:+ " bytes")] w))
      as Hr.
    { unfold r, blob_trigger. rewrite not_a_package_spec, E. done. }
    split; [done|]. by rewrite Hr.
Qed.

(** ** The scanner stops at the first exception *)

Lemma for_each_app {A} (xs ys : list A) (body : A → M unit) w :
  for_each (xs ++ ys) body w
  = match for_each xs body w with
    | (Return _, w') => for_each ys body w'
    | (Raise e, w') => (Raise e, w')
    end.
Proof.
  revert w. induction xs as [|x xs IH]; intros w; [done|].
  cbn [app for_each]. unfold mbind, M_bind.
  destruct (body x w) as [[[]|e] w']; [apply IH | done].
Qed.

(** C5, as the specification states it, fails: with a corrupt package listed
    before a sound one, the scanner raises and the sound package is neither
    checked nor given a metadata record. *)
Lemma scanner_does_not_isolate_corrupt_package :
  "foo_1.0.deb" ∈ (blobs Demo.world_bad).*1 ∧
  is_package_name "foo_1.0.deb" = true ∧
  dpkg_control_str Demo.library (content Demo.foo_deb)
  = Some ("Package: foo" +:+ nl +:+ "Version: 1.0" +:+ nl) ∧
  dpkg_control_str Demo.library (content Demo.bad_deb) = None ∧
  ∃ w', check_metadata Demo.library Demo.rm Demo.world_bad = (Raise DpkgError, w') ∧
        package_checked "bad.deb" w' ∧
        ¬ package_checked "foo_1.0.deb" w' ∧
        store_get "foo_1.0.package" (blobs w') = None.
Proof.
  split; [apply list_elem_of_further, list_elem_of_here|].
  split; [reflexivity|]. split; [reflexivity|]. split; [reflexivity|].
  eexists. split; [vm_compute; reflexivity|].
  unfold package_checked. cbn [trace blobs].
  split; [|split; [|reflexivity]].
  - do 2 apply list_elem_of_further. apply list_elem_of_here.
  - rewrite !elem_of_cons, elem_of_nil.
    intros [H|[H|[H|[]]]]; discriminate H.
Qed.

(** ** What the operations leave in place *)

Section Stable.

Context (lib : Library).
Context (R : relation (list (string * Blob))).
Context (R_refl : ∀ l, R l l).
Context (R_trans : ∀ l1 l2 l3, R l1 l2 → R l2 l3 → R l1 l3).

Lemma stable_ret {A} (a : A) : stable R (mret a).
Proof. intros w. apply R_refl. Qed.

Lemma stable_bind_post {A B} (m : M A) (f : A → M B) (Q : A → Prop) :
  stable R m → post m Q → (∀ a, Q a → stable R (f a)) → stable R (m ≫= f).
Proof.
  intros Hm HQ Hf w. unfold mbind, M_bind.
  specialize (Hm w). specialize (HQ w).
  destruct (m w) as [[a|e] w']; cbn [snd] in *; [|done].
  eapply R_trans; [exact Hm|]. apply Hf. by eapply HQ.
Qed.

Lemma stable_bind {A B} (m : M A) (f : A → M B) :
  stable R m → (∀ a, stable R (f a)) → stable R (m ≫= f).
Proof.
  intros Hm Hf. apply (stable_bind_post m f (λ _, True)); [done | done |].
  intros a _. apply Hf.
Qed.

Lemma stable_emit e : stable R (emit e).
Proof. intros w. apply R_refl. Qed.

Lemma stable_raise {A} e : stable R (raise (A:=A) e).
Proof. intros w. apply R_refl. Qed.

Lemma stable_lift_outcome {A} (o : outcome A) : stable R (lift_outcome o).
Proof. intros w. apply R_refl. Qed.

Lemma stable_list_blobs : stable R list_blobs.
Proof. intros w. apply R_refl. Qed.

Lemma stable_blob_exists n : stable R (blob_exists n).
Proof. intros w. apply R_refl. Qed.

Lemma stable_get_blob_properties n : stable R (get_blob_properties n).
Proof.
  intros w. unfold get_blob_properties.
  destruct (store_get n (blobs w)); apply R_refl.
Qed.

Lemma stable_download_blob n : stable R (download_blob n).
Proof.
  intros w. unfold download_blob. destruct (store_get n (blobs w)); apply R_refl.
Qed.

Lemma stable_upload_blob n data md ow :
  writable R n → stable R (upload_blob n data md ow).
Proof.
  intros Hn w. unfold upload_blob. destruct (_ && _); [apply R_refl | apply Hn].
Qed.

Lemma stable_for_each {A} (xs : list A) (body : A → M unit) :
  (∀ x, x ∈ xs → stable R (body x)) → stable R (for_each xs body).
Proof.
  induction xs as [|x xs IH]; intros Hbody; cbn [for_each].
  - apply stable_ret.
  - apply stable_bind; [apply Hbody, list_elem_of_here|].
    intros _. apply IH. intros y ?. by apply Hbody, list_elem_of_further.
Qed.

Lemma stable_read_packages names : ∀ acc, stable R (read_packages names acc).
Proof.
  induction names as [|n names IH]; intros acc; cbn [read_packages].
  - apply stable_ret.
  - destruct (negb _); [apply IH|].
    apply stable_bind; [apply stable_emit | intros _].
    apply stable_bind; [apply stable_download_blob | intros data].
    apply stable_bind; [apply stable_emit | intros _]. apply IH.
Qed.

Lemma stable_PackageBlob_init name : stable R (PackageBlob_init lib name).
Proof.
  unfold PackageBlob_init.
  apply stable_bind; [apply stable_get_blob_properties | intros props].
  apply stable_bind; [apply stable_lift_outcome | intros q]. apply stable_ret.
Qed.

Lemma stable_create_metadata pb :
  writable R (metadata_blob_name pb) → stable R (create_metadata lib pb).
Proof.
  intros Hw. unfold create_metadata.
  apply stable_bind; [apply stable_emit | intros _].
  apply stable_bind; [apply stable_download_blob | intros data].
  destruct (dpkg_control_str lib data); [|apply stable_raise].
  apply stable_bind; [apply stable_emit | intros _]. by apply stable_upload_blob.
Qed.

Lemma stable_check pb :
  writable R (metadata_blob_name pb) → stable R (check lib pb).
Proof.
  intros Hw. unfold check.
  apply stable_bind; [apply stable_emit | intros _].
  apply stable_bind; [apply stable_blob_exists | intros ex].
  destruct (negb ex).
  { apply stable_bind; [apply stable_emit | intros _]. by apply stable_create_metadata. }
  apply stable_bind; [apply stable_get_blob_properties | intros props].
  destruct (metadata props !! DEB_CHECK_KEY) as [v|].
  - destruct (negb _); [|apply stable_ret].
    apply stable_bind; [apply stable_emit | intros _]. by apply stable_create_metadata.
  - apply stable_bind; [apply stable_emit | intros _]. by apply stable_create_metadata.
Qed.

(** One turn of the scanner writes, if anything, the record of its package. *)
Lemma stable_check_metadata_body name :
  (is_package_name name = true → ∀ k, record_name_of name = Some k → writable R k) →
  stable R (check_metadata_body lib name).
Proof.
  intros Hw. unfold check_metadata_body. fold (is_package_name name).
  destruct (is_package_name name) eqn:E; cbn [negb]; [|apply stable_ret].
  eapply stable_bind_post; [apply stable_PackageBlob_init | |].
  - intros w pb w' Hinit. exact (proj1 (PackageBlob_init_record_name _ _ _ _ _ Hinit)).
  - intros pb Hpb. apply stable_check. by apply Hw.
Qed.

Lemma stable_check_metadata rm w :
  (∀ d, d ∈ (blobs w).*1 → is_package_name d = true →
        ∀ k, record_name_of d = Some k → writable R k) →
  R (blobs w) (blobs (check_metadata lib rm w).2).
Proof.
  intros Hw. unfold check_metadata, mbind, M_bind, list_blobs.
  apply stable_for_each. intros d Hd. apply stable_check_metadata_body.
  intros Hp. by apply Hw.
Qed.

Lemma stable_create_packages rm :
  writable R (package_file rm) → writable R (package_file_xz rm) →
  stable R (create_packages lib rm).
Proof.
  intros H1 H2. unfold create_packages.
  apply stable_bind; [apply stable_list_blobs | intros names].
  apply stable_bind; [apply stable_read_packages | intros bytes].
  apply stable_bind; [by apply stable_upload_blob | intros _].
  apply stable_bind; [apply stable_emit | intros _].
  apply stable_bind; [by apply stable_upload_blob | intros _]. apply stable_emit.
Qed.

(** A relation that every write respects holds across the whole pass. *)
Lemma stable_maintenance_pass :
  (∀ n, writable R n) → stable R (maintenance_pass lib).
Proof.
  intros Hw. unfold maintenance_pass, RepoManager_init.
  apply stable_bind; [apply stable_ret | intros rm].
  apply stable_bind; [|intros _].
  - intros w. apply stable_check_metadata. intros. apply Hw.
  - apply stable_create_packages; apply Hw.
Qed.

End Stable.

(** ** Three things the maintenance pass leaves in place *)

Section Frames.

Context (lib : Library).

Lemma keeps_blob_refl k l : keeps_blob k l l.
Proof. done. Qed.

Lemma keeps_blob_trans k l1 l2 l3 :
  keeps_blob k l1 l2 → keeps_blob k l2 l3 → keeps_blob k l1 l3.
Proof. unfold keeps_blob. congruence. Qed.

Lemma keeps_blob_writable k n : n ≠ k → writable (keeps_blob k) n.
Proof. intros Hne l b. by apply store_get_put_ne. Qed.

Lemma keeps_names_refl l : keeps_names l l.
Proof. by intros n. Qed.

Lemma keeps_names_trans l1 l2 l3 :
  keeps_names l1 l2 → keeps_names l2 l3 → keeps_names l1 l3.
Proof. intros H1 H2 n Hn. by apply H2, H1. Qed.

Lemma keeps_names_writable n : writable keeps_names n.
Proof. intros l b x Hx. by apply store_put_elem_of. Qed.

Lemma no_new_package_refl l : no_new_package l l.
Proof. by intros n. Qed.

Lemma no_new_package_trans l1 l2 l3 :
  no_new_package l1 l2 → no_new_package l2 l3 → no_new_package l1 l3.
Proof. intros H1 H2 n Hn Hp. apply H1; [|done]. by apply H2. Qed.

Lemma no_new_package_writable n :
  is_package_name n = false → writable no_new_package n.
Proof.
  intros Hn l b x Hx Hp. rewrite store_put_names in Hx.
  destruct (decide (n ∈ l.*1)); [done|].
  apply elem_of_app in Hx as [Hx|Hx%list_elem_of_singleton]; [done | congruence].
Qed.

Lemma maintenance_pass_run w :
  maintenance_pass lib w
  = match check_metadata lib (mkRepoManager "Packages" "Packages.xz") w with
    | (Return _, w1) => create_packages lib (mkRepoManager "Packages" "Packages.xz") w1
    | (Raise e, w1) => (Raise e, w1)
    end.
Proof. done. Qed.

(** *** Nothing is deleted *)

Lemma stable_names_maintenance_pass : stable keeps_names (maintenance_pass lib).
Proof.
  apply (stable_maintenance_pass lib keeps_names keeps_names_refl keeps_names_trans).
  apply keeps_names_writable.
Qed.

(** Distinct names stay distinct across the pass. *)
Lemma keeps_distinct_writable n : writable keeps_distinct n.
Proof. intros l b H. by apply store_put_NoDup. Qed.

Lemma maintenance_pass_keeps_distinct w :
  NoDup (blobs w).*1 → NoDup (blobs (maintenance_pass lib w).2).*1.
Proof.
  apply (stable_maintenance_pass lib keeps_distinct).
  - by intros l H.
  - intros l1 l2 l3 H1 H2 H. by apply H2, H1.
  - apply keeps_distinct_writable.
Qed.

Lemma stable_names_blob_trigger newfile : stable keeps_names (blob_trigger lib newfile).
Proof.
  intros w.
  destruct (not_a_package (is_name newfile)) eqn:E.
  - unfold blob_trigger. rewrite E. apply keeps_names_refl.
  - destruct (Msim_blob_trigger lib newfile E w w (same_store_refl w)) as [_ (Hb & _)].
    rewrite Hb. apply stable_names_maintenance_pass.
Qed.

Lemma stable_names_eventGridTrigger event :
  stable keeps_names (eventGridTrigger lib event).
Proof.
  intros w.
  destruct (Msim_eventGridTrigger lib event w w (same_store_refl w)) as [_ (Hb & _)].
  rewrite Hb. apply stable_names_maintenance_pass.
Qed.

(** *** The assembler takes every metadata blob *)

Lemma concat_bytes_app l1 l2 :
  concat_bytes (l1 ++ l2) = concat_bytes l1 +:+ concat_bytes l2.
Proof.
  induction l1 as [|x l1 IH]; [done|].
  cbn [app concat_bytes foldr]. fold (concat_bytes (l1 ++ l2)) (concat_bytes l1).
  by rewrite IH, append_assoc.
Qed.

Lemma downloaded_bytes_includes l names k b :
  k ∈ names → is_metadata_name k = true → store_get k l = Some b →
  ∃ pre post, downloaded_bytes l names = pre +:+ content b +:+ post.
Proof.
  intros (n1 & n2 & ->)%list_elem_of_split Hk Hb. unfold downloaded_bytes.
  rewrite filter_app, filter_cons_True by done.
  rewrite map_app, concat_bytes_app. cbn [map concat_bytes foldr].
  rewrite Hb. cbn [from_option]. by eexists _, _.
Qed.

Lemma metadata_name_not_index k :
  is_metadata_name k = true → k ≠ "Packages" ∧ k ≠ "Packages.xz".
Proof. intros H. split; intros ->; discriminate H. Qed.

Lemma create_packages_includes w k b :
  is_metadata_name k = true →
  store_get k (blobs w) = Some b →
  ∃ w' p pre post,
    create_packages lib (mkRepoManager "Packages" "Packages.xz") w = (Return (), w') ∧
    store_get k (blobs w') = Some b ∧
    store_get "Packages" (blobs w') = Some p ∧
    content p = pre +:+ content b +:+ post.
Proof.
  intros Hk Hb. destruct (metadata_name_not_index k Hk) as [Hn1 Hn2].
  destruct (create_packages_run lib (mkRepoManager "Packages" "Packages.xz") w)
    as (w' & Hrun & Hbl & _).
  cbv zeta in Hbl. cbn [package_file package_file_xz] in Hbl.
  destruct (downloaded_bytes_includes (blobs w) (blobs w).*1 k b) as (pre & post & Hd);
    [by apply store_get_is_Some | done | done |].
  exists w', (mkBlob (downloaded_bytes (blobs w) (blobs w).*1) (clock w) ∅), pre, post.
  split; [done|]. rewrite Hbl.
  split; [by rewrite !store_get_put_ne|].
  split; [by rewrite store_get_put_ne, store_get_put_eq | done].
Qed.

(** *** An orphan record is not written by the scanner *)

Lemma orphan_writable k l d r :
  orphan k l → d ∈ l.*1 → is_package_name d = true → record_name_of d = Some r →
  writable (keeps_blob k) r.
Proof.
  intros Ho Hd Hp Hr. apply keeps_blob_writable. intros ->. by apply (Ho d).
Qed.

Lemma record_name_not_package d r :
  is_package_name d = true → record_name_of d = Some r → is_package_name r = false.
Proof.
  intros Hp Hr. destruct (record_name_of_package d Hp) as (k & Hk & Hm & _).
  apply metadata_name_not_package_name. congruence.
Qed.

Lemma orphan_no_new_package k l l' : orphan k l → no_new_package l l' → orphan k l'.
Proof. intros Ho Hn d Hd Hp. apply Ho; [by apply Hn | done]. Qed.

Lemma maintenance_pass_orphan w k b w' :
  is_metadata_name k = true →
  store_get k (blobs w) = Some b →
  orphan k (blobs w) →
  maintenance_pass lib w = (Return (), w') →
  store_get k (blobs w') = Some b ∧ orphan k (blobs w') ∧
  ∃ p pre post,
    store_get "Packages" (blobs w') = Some p ∧ content p = pre +:+ content b +:+ post.
Proof.
  intros Hk Hb Ho. rewrite maintenance_pass_run.
  set (rm := mkRepoManager "Packages" "Packages.xz").
  pose proof (stable_check_metadata lib (keeps_blob k) (keeps_blob_refl k)
                (keeps_blob_trans k) rm w) as Hkeep.
  pose proof (stable_check_metadata lib no_new_package no_new_package_refl
                no_new_package_trans rm w) as Hnew.
  destruct (check_metadata lib rm w) as [[[]|e] w1]; [|done]. cbn [snd] in *.
  intros Hcp.
  assert (store_get k (blobs w1) = Some b) as Hb1.
  { rewrite <- Hb. apply Hkeep. intros d Hd Hp r Hr. by eapply orphan_writable. }
  assert (orphan k (blobs w1)) as Ho1.
  { apply (orphan_no_new_package k (blobs w)); [done|]. apply Hnew.
    intros d Hd Hp r Hr. apply no_new_package_writable.
    by eapply record_name_not_package. }
  destruct (create_packages_includes w1 k b Hk Hb1) as (w2 & p & pre & post & Hrun & ? & ? & ?).
  fold rm in Hrun. rewrite Hrun in Hcp. injection Hcp as <-.
  split; [done|]. split; [|by exists p, pre, post].
  apply (orphan_no_new_package k (blobs w1)); [done|].
  pose proof (stable_create_packages lib no_new_package no_new_package_refl
                no_new_package_trans rm) as Hs.
  specialize (Hs ltac:(by apply no_new_package_writable)
                 ltac:(by apply no_new_package_writable) w1).
  by rewrite Hrun in Hs.
Qed.

End Frames.

(** C8. No operation deletes a blob, so none deletes a metadata record; the
    assembler puts the content of every blob whose name ends with [.package]
    into [Packages], whether or not a package owns it; and a record that no
    package of the container owns is left as it is by the maintenance pass,
    is in the index the pass builds, and is still an orphan afterwards, so
    that the same holds for the next pass. *)
Theorem metadata_records_never_deleted_and_always_indexed lib w k b :
  is_metadata_name k = true →
  store_get k (blobs w) = Some b →
  let rm := mkRepoManager "Packages" "Packages.xz" in
  ((∀ pb, k ∈ (blobs (check lib pb w).2).*1) ∧
   (∀ pb, k ∈ (blobs (create_metadata lib pb w).2).*1) ∧
   k ∈ (blobs (check_metadata lib rm w).2).*1 ∧
   k ∈ (blobs (create_packages lib rm w).2).*1 ∧
   (∀ newfile, k ∈ (blobs (blob_trigger lib newfile w).2).*1) ∧
   (∀ event, k ∈ (blobs (eventGridTrigger lib event w).2).*1)) ∧
  (∃ w' p pre post,
     create_packages lib rm w = (Return (), w') ∧
     store_get k (blobs w') = Some b ∧
     store_get "Packages" (blobs w') = Some p ∧
     content p = pre +:+ content b +:+ post) ∧
  (orphan k (blobs w) →
   ∀ w', maintenance_pass lib w = (Return (), w') →
         store_get k (blobs w') = Some b ∧
         orphan k (blobs w') ∧
         ∃ p pre post,
           store_get "Packages" (blobs w') = Some p ∧
           content p = pre +:+ content b +:+ post).
Proof.
  intros Hk Hb rm.
  assert (k ∈ (blobs w).*1) as Hin by (by apply store_get_is_Some).
  split; [|split].
  - repeat split.
    + intros pb.
      by apply (stable_check lib keeps_names keeps_names_refl keeps_names_trans pb
                  (keeps_names_writable _) w).
    + intros pb.
      by apply (stable_create_metadata lib keeps_names keeps_names_refl
                  keeps_names_trans pb (keeps_names_writable _) w).
    + apply (stable_check_metadata lib keeps_names keeps_names_refl
               keeps_names_trans rm w); [|done].
      intros. apply keeps_names_writable.
    + by apply (stable_create_packages lib keeps_names keeps_names_refl
                  keeps_names_trans rm (keeps_names_writable _)
                  (keeps_names_writable _) w).
    + intros newfile. by apply (stable_names_blob_trigger lib newfile w).
    + intros event. by apply (stable_names_eventGridTrigger lib event w).
  - by apply create_packages_includes.
  - intros Ho w' Hrun. by apply (maintenance_pass_orphan lib w k b w').
Qed.

Lemma metadata_records_never_deleted_and_always_indexed_witness :
  ∃ w' p pre post,
    maintenance_pass Demo.library Demo.world_foo = (Return (), w') ∧
    store_get "old.package" (blobs w') = Some Demo.old_package ∧
    store_get "Packages" (blobs w') = Some p ∧
    content p = pre +:+ content Demo.old_package +:+ post.
Proof.
  destruct (metadata_records_never_deleted_and_always_indexed Demo.library
              Demo.world_foo "old.package" Demo.old_package eq_refl eq_refl)
    as (_ & _ & H).
  destruct (H ltac:(intros d [->|[->|[]%elem_of_nil]%elem_of_cons]%elem_of_cons Hp;
                    [vm_compute; discriminate | discriminate Hp])
              (maintenance_pass Demo.library Demo.world_foo).2
              ltac:(vm_compute; reflexivity))
    as (Hb & _ & p & pre & post & Hp & Hc).
  exists (maintenance_pass Demo.library Demo.world_foo).2, p, pre, post.
  split; [vm_compute; reflexivity|]. split; [exact Hb|]. split; [exact Hp | exact Hc].
Defined.

(** ** The two filters *)

Lemma for_each_filter {A} (P : A → bool) (f : A → M unit) (xs : list A) w :
  for_each xs (λ x, if negb (P x) then mret () else f x) w
  = for_each (filter (λ x, P x = true) xs) f w.
Proof.
  revert w. induction xs as [|x xs IH]; intros w; [done|].
  cbn [for_each]. destruct (P x) eqn:E; cbn [negb].
  - rewrite filter_cons_True by done. cbn [for_each]. unfold mbind, M_bind.
    destruct (f x w) as [[[]|e] w']; [apply IH | done].
  - rewrite filter_cons_False by congruence. apply IH.
Qed.

Lemma downloaded_bytes_put k b l names :
  is_metadata_name k = false →
  downloaded_bytes (store_put k b l) names = downloaded_bytes l names.
Proof.
  intros Hk. unfold downloaded_bytes. f_equal.
  induction names as [|n names IH]; [done|].
  destruct (is_metadata_name n) eqn:E.
  - rewrite !filter_cons_True by done. cbn [map]. rewrite IH.
    rewrite store_get_put_ne; [done | congruence].
  - by rewrite !filter_cons_False by congruence.
Qed.

Lemma downloaded_bytes_snoc l names k :
  is_metadata_name k = false →
  downloaded_bytes l (names ++ [k]) = downloaded_bytes l names.
Proof.
  intros Hk. unfold downloaded_bytes.
  rewrite filter_app, filter_cons_False, filter_nil, app_nil_r; [done | congruence].
Qed.

(** C9. The index is never built from itself.  The scanner runs [check] on the
    names that end with [.deb] and on no other; the bytes the assembler
    uploads are those of the blobs whose name ends with [.package] and of no
    other, so writing any blob whose name does not end with [.package] leaves
    them unchanged; and [Packages] and [Packages.xz] end with neither. *)
Theorem index_artifacts_never_scanned_nor_indexed lib rm w :
  check_metadata lib rm w
  = for_each (filter (λ n, is_package_name n = true) (blobs w).*1)
             (λ name, PackageBlob_init lib name ≫= check lib) w ∧
  (∃ evs, uploads evs = [] ∧
          read_packages (blobs w).*1 "" w
          = (Return (concat_bytes
                       (map (λ n, from_option content "" (store_get n (blobs w)))
                            (filter (λ n, is_metadata_name n = true) (blobs w).*1))),
             logged evs w)) ∧
  (∀ k b, is_metadata_name k = false →
          downloaded_bytes (store_put k b (blobs w)) (store_put k b (blobs w)).*1
          = downloaded_bytes (blobs w) (blobs w).*1) ∧
  (is_package_name "Packages" = false ∧ is_metadata_name "Packages" = false ∧
   is_package_name "Packages.xz" = false ∧ is_metadata_name "Packages.xz" = false).
Proof.
  split; [|split; [|split]].
  - unfold check_metadata, mbind at 1, M_bind at 1, list_blobs.
    apply (for_each_filter is_package_name).
  - destruct (read_packages_run (blobs w).*1 "" w ltac:(done)) as (evs & Hevs & Hrun).
    exists evs. split; [done|]. exact Hrun.
  - intros k b Hk. rewrite downloaded_bytes_put by done.
    rewrite store_put_names. destruct (decide (k ∈ (blobs w).*1)); [done|].
    by apply downloaded_bytes_snoc.
  - done.
Qed.

(** * Worked examples *)

(** Record names that [PackageBlob] derives: the suffix [.deb] is replaced;
    repeated slashes and single dots are normalised away by [Path]; a last
    component that is exactly [.deb] has no suffix for pathlib, so the new
    suffix is added to it. *)
Example record_name_examples :
  map record_name_of
      ["foo_1.0.deb"; "pool/main/a.deb"; "a//b.deb"; "./a.deb"; ".deb"; "a.b.c.deb"]
  = [Some "foo_1.0.package"; Some "pool/main/a.package"; Some "a/b.package";
     Some "a.package"; Some ".deb.package"; Some "a.b.c.package"].
Proof. reflexivity. Qed.

Example rstrip_example :
  PyStr.rstrip ("Package: foo" +:+ nl +:+ "Version: 1.0" +:+ nl +:+ "  " +:+ nl)
  = "Package: foo" +:+ nl +:+ "Version: 1.0".
Proof. vm_compute. reflexivity. Qed.

(** [rstrip] takes the white space outside ASCII too: here a no-break space
    (U+00A0), a line separator (U+2028) and an ideographic space (U+3000);
    inside the text they stay. *)
Example rstrip_unicode_example :
  PyStr.rstrip ("Description: a" +:+ PyStr.utf8 160 +:+ "b" +:+ PyStr.utf8 160
                +:+ nl +:+ PyStr.utf8 8232 +:+ PyStr.utf8 12288)
  = "Description: a" +:+ PyStr.utf8 160 +:+ "b".
Proof. vm_compute. reflexivity. Qed.

(** [len] counts characters, not bytes: eight letters of two bytes each. *)
Example len_example :
  let s := concat_bytes (replicate 8 (PyStr.utf8 233)) in
  PyStr.len s = 8 ∧ String.length s = 16.
Proof. vm_compute. done. Qed.

(** One new package [foo_1.0.deb]: after the blob trigger, its record exists
    with the expected body, and [Packages] holds the old record followed by
    the new one. *)
Example blob_trigger_new_package :
  let r := blob_trigger Demo.library
             (mkInputStream (Some "repo/foo_1.0.deb") (Some 34)) Demo.world_foo in
  let body := "Package: foo" +:+ nl +:+ "Version: 1.0" +:+ nl +:+
              "Filename: foo_1.0.deb" +:+ nl +:+ "MD5sum: m34" +:+ nl +:+
              "SHA1: s34" +:+ nl +:+ "SHA256: S34" +:+ nl +:+ "Size: 34" +:+ nl +:+ nl in
  r.1 = Return () ∧
  content <$> store_get "foo_1.0.package" (blobs r.2) = Some body ∧
  content <$> store_get "Packages" (blobs r.2)
  = Some ("Package: old" +:+ nl +:+ nl +:+ body) ∧
  uploads (trace r.2) = ["Packages.xz"; "Packages"; "foo_1.0.package"].
Proof. vm_compute. done. Qed.

(** A second trigger on the unchanged container rewrites the two index blobs
    and nothing else. *)
Example blob_trigger_twice :
  let w1 := (blob_trigger Demo.library
               (mkInputStream (Some "repo/foo_1.0.deb") (Some 34)) Demo.world_foo).2 in
  let r := blob_trigger Demo.library
             (mkInputStream (Some "repo/foo_1.0.deb") (Some 34))
             (mkWorld (blobs w1) (clock w1) []) in
  r.1 = Return () ∧ uploads (trace r.2) = ["Packages.xz"; "Packages"] ∧
  content <$> store_get "Packages" (blobs r.2)
  = content <$> store_get "Packages" (blobs w1).
Proof. vm_compute. done. Qed.

(** * Further properties of the maintenance pass *)

Section PassFacts.

Context (lib : Library).

Lemma keeps_packages_refl l : keeps_packages l l.
Proof. by intros d. Qed.

Lemma keeps_packages_trans l1 l2 l3 :
  keeps_packages l1 l2 → keeps_packages l2 l3 → keeps_packages l1 l3.
Proof. intros H1 H2 d Hd. by rewrite H2, H1. Qed.

Lemma keeps_packages_writable n :
  is_package_name n = false → writable keeps_packages n.
Proof. intros Hn l b d Hd. apply store_get_put_ne. congruence. Qed.

Lemma index_names_not_package :
  is_package_name "Packages" = false ∧ is_package_name "Packages.xz" = false.
Proof. done. Qed.

(** The scanner writes records only, and a record is not a package. *)
Lemma scanner_keeps_packages rm w :
  keeps_packages (blobs w) (blobs (check_metadata lib rm w).2).
Proof.
  apply (stable_check_metadata lib keeps_packages keeps_packages_refl
           keeps_packages_trans).
  intros d _ Hp r Hr. apply keeps_packages_writable.
  by eapply record_name_not_package.
Qed.

Lemma assembler_keeps_packages rm w :
  is_package_name (package_file rm) = false →
  is_package_name (package_file_xz rm) = false →
  keeps_packages (blobs w) (blobs (create_packages lib rm w).2).
Proof.
  intros H1 H2.
  by apply (stable_create_packages lib keeps_packages keeps_packages_refl
              keeps_packages_trans rm (keeps_packages_writable _ H1)
              (keeps_packages_writable _ H2)).
Qed.

Lemma maintenance_pass_keeps_packages w :
  keeps_packages (blobs w) (blobs (maintenance_pass lib w).2).
Proof.
  rewrite maintenance_pass_run.
  set (rm := mkRepoManager "Packages" "Packages.xz").
  pose proof (scanner_keeps_packages rm w) as Hs.
  destruct (check_metadata lib rm w) as [[[]|e] w1]; cbn [snd] in *; [|done].
  eapply keeps_packages_trans; [exact Hs|]. by apply assembler_keeps_packages.
Qed.

End PassFacts.

(** X1. Package artifacts are read-only for the function app: whatever a
    trigger does, and whether it returns or raises, every blob whose name ends
    with [.deb] is afterwards exactly the blob it was (same bytes, same
    last-modified stamp, same metadata), and none has been added or removed. *)
Theorem triggers_never_write_packages lib w d :
  is_package_name d = true →
  (∀ newfile, store_get d (blobs (blob_trigger lib newfile w).2) = store_get d (blobs w)) ∧
  (∀ event, store_get d (blobs (eventGridTrigger lib event w).2) = store_get d (blobs w)) ∧
  (∀ rm, store_get d (blobs (check_metadata lib rm w).2) = store_get d (blobs w)) ∧
  store_get d (blobs (create_packages lib (mkRepoManager "Packages" "Packages.xz") w).2)
  = store_get d (blobs w).
Proof.
  intros Hd. split; [|split; [|split]].
  - intros newfile. destruct (not_a_package (is_name newfile)) eqn:E.
    + unfold blob_trigger. by rewrite E.
    + destruct (Msim_blob_trigger lib newfile E w w (same_store_refl w)) as [_ (Hb & _)].
      rewrite Hb. by apply maintenance_pass_keeps_packages.
  - intros event.
    destruct (Msim_eventGridTrigger lib event w w (same_store_refl w)) as [_ (Hb & _)].
    rewrite Hb. by apply maintenance_pass_keeps_packages.
  - intros rm. by apply scanner_keeps_packages.
  - by apply assembler_keeps_packages.
Qed.

Lemma triggers_never_write_packages_witness :
  store_get "foo_1.0.deb"
    (blobs (blob_trigger Demo.library (mkInputStream (Some "foo_1.0.deb") None)
              Demo.world_foo).2)
  = Some Demo.foo_deb.
Proof.
  destruct (triggers_never_write_packages Demo.library Demo.world_foo "foo_1.0.deb"
              eq_refl) as (H & _).
  exact (H (mkInputStream (Some "foo_1.0.deb") None)).
Defined.

Section RaiseFacts.

Context (lib : Library).

(** How [check] can raise. *)
Lemma check_Raise pb w e w' :
  check lib pb w = (Raise e, w') →
  same_store w w' ∧ ¬ tag_matches pb w ∧
  ((e = ResourceNotFoundError ∧ store_get (blob_name pb) (blobs w) = None)
   ∨ (e = DpkgError ∧
      ∃ a, store_get (blob_name pb) (blobs w) = Some a ∧
           dpkg_control_str lib (content a) = None)).
Proof.
  destruct (check_cases lib pb w) as [[_ Hc]|[Hno [msg Hc]]]; rewrite Hc; [done|].
  rewrite create_metadata_run. cbv zeta. cbn [blobs logged].
  destruct (store_get (blob_name pb) (blobs w)) as [a|] eqn:Ea.
  - destruct (dpkg_control_str lib (content a)) eqn:Ec; [done|].
    intros [= <- <-]. split; [|split; [done|]].
    + rewrite logged_logged. by apply same_store_logged.
    + right. split; [done|]. by exists a.
  - intros [= <- <-]. split; [|split; [done|]].
    + rewrite logged_logged. by apply same_store_logged.
    + by left.
Qed.

(** One turn of the scanner, on a name of the container, raises only when
    pydpkg cannot read that package. *)
Lemma check_metadata_body_Raise name w e w' :
  name ∈ (blobs w).*1 →
  check_metadata_body lib name w = (Raise e, w') →
  e = DpkgError ∧ is_package_name name = true ∧
  ∃ a, store_get name (blobs w) = Some a ∧ dpkg_control_str lib (content a) = None.
Proof.
  intros [a Ha]%store_get_is_Some. unfold check_metadata_body.
  fold (is_package_name name).
  destruct (is_package_name name) eqn:Hp; cbn [negb]; [|done].
  destruct (PackageBlob_init_package lib name w a Hp Ha) as [pb Hinit].
  unfold mbind, M_bind. rewrite Hinit.
  pose proof (PackageBlob_init_record_name _ _ _ _ _ Hinit) as [_ Hbn].
  intros (_ & _ & [[_ Hnone]|[-> (a' & Ha' & Hc)]])%check_Raise.
  - rewrite Hbn in Hnone. congruence.
  - rewrite Hbn in Ha'. split; [done|]. split; [done|]. by exists a'.
Qed.

Lemma check_metadata_body_keeps_names name w :
  keeps_names (blobs w) (blobs (check_metadata_body lib name w).2).
Proof.
  apply (stable_check_metadata_body lib keeps_names keeps_names_refl keeps_names_trans).
  intros. apply keeps_names_writable.
Qed.

Lemma check_metadata_body_keeps_packages name w :
  keeps_packages (blobs w) (blobs (check_metadata_body lib name w).2).
Proof.
  apply (stable_check_metadata_body lib keeps_packages keeps_packages_refl
           keeps_packages_trans).
  intros Hp r Hr. apply keeps_packages_writable. by eapply record_name_not_package.
Qed.

(** The loop of the scanner raises only on an unreadable package, which was
    in the container, unreadable, when the loop started. *)
Lemma scanner_loop_Raise names : ∀ w e w',
  (∀ n, n ∈ names → n ∈ (blobs w).*1) →
  for_each names (check_metadata_body lib) w = (Raise e, w') →
  e = DpkgError ∧
  ∃ d a, d ∈ names ∧ is_package_name d = true ∧ store_get d (blobs w) = Some a ∧
         dpkg_control_str lib (content a) = None.
Proof.
  induction names as [|x xs IH]; intros w e w' Hin; [done|].
  cbn [for_each]. unfold mbind, M_bind.
  pose proof (check_metadata_body_keeps_names x w) as Hkn.
  pose proof (check_metadata_body_keeps_packages x w) as Hkp.
  destruct (check_metadata_body lib x w) as [[[]|e1] w1] eqn:Hx; cbn [snd] in *.
  - intros Hrest. destruct (IH w1 e w') as (-> & d & a & Hd & Hp & Ha & Hc); [|done|].
    { intros n Hn. apply Hkn, Hin. by apply list_elem_of_further. }
    split; [done|]. exists d, a. split; [by apply list_elem_of_further|].
    split; [done|]. split; [|done]. by rewrite <- (Hkp d Hp).
  - intros [= <- <-].
    destruct (check_metadata_body_Raise x w e1 w1) as (-> & Hp & a & Ha & Hc);
      [apply Hin, list_elem_of_here | done |].
    split; [done|]. exists x, a. split; [apply list_elem_of_here | done].
Qed.

Lemma maintenance_pass_Raise w e w' :
  maintenance_pass lib w = (Raise e, w') →
  e = DpkgError ∧
  ∃ d a, is_package_name d = true ∧ store_get d (blobs w) = Some a ∧
         dpkg_control_str lib (content a) = None.
Proof.
  rewrite maintenance_pass_run.
  set (rm := mkRepoManager "Packages" "Packages.xz").
  destruct (check_metadata lib rm w) as [[[]|e1] w1] eqn:Hs.
  - destruct (create_packages_run lib rm w1) as (w2 & -> & _). done.
  - intros [= <- <-]. unfold check_metadata, mbind, M_bind, list_blobs in Hs.
    destruct (scanner_loop_Raise _ _ _ _ ltac:(done) Hs) as (-> & d & a & _ & ? & ? & ?).
    split; [done|]. by exists d, a.
Qed.

End RaiseFacts.

(** X2. [check] is all or nothing.  When it raises, the container is exactly
    as it was and nothing has been uploaded; the record was missing or stale;
    and the exception is [DpkgError], pydpkg being unable to read the
    package, or [ResourceNotFoundError], the package being absent. *)
Theorem check_raises_without_writing lib pb w e w' :
  check lib pb w = (Raise e, w') →
  blobs w' = blobs w ∧ clock w' = clock w ∧ uploads (trace w') = uploads (trace w) ∧
  ¬ tag_matches pb w ∧
  ((e = ResourceNotFoundError ∧ store_get (blob_name pb) (blobs w) = None)
   ∨ (e = DpkgError ∧
      ∃ a, store_get (blob_name pb) (blobs w) = Some a ∧
           dpkg_control_str lib (content a) = None)).
Proof.
  intros ((Hb & Hc & Hu) & Hno & He)%check_Raise. by repeat split.
Qed.

Lemma check_raises_without_writing_witness :
  blobs (check Demo.library Demo.bad_pb Demo.world_bad).2 = blobs Demo.world_bad ∧
  uploads (trace (check Demo.library Demo.bad_pb Demo.world_bad).2) = [].
Proof.
  destruct (check_raises_without_writing Demo.library Demo.bad_pb Demo.world_bad
              DpkgError (check Demo.library Demo.bad_pb Demo.world_bad).2
              ltac:(vm_compute; reflexivity))
    as (Hb & _ & Hu & _).
  split; [exact Hb | exact Hu].
Defined.

(** X3. With a store that answers every call, the only exception a trigger
    can raise is [DpkgError], and it raises it only when the container, as
    the trigger found it, holds a package that pydpkg cannot read. *)
Theorem triggers_raise_only_on_unreadable_package lib w e :
  ((∃ newfile, (blob_trigger lib newfile w).1 = Raise e)
   ∨ (∃ event, (eventGridTrigger lib event w).1 = Raise e)
   ∨ (∃ rm, (check_metadata lib rm w).1 = Raise e)) →
  e = DpkgError ∧
  ∃ d a, is_package_name d = true ∧ store_get d (blobs w) = Some a ∧
         dpkg_control_str lib (content a) = None.
Proof.
  assert ((maintenance_pass lib w).1 = Raise e →
          e = DpkgError ∧
          ∃ d a, is_package_name d = true ∧ store_get d (blobs w) = Some a ∧
                 dpkg_control_str lib (content a) = None) as Hpass.
  { destruct (maintenance_pass lib w) as [o w'] eqn:E. cbn [fst]. intros ->.
    by apply (maintenance_pass_Raise lib w e w'). }
  intros [[newfile H]|[[event H]|[rm H]]].
  - destruct (not_a_package (is_name newfile)) eqn:E.
    + unfold blob_trigger in H. by rewrite E in H.
    + destruct (Msim_blob_trigger lib newfile E w w (same_store_refl w)) as [Ho _].
      apply Hpass. congruence.
  - destruct (Msim_eventGridTrigger lib event w w (same_store_refl w)) as [Ho _].
    apply Hpass. congruence.
  - destruct (check_metadata lib rm w) as [o w'] eqn:E. cbn [fst] in H. subst o.
    unfold check_metadata, mbind, M_bind, list_blobs in E.
    destruct (scanner_loop_Raise lib _ _ _ _ ltac:(done) E) as (-> & d & a & _ & ? & ? & ?).
    split; [done|]. by exists d, a.
Qed.

Lemma triggers_raise_only_on_unreadable_package_witness :
  ∃ d a, is_package_name d = true ∧ store_get d (blobs Demo.world_bad) = Some a ∧
         dpkg_control_str Demo.library (content a) = None.
Proof.
  destruct (triggers_raise_only_on_unreadable_package Demo.library Demo.world_bad
              DpkgError) as [_ H].
  - right. left. exists (mkEventGridEvent "1" "" "" "" "").
    vm_compute. reflexivity.
  - exact H.
Defined.

Section Convergence.

Context (lib : Library).

Lemma valid_record_ext l l' d r :
  store_get d l' = store_get d l → store_get r l' = store_get r l →
  valid_record lib l' d r = valid_record lib l d r.
Proof. intros Hd Hr. unfold valid_record. by rewrite Hd, Hr. Qed.

Lemma package_valid_ext l l' d :
  is_package_name d = true →
  keeps_packages l l' →
  (∀ r, record_name_of d = Some r → keeps_blob r l l') →
  package_valid lib l d → package_valid lib l' d.
Proof.
  intros Hd Hp Hr (r & Hrec & Hv). exists r. split; [done|].
  rewrite <- Hv. apply valid_record_ext; [by apply Hp | by apply Hr].
Qed.

Lemma scanner_loop_keeps_blob r xs w :
  (∀ y, y ∈ xs → is_package_name y = true → record_name_of y ≠ Some r) →
  keeps_blob r (blobs w) (blobs (for_each xs (check_metadata_body lib) w).2).
Proof.
  intros Hxs.
  apply (stable_for_each (keeps_blob r) (keeps_blob_refl r) (keeps_blob_trans r)).
  intros y Hy.
  apply (stable_check_metadata_body lib (keeps_blob r) (keeps_blob_refl r)
           (keeps_blob_trans r)).
  intros Hp k Hk. apply keeps_blob_writable. intros ->. by apply (Hxs y).
Qed.

Lemma scanner_loop_keeps_packages xs w :
  keeps_packages (blobs w) (blobs (for_each xs (check_metadata_body lib) w).2).
Proof.
  apply (stable_for_each keeps_packages keeps_packages_refl keeps_packages_trans).
  intros y _ w0. apply check_metadata_body_keeps_packages.
Qed.

(** A turn of the scanner that returns leaves its package with a valid
    record. *)
Lemma check_metadata_body_valid x w w1 :
  is_package_name x = true →
  check_metadata_body lib x w = (Return (), w1) →
  package_valid lib (blobs w1) x.
Proof.
  intros Hp. unfold check_metadata_body. fold (is_package_name x). rewrite Hp.
  cbn [negb]. unfold mbind, M_bind.
  destruct (PackageBlob_init lib x w) as [[pb|e] w0] eqn:Hinit; [|done].
  intros Hc.
  destruct (check_Return_post _ _ _ _ _ _ Hp Hinit Hc) as [Hart Htm].
  pose proof (PackageBlob_init_record_name _ _ _ _ _ Hinit) as [Hrec _].
  pose proof (PackageBlob_init_Return _ _ _ _ _ Hinit) as (_ & a & q & Ha & Hq & Hpb).
  exists (metadata_blob_name pb). split; [done|].
  apply (valid_record_tag_matches lib x w1 pb w1); [|done].
  rewrite PackageBlob_init_run, Hart, Ha, Hq. by rewrite Hpb.
Qed.

(** After a scan that returns, every package it went through has a valid
    record, provided no two of them share one. *)
Lemma scanner_loop_valid names : ∀ w w',
  NoDup names →
  (∀ d1 d2, d1 ∈ names → d2 ∈ names →
            is_package_name d1 = true → is_package_name d2 = true →
            record_name_of d1 = record_name_of d2 → d1 = d2) →
  for_each names (check_metadata_body lib) w = (Return (), w') →
  ∀ d, d ∈ names → is_package_name d = true → package_valid lib (blobs w') d.
Proof.
  induction names as [|x xs IH]; intros w w' Hnd Hinj Hrun d Hd Hp;
    [by apply elem_of_nil in Hd|].
  apply NoDup_cons in Hnd as [Hx Hnd].
  cbn [for_each] in Hrun. unfold mbind, M_bind in Hrun.
  destruct (check_metadata_body lib x w) as [[[]|e1] w1] eqn:Hbody; [|done].
  apply elem_of_cons in Hd as [->|Hd].
  - pose proof (check_metadata_body_valid x w w1 Hp Hbody) as Hv.
    pose proof (scanner_loop_keeps_packages xs w1) as Hkp.
    rewrite Hrun in Hkp. cbn [snd] in Hkp.
    apply (package_valid_ext (blobs w1)); [done | done | | done].
    intros r Hr. pose proof (scanner_loop_keeps_blob r xs w1) as Hkb.
    rewrite Hrun in Hkb. apply Hkb. intros y Hy Hpy Hry.
    assert (y = x) as ->; [|done].
    apply Hinj; [by apply list_elem_of_further | apply list_elem_of_here | done | done |].
    congruence.
  - apply (IH w1 w'); [done | | done | done | done].
    intros d1 d2 H1 H2. apply Hinj; by apply list_elem_of_further.
Qed.

(** A scan over packages that all have a valid record only logs. *)
Lemma scanner_loop_all_valid names : ∀ w,
  (∀ d, d ∈ names → is_package_name d = true → package_valid lib (blobs w) d) →
  ∃ evs, uploads evs = [] ∧
         for_each names (check_metadata_body lib) w = (Return (), logged evs w).
Proof.
  induction names as [|x xs IH]; intros w Hv.
  - exists []. by rewrite logged_nil.
  - assert (∃ evs1, uploads evs1 = [] ∧
                    check_metadata_body lib x w = (Return (), logged evs1 w))
      as (evs1 & Hu1 & Hx).
    { unfold check_metadata_body. fold (is_package_name x).
      destruct (is_package_name x) eqn:Hp; cbn [negb].
      - destruct (Hv x (list_elem_of_here _ _) Hp) as (r & Hrec & Hval).
        assert (∃ a, store_get x (blobs w) = Some a) as [a Ha].
        { unfold valid_record in Hval. destruct (store_get x (blobs w)); [by eexists | done]. }
        destruct (PackageBlob_init_package lib x w a Hp Ha) as [pb Hinit].
        unfold mbind, M_bind. rewrite Hinit.
        pose proof (PackageBlob_init_record_name _ _ _ _ _ Hinit) as [Hrec' _].
        assert (r = metadata_blob_name pb) as -> by congruence.
        apply (valid_record_tag_matches _ _ _ _ _ Hinit) in Hval.
        destruct (check_cases lib pb w) as [[_ Hc]|[Hno _]]; [|done].
        eexists. split; [|exact Hc]. done.
      - exists []. by rewrite logged_nil. }
    destruct (IH (logged evs1 w)) as (evs & Hu & Hrest).
    { intros d Hd Hp. apply Hv; [by apply list_elem_of_further | done]. }
    exists (evs ++ evs1). split; [by rewrite uploads_app, Hu, Hu1|].
    cbn [for_each]. unfold mbind, M_bind. rewrite Hx, Hrest. by rewrite logged_logged.
Qed.

Lemma downloaded_bytes_store_put k b l :
  is_metadata_name k = false →
  downloaded_bytes (store_put k b l) (store_put k b l).*1 = downloaded_bytes l l.*1.
Proof.
  intros Hk. rewrite downloaded_bytes_put by done.
  rewrite store_put_names. destruct (decide (k ∈ l.*1)); [done|].
  by apply downloaded_bytes_snoc.
Qed.

(** What a pass that returns has done, in two steps. *)
Lemma maintenance_pass_Return w w1 :
  maintenance_pass lib w = (Return (), w1) →
  ∃ ws,
    for_each (blobs w).*1 (check_metadata_body lib) w = (Return (), ws) ∧
    create_packages lib (mkRepoManager "Packages" "Packages.xz") ws = (Return (), w1).
Proof.
  rewrite maintenance_pass_run. unfold check_metadata, mbind, M_bind, list_blobs.
  destruct (for_each _ _ w) as [[[]|e] ws]; [|done]. intros H. by exists ws.
Qed.

(** After a pass that returns, every package of the container has a valid
    record, provided names are distinct and no two packages share a record. *)
Lemma maintenance_pass_valid w w1 :
  NoDup (blobs w).*1 →
  records_injective (blobs w) →
  maintenance_pass lib w = (Return (), w1) →
  ∀ d, d ∈ (blobs w1).*1 → is_package_name d = true → package_valid lib (blobs w1) d.
Proof.
  intros Hnd Hinj Hrun d Hd Hp.
  pose proof (stable_maintenance_pass lib no_new_package no_new_package_refl
                no_new_package_trans) as Hnew.
  destruct (maintenance_pass_Return w w1 Hrun) as (ws & Hscan & Hasm).
  set (rm := mkRepoManager "Packages" "Packages.xz") in *.
  assert (d ∈ (blobs w).*1) as Hdw.
  { pose proof (scanner_loop_keeps_packages (blobs w).*1 w) as Hkp1.
    pose proof (assembler_keeps_packages lib rm ws eq_refl eq_refl) as Hkp2.
    rewrite Hscan in Hkp1. rewrite Hasm in Hkp2. cbn [snd] in *.
    apply store_get_is_Some. rewrite <- (Hkp1 d Hp), <- (Hkp2 d Hp).
    by apply store_get_is_Some. }
  pose proof (scanner_loop_valid (blobs w).*1 w ws Hnd Hinj Hscan d Hdw Hp) as Hv.
  apply (package_valid_ext (blobs ws)); [done | | | done].
  - pose proof (assembler_keeps_packages lib rm ws eq_refl eq_refl) as H.
    by rewrite Hasm in H.
  - intros r Hr.
    assert (is_metadata_name r = true) as Hm.
    { destruct (record_name_of_package d Hp) as (k & Hk & Hm & _). congruence. }
    destruct (metadata_name_not_index r Hm) as [H1 H2].
    pose proof (stable_create_packages lib (keeps_blob r) (keeps_blob_refl r)
                  (keeps_blob_trans r) rm
                  (keeps_blob_writable r _ (not_eq_sym H1))
                  (keeps_blob_writable r _ (not_eq_sym H2)) ws) as H.
    by rewrite Hasm in H.
Qed.

End Convergence.

Lemma valid_record_true lib l d k :
  valid_record lib l d k = true →
  ∃ a r, store_get d l = Some a ∧ store_get k l = Some r ∧
         metadata r !! DEB_CHECK_KEY = Some (str_datetime lib (last_modified a)).
Proof.
  unfold valid_record.
  destruct (store_get d l) as [a|]; [|done].
  destruct (store_get k l) as [r|]; [|done].
  intros H%bool_decide_eq_true. by exists a, r.
Qed.

(** ** The scanner stops at the first package it cannot read *)

Section FirstError.

Context (lib : Library).

(** The turn of the scanner on a package that pydpkg cannot read and whose
    record is not valid: it raises and writes nothing. *)
Lemma check_metadata_body_unreadable d a w :
  is_package_name d = true →
  store_get d (blobs w) = Some a →
  dpkg_control_str lib (content a) = None →
  ¬ package_valid lib (blobs w) d →
  ∃ w', check_metadata_body lib d w = (Raise DpkgError, w') ∧ same_store w w'.
Proof.
  intros Hp Ha Hbad Hinvalid. unfold check_metadata_body. fold (is_package_name d).
  rewrite Hp. cbn [negb].
  destruct (PackageBlob_init_package lib d w a Hp Ha) as [pb Hinit].
  unfold mbind, M_bind. rewrite Hinit.
  pose proof (PackageBlob_init_record_name _ _ _ _ _ Hinit) as [Hrec Hbn].
  destruct (check_cases lib pb w) as [[Htm _]|[_ [msg Hc]]].
  { destruct Hinvalid. exists (metadata_blob_name pb). split; [done|].
    by apply (valid_record_tag_matches _ _ _ _ _ Hinit). }
  rewrite Hc, create_metadata_run. cbv zeta. cbn [blobs logged].
  rewrite Hbn, Ha, Hbad. eexists. split; [done|].
  rewrite logged_logged. by apply same_store_logged.
Qed.

(** The turn of the scanner on a package whose record is valid only logs. *)
Lemma check_metadata_body_skips x w :
  is_package_name x = true →
  package_valid lib (blobs w) x →
  ∃ evs, uploads evs = [] ∧ check_metadata_body lib x w = (Return (), logged evs w).
Proof.
  intros Hp (r & Hrec & Hval). unfold check_metadata_body. fold (is_package_name x).
  rewrite Hp. cbn [negb].
  assert (∃ a, store_get x (blobs w) = Some a) as [a Ha].
  { unfold valid_record in Hval. destruct (store_get x (blobs w)); [by eexists | done]. }
  destruct (PackageBlob_init_package lib x w a Hp Ha) as [pb Hinit].
  unfold mbind, M_bind. rewrite Hinit.
  pose proof (PackageBlob_init_record_name _ _ _ _ _ Hinit) as [Hrec' _].
  assert (r = metadata_blob_name pb) as -> by congruence.
  apply (valid_record_tag_matches _ _ _ _ _ Hinit) in Hval.
  destruct (check_cases lib pb w) as [[_ Hc]|[Hno _]]; [|done].
  eexists. split; [|exact Hc]. done.
Qed.

(** A scan returns when each of its packages can be read by pydpkg or has a
    valid record. *)
Lemma scanner_loop_returns names : ∀ w,
  NoDup names →
  (∀ n, n ∈ names → n ∈ (blobs w).*1) →
  (∀ d1 d2, d1 ∈ names → d2 ∈ names →
            is_package_name d1 = true → is_package_name d2 = true →
            record_name_of d1 = record_name_of d2 → d1 = d2) →
  (∀ p b, p ∈ names → is_package_name p = true → store_get p (blobs w) = Some b →
          dpkg_control_str lib (content b) ≠ None ∨ package_valid lib (blobs w) p) →
  ∃ w1, for_each names (check_metadata_body lib) w = (Return (), w1).
Proof.
  induction names as [|x xs IH]; intros w Hnd Hin Hinj Hok; [by exists w|].
  apply NoDup_cons in Hnd as [Hx Hnd].
  assert (∃ w0, check_metadata_body lib x w = (Return (), w0)) as [w0 Hbody].
  { destruct (check_metadata_body lib x w) as [[[]|e] w0] eqn:E; [by exists w0|].
    destruct (check_metadata_body_Raise lib x w e w0) as (_ & Hp & a & Ha & Hbad);
      [apply Hin, list_elem_of_here | done |].
    destruct (Hok x a (list_elem_of_here _ _) Hp Ha) as [Hread|Hvalid]; [done|].
    destruct (check_metadata_body_skips x w Hp Hvalid) as (evs & _ & Hret). congruence. }
  pose proof (check_metadata_body_keeps_names lib x w) as Hkn.
  pose proof (check_metadata_body_keeps_packages lib x w) as Hkp.
  rewrite Hbody in Hkn, Hkp. cbn [snd] in Hkn, Hkp.
  destruct (IH w0) as [w1 Hrest]; [done | | |  |].
  - intros n Hn. apply Hkn, Hin. by apply list_elem_of_further.
  - intros d1 d2 H1 H2. apply Hinj; by apply list_elem_of_further.
  - intros p b Hp Hpk Hb. rewrite (Hkp p Hpk) in Hb.
    destruct (Hok p b (list_elem_of_further _ _ _ Hp) Hpk Hb) as [Hread|Hvalid]; [by left|].
    right. apply (package_valid_ext lib (blobs w)); [done | done | | done].
    intros r Hr.
    pose proof (stable_check_metadata_body lib (keeps_blob r) (keeps_blob_refl r)
                  (keeps_blob_trans r) x) as Hs.
    specialize (Hs ltac:(intros Hpx k Hk; apply keeps_blob_writable; intros ->;
                         apply Hx; replace x with p; [done|];
                         apply Hinj; [by apply list_elem_of_further | apply list_elem_of_here
                                     | done | done | congruence]) w).
    by rewrite Hbody in Hs.
  - exists w1. cbn [for_each]. unfold mbind, M_bind. by rewrite Hbody.
Qed.

(** Where the scan stops.  The listing is [before], then the package [d],
    then [after]; each package of [before] can be read by pydpkg or has a
    valid record; [d] cannot be read and its record is not valid. *)
Lemma scanner_stops before d after a w :
  NoDup (blobs w).*1 →
  records_injective (blobs w) →
  (blobs w).*1 = before ++ d :: after →
  is_package_name d = true →
  store_get d (blobs w) = Some a →
  dpkg_control_str lib (content a) = None →
  ¬ package_valid lib (blobs w) d →
  (∀ p b, p ∈ before → is_package_name p = true → store_get p (blobs w) = Some b →
          dpkg_control_str lib (content b) ≠ None ∨ package_valid lib (blobs w) p) →
  ∃ w1 w',
    for_each before (check_metadata_body lib) w = (Return (), w1) ∧
    for_each (blobs w).*1 (check_metadata_body lib) w = (Raise DpkgError, w') ∧
    same_store w1 w'.
Proof.
  intros Hnd Hinj Hnames Hp Ha Hbad Hinvalid Hread.
  assert (∀ n, n ∈ before → n ∈ (blobs w).*1) as Hin.
  { intros n Hn. rewrite Hnames. apply elem_of_app. by left. }
  assert (d ∈ (blobs w).*1) as Hd.
  { rewrite Hnames. apply elem_of_app. right. apply list_elem_of_here. }
  assert (d ∉ before) as Hfresh.
  { rewrite Hnames in Hnd. apply NoDup_app in Hnd as (_ & Hdisj & _).
    intros Hb. apply (Hdisj d Hb), list_elem_of_here. }
  assert (NoDup before) as Hndb.
  { rewrite Hnames in Hnd. by apply NoDup_app in Hnd as (? & _ & _). }
  destruct (scanner_loop_returns before w Hndb Hin) as [w1 Hbefore]; [|done|].
  { intros d1 d2 H1 H2. apply Hinj; by apply Hin. }
  pose proof (scanner_loop_keeps_packages lib before w) as Hkp.
  rewrite Hbefore in Hkp. cbn [snd] in Hkp.
  assert (¬ package_valid lib (blobs w1) d) as Hinvalid1.
  { intros (k & Hk & Hv). apply Hinvalid. exists k. split; [done|].
    rewrite <- Hv. symmetry. apply valid_record_ext; [by apply Hkp|].
    pose proof (scanner_loop_keeps_blob lib k before w) as Hkb.
    rewrite Hbefore in Hkb. apply Hkb. intros y Hy Hpy Hry.
    apply Hfresh. replace d with y; [done|].
    apply Hinj; [by apply Hin | done | done | done | congruence]. }
  destruct (check_metadata_body_unreadable d a w1 Hp) as (w' & Hbody & Hsame);
    [by rewrite (Hkp d Hp) | done | done |].
  exists w1, w'. split; [done|]. split; [|done].
  rewrite Hnames, for_each_app, Hbefore. cbn [for_each]. unfold mbind, M_bind.
  by rewrite Hbody.
Qed.

End FirstError.

(** C5, as the code has it.  The scanner catches nothing.  Take a container
    with distinct names in which no two packages share a record name, and
    let its listing be [before], then the package [d], then [after], where
    each package of [before] can be read by pydpkg or has a valid record,
    and [d] cannot be read and has a record that is missing or stale: [d] is
    the first package on which extraction fails.  Then [check_metadata]
    raises [DpkgError], and so do both triggers, ending where
    [check_metadata] ended: the assembler has not run.  What was written for
    the packages of [before] stays: the container is the one the scan of
    [before] left, and each of them has a valid record.  Nothing else is
    touched: every blob that is not the record of a package of [before] is as
    it was, so the records of [d] and of the packages of [after] are as they
    were, valid or not, and so are [Packages] and [Packages.xz]. *)
Theorem check_metadata_stops_at_first_error lib w before d after a :
  NoDup (blobs w).*1 →
  records_injective (blobs w) →
  (blobs w).*1 = before ++ d :: after →
  is_package_name d = true →
  store_get d (blobs w) = Some a →
  dpkg_control_str lib (content a) = None →
  ¬ package_valid lib (blobs w) d →
  (∀ p b, p ∈ before → is_package_name p = true → store_get p (blobs w) = Some b →
          dpkg_control_str lib (content b) ≠ None ∨ package_valid lib (blobs w) p) →
  ∃ w',
    (∀ rm, check_metadata lib rm w = (Raise DpkgError, w')) ∧
    (∃ w1, for_each before (check_metadata_body lib) w = (Return (), w1) ∧
           blobs w' = blobs w1 ∧ clock w' = clock w1 ∧
           uploads (trace w') = uploads (trace w1)) ∧
    (∀ event,
       (eventGridTrigger lib event w).1 = Raise DpkgError ∧
       blobs (eventGridTrigger lib event w).2 = blobs w' ∧
       uploads (trace (eventGridTrigger lib event w).2) = uploads (trace w')) ∧
    (∀ newfile,
       not_a_package (is_name newfile) = false →
       (blob_trigger lib newfile w).1 = Raise DpkgError ∧
       blobs (blob_trigger lib newfile w).2 = blobs w' ∧
       uploads (trace (blob_trigger lib newfile w).2) = uploads (trace w')) ∧
    (∀ p, p ∈ before → is_package_name p = true →
          ∃ k b r,
            record_name_of p = Some k ∧
            store_get p (blobs w') = Some b ∧
            store_get k (blobs w') = Some r ∧
            metadata r !! DEB_CHECK_KEY = Some (str_datetime lib (last_modified b))) ∧
    (∀ k, (∀ p, p ∈ before → is_package_name p = true → record_name_of p ≠ Some k) →
          store_get k (blobs w') = store_get k (blobs w)) ∧
    (∀ p k, p ∈ d :: after → is_package_name p = true → record_name_of p = Some k →
            store_get k (blobs w') = store_get k (blobs w) ∧
            valid_record lib (blobs w') p k = valid_record lib (blobs w) p k) ∧
    store_get "Packages" (blobs w') = store_get "Packages" (blobs w) ∧
    store_get "Packages.xz" (blobs w') = store_get "Packages.xz" (blobs w).
Proof.
  intros Hnd Hinj Hnames Hp Ha Hbad Hinvalid Hread.
  destruct (scanner_stops lib before d after a w Hnd Hinj Hnames Hp Ha Hbad Hinvalid Hread)
    as (w1 & w' & Hbefore & Hscan & (Hb & Hck & Hup)).
  assert (∀ n, n ∈ before → n ∈ (blobs w).*1) as Hin.
  { intros n Hn. rewrite Hnames. apply elem_of_app. by left. }
  assert (∀ rm, check_metadata lib rm w = (Raise DpkgError, w')) as Hcm.
  { intros rm. unfold check_metadata, mbind, M_bind, list_blobs. exact Hscan. }
  assert (maintenance_pass lib w = (Raise DpkgError, w')) as Hpass.
  { by rewrite maintenance_pass_run, Hcm. }
  assert (∀ k, (∀ p, p ∈ before → is_package_name p = true → record_name_of p ≠ Some k) →
               store_get k (blobs w') = store_get k (blobs w)) as Hframe.
  { intros k Hk. rewrite <- Hb.
    pose proof (scanner_loop_keeps_blob lib k before w Hk) as Hkb.
    by rewrite Hbefore in Hkb. }
  assert (keeps_packages (blobs w) (blobs w')) as Hkp.
  { rewrite <- Hb. pose proof (scanner_loop_keeps_packages lib before w) as H.
    by rewrite Hbefore in H. }
  assert (NoDup before ∧ ∀ p, p ∈ d :: after → p ∉ before) as [Hndb Hdisj].
  { rewrite Hnames in Hnd. apply NoDup_app in Hnd as (? & Hdisj & _).
    split; [done|]. intros p Hp' Hpb. by apply (Hdisj p Hpb). }
  exists w'. split; [done|]. split; [by exists w1|].
  split; [|split; [|split; [|split; [done|split; [|split]]]]].
  - intros event.
    destruct (Msim_eventGridTrigger lib event w w (same_store_refl w)) as [Ho (? & _ & ?)].
    rewrite Hpass in *. cbn [fst snd] in *. done.
  - intros newfile Hn.
    destruct (Msim_blob_trigger lib newfile Hn w w (same_store_refl w)) as [Ho (? & _ & ?)].
    rewrite Hpass in *. cbn [fst snd] in *. done.
  - intros p Hpb Hpp. rewrite <- Hb.
    assert (package_valid lib (blobs w1) p) as (k & Hk & Hv).
    { apply (scanner_loop_valid lib before w w1); [done | | done | done | done].
      intros d1 d2 H1 H2. apply Hinj; by apply Hin. }
    destruct (valid_record_true lib _ _ _ Hv) as (b & r & ? & ? & ?).
    by exists k, b, r.
  - intros p k Hpl Hpp Hk.
    assert (store_get k (blobs w') = store_get k (blobs w)) as Hrec.
    { apply Hframe. intros y Hy Hpy Hry. apply (Hdisj p Hpl).
      replace p with y; [done|].
      apply Hinj; [by apply Hin | | done | done | congruence].
      rewrite Hnames. apply elem_of_app. by right. }
    split; [done|]. apply valid_record_ext; [by apply Hkp | done].
  - apply Hframe. intros p _ Hpp Hk.
    destruct (record_name_of_package p Hpp) as (k & Hk' & Hm & _).
    rewrite Hk in Hk'. injection Hk' as <-. discriminate Hm.
  - apply Hframe. intros p _ Hpp Hk.
    destruct (record_name_of_package p Hpp) as (k & Hk' & Hm & _).
    rewrite Hk in Hk'. injection Hk' as <-. discriminate Hm.
Qed.

Lemma demo_world_mixed_NoDup : NoDup (blobs Demo.world_mixed).*1.
Proof.
  apply (bool_decide_unpack (NoDup (blobs Demo.world_mixed).*1)). vm_compute. exact I.
Qed.

Lemma demo_world_mixed_injective : records_injective (blobs Demo.world_mixed).
Proof.
  intros d1 d2 H1 H2 _ _ Hrec. cbn in H1, H2.
  repeat (apply elem_of_cons in H1 as [->|H1]); [| | |by apply elem_of_nil in H1];
    repeat (apply elem_of_cons in H2 as [->|H2]);
    try done; try (by apply elem_of_nil in H2); vm_compute in Hrec; discriminate Hrec.
Qed.

Lemma check_metadata_stops_at_first_error_witness :
  ∃ w',
    check_metadata Demo.library Demo.rm Demo.world_mixed = (Raise DpkgError, w') ∧
    (blob_trigger Demo.library (mkInputStream (Some "z.deb") None) Demo.world_mixed).1
    = Raise DpkgError ∧
    (∃ k b r,
       record_name_of "a.deb" = Some k ∧
       store_get "a.deb" (blobs w') = Some b ∧
       store_get k (blobs w') = Some r ∧
       metadata r !! DEB_CHECK_KEY = Some (str_datetime Demo.library (last_modified b))) ∧
    store_get "z.package" (blobs w') = store_get "z.package" (blobs Demo.world_mixed) ∧
    store_get "Packages" (blobs w') = store_get "Packages" (blobs Demo.world_mixed).
Proof.
  destruct (check_metadata_stops_at_first_error Demo.library Demo.world_mixed
              ["a.deb"] "bad.deb" ["z.deb"] Demo.bad_deb
              demo_world_mixed_NoDup demo_world_mixed_injective
              eq_refl eq_refl eq_refl eq_refl)
    as (w' & Hcm & _ & _ & Hbt & Hbefore & _ & Hafter & Hpk & _).
  - intros (k & Hk & Hv). vm_compute in Hk. injection Hk as <-.
    vm_compute in Hv. discriminate Hv.
  - intros p b Hp _ Hb. apply list_elem_of_singleton in Hp as ->.
    vm_compute in Hb. injection Hb as <-. left. discriminate.
  - exists w'. split; [exact (Hcm Demo.rm)|].
    split; [exact (proj1 (Hbt (mkInputStream (Some "z.deb") None) eq_refl))|].
    split; [exact (Hbefore "a.deb" (list_elem_of_here _ _) eq_refl)|].
    split; [|exact Hpk].
    exact (proj1 (Hafter "z.deb" "z.package"
                    (list_elem_of_further _ _ _ (list_elem_of_here _ _)) eq_refl eq_refl)).
Defined.

(** X4. When pydpkg can read every package of the container, the maintenance
    pass returns, and so do both triggers, whatever their argument. *)
Theorem pass_returns_when_packages_readable lib w :
  all_readable lib (blobs w) →
  (∃ w', maintenance_pass lib w = (Return (), w')) ∧
  (∀ event, (eventGridTrigger lib event w).1 = Return ()) ∧
  (∀ newfile, (blob_trigger lib newfile w).1 = Return ()).
Proof.
  intros Hread.
  assert (∃ w', maintenance_pass lib w = (Return (), w')) as [w' Hpass].
  { destruct (maintenance_pass lib w) as [[[]|e] w'] eqn:E; [by exists w'|].
    destruct (maintenance_pass_Raise lib w e w' E) as (_ & d & a & Hp & Ha & Hc).
    by destruct (Hread d a Ha Hp). }
  split; [by exists w'|]. split.
  - intros event.
    destruct (Msim_eventGridTrigger lib event w w (same_store_refl w)) as [Ho _].
    by rewrite Ho, Hpass.
  - intros newfile. destruct (not_a_package (is_name newfile)) eqn:E.
    + unfold blob_trigger. by rewrite E.
    + destruct (Msim_blob_trigger lib newfile E w w (same_store_refl w)) as [Ho _].
      by rewrite Ho, Hpass.
Qed.

Lemma demo_world_foo_readable : all_readable Demo.library (blobs Demo.world_foo).
Proof.
  intros d a Ha Hp. cbn [blobs Demo.world_foo store_get] in Ha.
  destruct (String.eqb_spec "foo_1.0.deb" d) as [<-|_].
  - by injection Ha as <-.
  - destruct (String.eqb_spec "old.package" d) as [<-|_]; [done | done].
Qed.

Lemma pass_returns_when_packages_readable_witness :
  ∃ w', maintenance_pass Demo.library Demo.world_foo = (Return (), w').
Proof.
  exact (proj1 (pass_returns_when_packages_readable Demo.library Demo.world_foo
                  demo_world_foo_readable)).
Defined.

(** X5. After a maintenance pass that returns, every package of the
    container has a valid metadata record: the record exists and its
    [DebLastModified] tag is the text of the package's last-modified value.
    This holds for a container with distinct names in which no two packages
    share a record name. *)
Theorem pass_validates_every_package lib w w1 :
  NoDup (blobs w).*1 →
  records_injective (blobs w) →
  maintenance_pass lib w = (Return (), w1) →
  ∀ d, d ∈ (blobs w1).*1 → is_package_name d = true →
       ∃ k a r,
         record_name_of d = Some k ∧
         store_get d (blobs w1) = Some a ∧
         store_get k (blobs w1) = Some r ∧
         metadata r !! DEB_CHECK_KEY = Some (str_datetime lib (last_modified a)).
Proof.
  intros Hnd Hinj Hrun d Hd Hp.
  destruct (maintenance_pass_valid lib w w1 Hnd Hinj Hrun d Hd Hp) as (k & Hk & Hv).
  destruct (valid_record_true lib _ _ _ Hv) as (a & r & ? & ? & ?).
  by exists k, a, r.
Qed.

Lemma demo_world_foo_NoDup : NoDup (blobs Demo.world_foo).*1.
Proof.
  apply (bool_decide_unpack (NoDup (blobs Demo.world_foo).*1)). vm_compute. exact I.
Qed.

Lemma demo_world_foo_injective : records_injective (blobs Demo.world_foo).
Proof.
  intros d1 d2 H1 H2 Hp1 Hp2 _. cbn in H1, H2.
  apply elem_of_cons in H1 as [->|H1]; apply elem_of_cons in H2 as [->|H2]; [done|..].
  - apply list_elem_of_singleton in H2 as ->. discriminate Hp2.
  - apply list_elem_of_singleton in H1 as ->. discriminate Hp1.
  - apply list_elem_of_singleton in H1 as ->. discriminate Hp1.
Qed.

Lemma pass_validates_every_package_witness :
  ∃ k a r,
    record_name_of "foo_1.0.deb" = Some k ∧
    store_get "foo_1.0.deb" (blobs (maintenance_pass Demo.library Demo.world_foo).2)
    = Some a ∧
    store_get k (blobs (maintenance_pass Demo.library Demo.world_foo).2) = Some r ∧
    metadata r !! DEB_CHECK_KEY = Some (str_datetime Demo.library (last_modified a)).
Proof.
  apply (pass_validates_every_package Demo.library Demo.world_foo
           (maintenance_pass Demo.library Demo.world_foo).2
           demo_world_foo_NoDup demo_world_foo_injective
           ltac:(vm_compute; reflexivity) "foo_1.0.deb").
  - vm_compute. apply list_elem_of_here.
  - reflexivity.
Defined.

(** X6. The maintenance pass converges.  From the container that a pass which
    returned has left (distinct names, no two packages sharing a record), a
    second pass returns too; it uploads [Packages] and [Packages.xz] and
    nothing else, with the same bytes as before; every other blob, metadata
    records included, is exactly as the first pass left it. *)
Theorem second_pass_rewrites_only_the_index lib w w1 :
  NoDup (blobs w).*1 →
  records_injective (blobs w) →
  maintenance_pass lib w = (Return (), w1) →
  ∃ w2,
    maintenance_pass lib w1 = (Return (), w2) ∧
    uploads (trace w2) = "Packages.xz" :: "Packages" :: uploads (trace w1) ∧
    (∀ k, content <$> store_get k (blobs w2) = content <$> store_get k (blobs w1)) ∧
    (∀ k, k ≠ "Packages" → k ≠ "Packages.xz" →
          store_get k (blobs w2) = store_get k (blobs w1)).
Proof.
  intros Hnd Hinj Hrun.
  pose proof (maintenance_pass_valid lib w w1 Hnd Hinj Hrun) as Hvalid.
  destruct (maintenance_pass_Return lib w w1 Hrun) as (ws & _ & Hasm).
  set (rm := mkRepoManager "Packages" "Packages.xz") in *.
  destruct (create_packages_run lib rm ws) as (w1' & Hasm' & Hb1 & _).
  rewrite Hasm in Hasm'. injection Hasm' as <-. cbv zeta in Hb1.
  cbn [package_file package_file_xz rm] in Hb1.
  destruct (scanner_loop_all_valid lib (blobs w1).*1 w1 Hvalid) as (evs & Hevs & Hscan).
  destruct (create_packages_run lib rm (logged evs w1)) as (w2 & Hasm2 & Hb2 & _ & Hu2).
  cbv zeta in Hb2. cbn [package_file package_file_xz rm blobs clock logged] in Hb2, Hu2.
  assert (downloaded_bytes (blobs w1) (blobs w1).*1
          = downloaded_bytes (blobs ws) (blobs ws).*1) as Hbuf.
  { rewrite Hb1. by rewrite !downloaded_bytes_store_put. }
  exists w2. split; [|split; [|split]].
  - rewrite maintenance_pass_run. unfold check_metadata, mbind, M_bind, list_blobs.
    fold rm. by rewrite Hscan.
  - rewrite Hu2. cbn [trace logged]. by rewrite uploads_app, Hevs.
  - intros k. rewrite Hb2, Hbuf.
    destruct (decide (k = "Packages.xz")) as [->|Hxz].
    { rewrite store_get_put_eq, Hb1, store_get_put_eq. done. }
    rewrite store_get_put_ne by done.
    destruct (decide (k = "Packages")) as [->|Hpk].
    { rewrite store_get_put_eq, Hb1.
      rewrite store_get_put_ne by done. by rewrite store_get_put_eq. }
    by rewrite store_get_put_ne by done.
  - intros k Hpk Hxz. rewrite Hb2. by rewrite !store_get_put_ne by done.
Qed.

Lemma second_pass_rewrites_only_the_index_witness :
  ∃ w2,
    maintenance_pass Demo.library (maintenance_pass Demo.library Demo.world_foo).2
    = (Return (), w2) ∧
    uploads (trace w2)
    = "Packages.xz" :: "Packages"
      :: uploads (trace (maintenance_pass Demo.library Demo.world_foo).2).
Proof.
  destruct (second_pass_rewrites_only_the_index Demo.library Demo.world_foo
              (maintenance_pass Demo.library Demo.world_foo).2
              demo_world_foo_NoDup demo_world_foo_injective
              ltac:(vm_compute; reflexivity))
    as (w2 & Hrun & Hu & _).
  exists w2. split; [exact Hrun | exact Hu].
Defined.

(** * Properties of the deployment scripts *)

(** ** Substrings *)

Section ContainsFacts.

Implicit Types s p n t : string.

Lemma startswith_unfold s p :
  PyStr.startswith s p =
    match p, s with
    | "", _ => true
    | String a p', String b s' => if Ascii.eqb a b then PyStr.startswith s' p' else false
    | String _ _, "" => false
    end.
Proof. by destruct p. Qed.

Lemma startswith_app p t : PyStr.startswith (p +:+ t) p = true.
Proof.
  induction p as [|a p IH]; [done|].
  cbn [String.append]. rewrite startswith_unfold. by rewrite Ascii.eqb_refl.
Qed.

(** [startswith] is the prefix relation. *)
Lemma startswith_spec s p : PyStr.startswith s p = true ↔ ∃ t, s = p +:+ t.
Proof.
  split; [|intros [t ->]; apply startswith_app].
  revert s. induction p as [|a p IH]; intros s; [by exists s|].
  rewrite startswith_unfold. destruct s as [|b s]; [done|].
  destruct (Ascii.eqb_spec a b) as [->|]; [|done].
  intros [t ->]%IH. by exists t.
Qed.

Lemma contains_unfold s n :
  PyStr.contains s n =
    if PyStr.startswith s n then true
    else match s with "" => false | String _ s' => PyStr.contains s' n end.
Proof. by destruct s. Qed.

Lemma contains_cons a s n :
  PyStr.contains s n = true → PyStr.contains (String a s) n = true.
Proof. intros H. rewrite contains_unfold, H. by destruct (PyStr.startswith _ _). Qed.

Lemma contains_startswith s n :
  PyStr.startswith s n = true → PyStr.contains s n = true.
Proof. intros H. by rewrite contains_unfold, H. Qed.

(** [contains] is the substring relation. *)
Lemma contains_spec s n :
  PyStr.contains s n = true ↔ ∃ pre post, s = pre +:+ n +:+ post.
Proof.
  split.
  - induction s as [|a s IH]; rewrite contains_unfold.
    + destruct (PyStr.startswith "" n) eqn:E; [|done].
      apply startswith_spec in E as [t Ht]. intros _. by exists "", t.
    + destruct (PyStr.startswith (String a s) n) eqn:E.
      * apply startswith_spec in E as [t Ht]. intros _. by exists "", t.
      * intros (pre & post & ->)%IH. by exists (String a pre), post.
  - intros (pre & post & ->). induction pre as [|a pre IH].
    + change ("" +:+ n +:+ post) with (n +:+ post).
      apply contains_startswith, startswith_app.
    + change (String a pre +:+ n +:+ post) with (String a (pre +:+ n +:+ post)).
      by apply contains_cons.
Qed.

Lemma contains_refl s : PyStr.contains s s = true.
Proof. apply contains_spec. exists "", "". cbn. by rewrite append_nil_r. Qed.

Lemma contains_trans s t n :
  PyStr.contains s t = true → PyStr.contains t n = true → PyStr.contains s n = true.
Proof.
  intros (p1 & q1 & ->)%contains_spec (p2 & q2 & ->)%contains_spec.
  apply contains_spec. exists (p1 +:+ p2), (q2 +:+ q1).
  by rewrite !append_assoc.
Qed.

Lemma contains_app_l s t n :
  PyStr.contains s n = true → PyStr.contains (s +:+ t) n = true.
Proof.
  intros (p & q & ->)%contains_spec. apply contains_spec.
  exists p, (q +:+ t). by rewrite !append_assoc.
Qed.

Lemma contains_app_r s t n :
  PyStr.contains t n = true → PyStr.contains (s +:+ t) n = true.
Proof.
  intros (p & q & ->)%contains_spec. apply contains_spec.
  exists (s +:+ p), q. by rewrite !append_assoc.
Qed.

Lemma contains_endswith s n : PyStr.endswith s n = true → PyStr.contains s n = true.
Proof.
  intros [p ->]%endswith_spec. apply contains_app_r, contains_refl.
Qed.

(** A needle without the character [c] that starts in [a] and is a prefix
    of [a ++ c :: b] ends in [a]. *)
Lemma startswith_app_char a c b n :
  PyStr.contains n (String c "") = false →
  PyStr.startswith (a +:+ String c b) n = true →
  PyStr.startswith a n = true.
Proof.
  revert a. induction n as [|x n IH]; intros a Hc; [by destruct a|].
  rewrite contains_unfold in Hc.
  destruct (PyStr.startswith (String x n) (String c "")) eqn:Ex; [done|].
  rewrite startswith_unfold in Ex.
  destruct (Ascii.eqb_spec c x) as [->|Hcx]; [by destruct n|].
  destruct a as [|y a]; cbn [String.append]; rewrite !(startswith_unfold _ (String x n)).
  - destruct (Ascii.eqb_spec x c) as [->|]; [done | done].
  - destruct (Ascii.eqb x y); [|done]. by apply IH.
Qed.

(** A needle without the character [c] that occurs in [a ++ c :: b] occurs
    in [a] or in [b]. *)
Lemma contains_app_char a c b n :
  n ≠ "" →
  PyStr.contains n (String c "") = false →
  PyStr.contains (a +:+ String c b) n = true →
  PyStr.contains a n = true ∨ PyStr.contains b n = true.
Proof.
  intros Hn Hc. induction a as [|y a IH]; cbn [String.append];
    rewrite contains_unfold.
  - destruct (PyStr.startswith (String c b) n) eqn:E; [|by right].
    apply (startswith_app_char "" c b n Hc) in E. by destruct n.
  - destruct (PyStr.startswith (String y (a +:+ String c b)) n) eqn:E.
    + intros _. left. apply contains_startswith.
      by apply (startswith_app_char (String y a) c b n Hc).
    + intros [H|H]%IH; [left; by apply contains_cons | by right].
Qed.

Lemma join_cons d a l :
  l ≠ [] → PyStr.join d (a :: l) = a +:+ d +:+ PyStr.join d l.
Proof. by destruct l. Qed.

Lemma join_app d l1 l2 :
  l1 ≠ [] → l2 ≠ [] →
  PyStr.join d (l1 ++ l2) = PyStr.join d l1 +:+ d +:+ PyStr.join d l2.
Proof.
  intros H1 H2. induction l1 as [|a [|b l1] IH]; [done | |].
  - cbn [app]. by rewrite join_cons.
  - change ((a :: b :: l1) ++ l2) with (a :: ((b :: l1) ++ l2)).
    rewrite !join_cons by done. rewrite IH by done. by rewrite !append_assoc.
Qed.

(** What occurs in an argument occurs in the joined command. *)
Lemma contains_join_elem d l e n :
  e ∈ l → PyStr.contains e n = true → PyStr.contains (PyStr.join d l) n = true.
Proof.
  intros (l1 & l2 & ->)%list_elem_of_split He.
  assert (PyStr.contains (PyStr.join d (e :: l2)) n = true) as H2.
  { destruct l2; [done|]. rewrite join_cons by done. by apply contains_app_l. }
  destruct l1 as [|x l1]; [done|].
  rewrite join_app by done. by do 2 apply contains_app_r.
Qed.

(** A needle without [@] that occurs in the joined command occurs in one of
    the arguments. *)
Lemma contains_join_inv l n :
  n ≠ "" →
  PyStr.contains n "@" = false →
  PyStr.contains (PyStr.join "@@@" l) n = true →
  ∃ e, e ∈ l ∧ PyStr.contains e n = true.
Proof.
  intros Hn Hat. induction l as [|e [|e' l] IH].
  - cbn. by destruct n.
  - intros H. exists e. split; [apply list_elem_of_here | done].
  - rewrite join_cons by done.
    change (e +:+ "@@@" +:+ PyStr.join "@@@" (e' :: l))
      with (e +:+ String "@" ("" +:+ String "@" ("" +:+ String "@"
              (PyStr.join "@@@" (e' :: l))))).
    intros [H|H]%contains_app_char; [| |done..].
    { exists e. split; [apply list_elem_of_here | done]. }
    apply contains_app_char in H as [H|H]; [by destruct n | |done..].
    apply contains_app_char in H as [H|H]; [by destruct n | |done..].
    destruct (IH H) as (x & Hx & Hc). exists x. split; [|done].
    by apply list_elem_of_further.
Qed.

End ContainsFacts.

(** ** azcmd.py: the output modifier *)

Section AddOutputFacts.

Import Scripts.

Lemma add_output_cases OUTPUT cmd :
  let full_cmd := PyStr.join delimiter cmd in
  (PyStr.contains full_cmd ("-o" +:+ delimiter +:+ OUTPUT) = false ∧
   PyStr.contains full_cmd ("-o" +:+ OUTPUT) = false ∧
   PyStr.contains full_cmd ("--output" +:+ delimiter +:+ OUTPUT) = false ∧
   add_output OUTPUT cmd = cmd ++ ["--output"; OUTPUT])
  ∨ ((PyStr.contains full_cmd ("-o" +:+ delimiter +:+ OUTPUT) = true ∨
      PyStr.contains full_cmd ("-o" +:+ OUTPUT) = true ∨
      PyStr.contains full_cmd ("--output" +:+ delimiter +:+ OUTPUT) = true) ∧
     add_output OUTPUT cmd = cmd).
Proof.
  intros full_cmd. unfold add_output. fold full_cmd.
  destruct (PyStr.contains full_cmd ("-o" +:+ delimiter +:+ OUTPUT));
    [right; by split; [left|] |].
  destruct (PyStr.contains full_cmd ("-o" +:+ OUTPUT));
    [right; by split; [right; left|] |].
  destruct (PyStr.contains full_cmd ("--output" +:+ delimiter +:+ OUTPUT));
    [right; by split; [right; right|] |].
  by left.
Qed.

(** A command in which one of the three patterns occurs is left as it is. *)
Lemma add_output_unchanged OUTPUT cmd :
  (PyStr.contains (PyStr.join delimiter cmd) ("-o" +:+ delimiter +:+ OUTPUT) = true ∨
   PyStr.contains (PyStr.join delimiter cmd) ("-o" +:+ OUTPUT) = true ∨
   PyStr.contains (PyStr.join delimiter cmd) ("--output" +:+ delimiter +:+ OUTPUT) = true) →
  add_output OUTPUT cmd = cmd.
Proof.
  intros H. destruct (add_output_cases OUTPUT cmd) as [(H1 & H2 & H3 & _)|[_ ?]]; [|done].
  destruct H as [H|[H|H]]; congruence.
Qed.

(** Two neighbours in a command meet around the delimiter in the joined
    command. *)
Lemma join_neighbours d pre a b post :
  ∃ p q, PyStr.join d (pre ++ a :: b :: post) = p +:+ a +:+ d +:+ b +:+ q.
Proof.
  assert (∃ q, PyStr.join d (a :: b :: post) = a +:+ d +:+ b +:+ q) as [q Hq].
  { rewrite join_cons by done. destruct post as [|c post].
    - exists "". cbn [PyStr.join]. by rewrite append_nil_r.
    - exists (d +:+ PyStr.join d (c :: post)). by rewrite join_cons. }
  destruct pre as [|x pre].
  - exists "", q. done.
  - exists (PyStr.join d (x :: pre) +:+ d), q.
    rewrite join_app by done. rewrite Hq. by rewrite !append_assoc.
Qed.

Lemma contains_across d pre a b post u v :
  PyStr.endswith a u = true → PyStr.startswith b v = true →
  PyStr.contains (PyStr.join d (pre ++ a :: b :: post)) (u +:+ d +:+ v) = true.
Proof.
  intros [a' ->]%endswith_spec [b' ->]%startswith_spec.
  destruct (join_neighbours d pre (a' +:+ u) (v +:+ b') post) as (p & q & ->).
  apply contains_spec. exists (p +:+ a'), (b' +:+ q). by rewrite !append_assoc.
Qed.

(** A command none of whose arguments contains the modifier gets it. *)
Lemma add_output_absent OUTPUT cmd :
  OUTPUT ≠ "" →
  PyStr.contains OUTPUT "@" = false →
  (∀ e, e ∈ cmd → PyStr.contains e OUTPUT = false) →
  add_output OUTPUT cmd = cmd ++ ["--output"; OUTPUT].
Proof.
  intros Hne Hat Hcmd.
  destruct (add_output_cases OUTPUT cmd) as [(_ & _ & _ & Hadd)|[Hpat _]]; [done|].
  assert (PyStr.contains (PyStr.join "@@@" cmd) OUTPUT = true) as Hin.
  { destruct Hpat as [H|[H|H]]; (eapply contains_trans; [exact H|]).
    - apply (contains_app_r "-o@@@"), contains_refl.
    - apply (contains_app_r "-o"), contains_refl.
    - apply (contains_app_r "--output@@@"), contains_refl. }
  destruct (contains_join_inv cmd OUTPUT Hne Hat Hin) as (e & He & Hc).
  rewrite (Hcmd e He) in Hc. done.
Qed.

End AddOutputFacts.

(** X7. [_az_cmd] adds the output modifier at most once: the command it
    builds passes its own test, so building from it again changes nothing;
    and that command is the given one, or the given one followed by
    [--output] and the modifier. *)
Theorem add_output_idempotent OUTPUT cmd :
  Scripts.add_output OUTPUT (Scripts.add_output OUTPUT cmd)
  = Scripts.add_output OUTPUT cmd ∧
  (Scripts.add_output OUTPUT cmd = cmd
   ∨ Scripts.add_output OUTPUT cmd = cmd ++ ["--output"; OUTPUT]).
Proof.
  destruct (add_output_cases OUTPUT cmd) as [(_ & _ & _ & Hadd)|[_ Hsame]].
  - split; [|by right]. rewrite Hadd. apply add_output_unchanged. right. right.
    destruct (list_eq_nil_dec cmd) as [->|Hne].
    + apply contains_refl.
    + rewrite join_app by done. do 2 apply contains_app_r. apply contains_refl.
  - split; [by rewrite !Hsame | by left].
Qed.

(** X8. A command that already carries the modifier as two arguments, [-o]
    or [--output] followed by the modifier, is run as it is.  The test is
    textual: it accepts any argument that ends with [-o] or [--output]
    followed by any argument that starts with the modifier. *)
Theorem add_output_keeps_explicit_flag OUTPUT pre flag val post :
  PyStr.endswith flag "-o" = true ∨ PyStr.endswith flag "--output" = true →
  PyStr.startswith val OUTPUT = true →
  Scripts.add_output OUTPUT (pre ++ flag :: val :: post) = pre ++ flag :: val :: post.
Proof.
  intros [Hf|Hf] Hv; apply add_output_unchanged.
  - left. by apply (contains_across Scripts.delimiter pre flag val post "-o" OUTPUT).
  - right. right.
    by apply (contains_across Scripts.delimiter pre flag val post "--output" OUTPUT).
Qed.

Lemma add_output_keeps_explicit_flag_witness :
  Scripts.add_output "json" ["az"; "group"; "list"; "-o"; "json"]
  = ["az"; "group"; "list"; "-o"; "json"] ∧
  Scripts.add_output "json" ["az"; "group"; "list"; "--output"; "json"; "--debug"]
  = ["az"; "group"; "list"; "--output"; "json"; "--debug"].
Proof.
  split.
  - exact (add_output_keeps_explicit_flag "json" ["az"; "group"; "list"] "-o" "json" []
             (or_introl eq_refl) eq_refl).
  - exact (add_output_keeps_explicit_flag "json" ["az"; "group"; "list"] "--output"
             "json" ["--debug"] (or_intror eq_refl) eq_refl).
Defined.

(** X9. The test of [_az_cmd] looks at the text of the whole command: when
    any argument, a resource name for instance, contains [-o] immediately
    followed by the modifier, no output modifier is added. *)
Theorem add_output_fooled_by_argument OUTPUT cmd e :
  e ∈ cmd →
  PyStr.contains e ("-o" +:+ OUTPUT) = true →
  Scripts.add_output OUTPUT cmd = cmd.
Proof.
  intros He Hc. apply add_output_unchanged. right. left.
  by apply (contains_join_elem _ cmd e).
Qed.

Lemma add_output_fooled_by_argument_witness :
  Scripts.argv (Scripts.create_rg "demo-onone" "eastus")
  = ["az"; "group"; "create"; "--name"; "demo-onone"; "--location"; "eastus"].
Proof.
  apply (add_output_fooled_by_argument "none" _ "demo-onone").
  - do 4 apply list_elem_of_further. apply list_elem_of_here.
  - reflexivity.
Defined.

(** X10. When no argument contains the modifier (a modifier that is not
    empty and holds no [@]), [_az_cmd] appends [--output] and the modifier
    to the command. *)
Theorem add_output_appends OUTPUT cmd :
  OUTPUT ≠ "" →
  PyStr.contains OUTPUT "@" = false →
  (∀ e, e ∈ cmd → PyStr.contains e OUTPUT = false) →
  Scripts.add_output OUTPUT cmd = cmd ++ ["--output"; OUTPUT].
Proof. apply add_output_absent. Qed.

Lemma add_output_appends_witness :
  Scripts.add_output "json" ["az"; "account"; "show"]
  = ["az"; "account"; "show"; "--output"; "json"].
Proof.
  apply (add_output_appends "json" ["az"; "account"; "show"]).
  - discriminate.
  - reflexivity.
  - intros e [->|[->|[->|[]%elem_of_nil]%elem_of_cons]%elem_of_cons]%elem_of_cons;
      reflexivity.
Defined.

(** ** bicep_deployment.py *)

Section BicepFacts.

Import Scripts.

Context (repr : value → string).

(** The flags of a parameter. *)
Let flag (item : string * value) : list string :=
  ["--parameter"; item.1 +:+ "=" +:+ py_str repr item.2].

Lemma fold_flags params acc :
  fold_left (λ acc item, acc ++ ["--parameter"; item.1 +:+ "=" +:+ py_str repr item.2])
            params acc
  = acc ++ flat_map flag params.
Proof.
  revert acc. induction params as [|item params IH]; intros acc; cbn [fold_left flat_map].
  - by rewrite app_nil_r.
  - rewrite IH. by rewrite <- app_assoc.
Qed.

(** [__init__] turns the parameters into flags, two for each, in the order
    of the dictionary. *)
Lemma parameters_init n rg t params d :
  parameters (BicepDeployment_init repr n rg t params d) = flat_map flag params.
Proof. unfold BicepDeployment_init. cbn [parameters]. by rewrite fold_flags. Qed.

Lemma elem_of_flags e params :
  e ∈ flat_map flag params →
  e = "--parameter" ∨ ∃ k v, (k, v) ∈ params ∧ e = k +:+ "=" +:+ py_str repr v.
Proof.
  induction params as [|[k v] params IH]; cbn [flat_map].
  - by intros ?%elem_of_nil.
  - intros [H|H]%elem_of_app.
    + apply elem_of_cons in H as [->|H]; [by left|].
      apply list_elem_of_singleton in H as ->. right. exists k, v.
      split; [apply list_elem_of_here | done].
    + destruct (IH H) as [->|(k' & v' & Hin & ->)]; [by left|].
      right. exists k', v'. split; [by apply list_elem_of_further | done].
Qed.

End BicepFacts.

(** X11. The command of [BicepDeployment.create]: the fixed arguments with
    the deployment's name, resource group and template, then
    [--parameter key=value] for each parameter in the order of the
    dictionary, then [--output none], provided that [none] occurs neither
    in the name, the resource group or the template's path nor in a
    [key=value]. *)
Theorem create_argv (repr : Scripts.value → string) n rg t params d :
  PyStr.contains n "none" = false →
  PyStr.contains rg "none" = false →
  PyStr.contains (Pathlib.str t) "none" = false →
  (∀ k v, (k, v) ∈ params →
     PyStr.contains (k +:+ "=" +:+ Scripts.py_str repr v) "none" = false) →
  Scripts.argv (Scripts.create (Scripts.BicepDeployment_init repr n rg t params d))
  = ["az"; "deployment"; "group"; "create"; "--name"; n; "--resource-group"; rg;
     "--template-file"; Pathlib.str t]
    ++ flat_map (λ item, ["--parameter"; item.1 +:+ "=" +:+ Scripts.py_str repr item.2])
                params
    ++ ["--output"; "none"].
Proof.
  intros Hn Hrg Ht Hparams.
  unfold Scripts.create, Scripts.AzCmdNone_run, Scripts._az_cmd. cbn [Scripts.argv].
  rewrite parameters_init. cbn [Scripts.deployment_name Scripts.resource_group_name
    Scripts.template_file Scripts.BicepDeployment_init].
  rewrite add_output_absent; [by rewrite <- app_assoc | done | done |].
  intros e [He|He]%elem_of_app.
  - repeat (apply elem_of_cons in He as [->|He]; [done || reflexivity|]).
    by apply elem_of_nil in He.
  - apply elem_of_flags in He as [->|(k & v & Hin & ->)]; [reflexivity|].
    by apply Hparams.
Qed.

Lemma create_argv_witness :
  Scripts.argv (Scripts.create (Scripts.BicepDeployment_init (λ _, "") "demo" "demo"
     (Pathlib.parse "rg.bicep")
     [("use_shared_keys", Scripts.VBool true); ("suffix", Scripts.VStr "abc")]
     "initial resources"))
  = ["az"; "deployment"; "group"; "create"; "--name"; "demo";
     "--resource-group"; "demo"; "--template-file"; "rg.bicep";
     "--parameter"; "use_shared_keys=True"; "--parameter"; "suffix=abc";
     "--output"; "none"].
Proof.
  apply (create_argv (λ _, "") "demo" "demo" (Pathlib.parse "rg.bicep")
           [("use_shared_keys", Scripts.VBool true); ("suffix", Scripts.VStr "abc")]
           "initial resources"); try reflexivity.
  intros k v Hin.
  apply elem_of_cons in Hin as [[= -> ->]|Hin]; [reflexivity|].
  apply elem_of_cons in Hin as [[= -> ->]|Hin]; [reflexivity|].
  by apply elem_of_nil in Hin.
Defined.

Section OutputsFacts.

Import Scripts.

Context (repr : value → string).

Lemma dict_set_fresh {V} k (v : V) d :
  k ∉ d.*1 → dict_set k v d = d ++ [(k, v)].
Proof.
  induction d as [|[k' v'] d IH]; cbn [dict_set fmap list_fmap fst app]; [done|].
  intros [Hk Hd]%not_elem_of_cons.
  destruct (String.eqb_spec k' k) as [->|_]; [done|]. by rewrite IH.
Qed.

Lemma dict_set_keys {V} k (v : V) d k' :
  k' ∈ (dict_set k v d).*1 ↔ k' = k ∨ k' ∈ d.*1.
Proof.
  induction d as [|[k0 v0] d IH]; cbn [dict_set fmap list_fmap fst].
  - rewrite list_elem_of_singleton. split; [by left | by intros [?|?%elem_of_nil]].
  - destruct (String.eqb_spec k0 k) as [->|_]; cbn [fmap list_fmap fst].
    + rewrite elem_of_cons. tauto.
    + fold (fmap (M:=list) (@fst string V)). rewrite !elem_of_cons, IH. tauto.
Qed.

Lemma is_String_true ty : is_String ty = true ↔ ty = VStr "String".
Proof.
  split; [|by intros ->].
  destruct ty; try done. cbn. by intros ->%String.eqb_eq.
Qed.

(** One turn of the loop on an entry it accepts. *)
Lemma outputs_loop_accept k info v rest acc :
  string_output info v →
  outputs_loop repr ((k, info) :: rest) acc
  = outputs_loop repr rest (dict_set k (py_str repr v) acc).
Proof.
  intros (d & -> & Hty & Hval). cbn [outputs_loop subscript].
  by rewrite Hty, Hval.
Qed.

(** A turn that goes on has accepted its entry. *)
Lemma outputs_loop_inv k info rest acc outs :
  outputs_loop repr ((k, info) :: rest) acc = Ok outs →
  ∃ v, string_output info v
       ∧ outputs_loop repr rest (dict_set k (py_str repr v) acc) = Ok outs.
Proof.
  cbn [outputs_loop]. destruct info as [| | | | |d]; try done.
  cbn [subscript]. destruct (dict_get "type" d) as [ty|] eqn:Hty; [|done].
  destruct (is_String ty) eqn:Hs; [|done]. apply is_String_true in Hs as ->.
  destruct (dict_get "value" d) as [v|] eqn:Hval; [|done].
  intros H. exists v. split; [by exists d | done].
Qed.

Lemma outputs_loop_ok data outs acc :
  Forall2 (λ item out, out.1 = item.1
                       ∧ ∃ v, string_output item.2 v ∧ out.2 = py_str repr v)
          data outs →
  NoDup (acc.*1 ++ data.*1) →
  outputs_loop repr data acc = Ok (acc ++ outs).
Proof.
  intros H. revert acc.
  induction H as [|[k info] [k' s] data outs (Hk & v & Hv & Hs) _ IH]; intros acc Hnd.
  - by rewrite app_nil_r.
  - cbn in Hk, Hs. subst k' s. rewrite (outputs_loop_accept _ _ v) by done.
    cbn [fmap list_fmap fst] in Hnd. fold (fmap (M:=list) (@fst string value)) in Hnd.
    apply NoDup_app in Hnd as (Hacc & Hdisj & Hdata).
    apply NoDup_cons in Hdata as [Hk Hdata].
    rewrite dict_set_fresh by (intros Hin; apply (Hdisj _ Hin), list_elem_of_here).
    rewrite IH; [by rewrite <- app_assoc|].
    rewrite fmap_app. cbn [fmap list_fmap fst]. rewrite <- app_assoc. cbn [app].
    apply NoDup_app. split; [done|]. split; [|by apply NoDup_cons].
    intros x Hx. apply Hdisj in Hx. done.
Qed.

Lemma outputs_loop_returns data acc outs :
  outputs_loop repr data acc = Ok outs →
  Forall (λ item, ∃ v, string_output item.2 v) data
  ∧ ∀ k, k ∈ outs.*1 ↔ k ∈ acc.*1 ∨ k ∈ data.*1.
Proof.
  revert acc. induction data as [|[k info] data IH]; intros acc.
  - cbn. intros [= ->]. split; [done|]. intros k. rewrite elem_of_nil. tauto.
  - intros (v & Hv & Hrest)%outputs_loop_inv. apply IH in Hrest as [Hall Hkeys].
    split; [constructor; [by exists v | done]|].
    intros k'. rewrite Hkeys, dict_set_keys. cbn [fmap list_fmap fst].
    rewrite elem_of_cons. tauto.
Qed.

(** The entries the loop accepts leave it running. *)
Lemma outputs_loop_skip pre rest acc :
  Forall (λ item, ∃ v, string_output item.2 v) pre →
  ∃ acc', outputs_loop repr (pre ++ rest) acc = outputs_loop repr rest acc'.
Proof.
  intros H. revert acc. induction H as [|[k info] pre [v Hv] _ IH]; intros acc.
  - by exists acc.
  - cbn [app]. rewrite (outputs_loop_accept _ _ v) by done. apply IH.
Qed.

End OutputsFacts.

(** X12. [BicepDeployment.outputs] on a deployment whose outputs are all of
    type [String]: when the process prints a JSON object with distinct keys
    each entry of which is an object with the type [String] and a value, the
    result has the same keys in the same order, each with [str] of its
    value. *)
Theorem outputs_of_string_outputs (repr : Scripts.value → string) self data outs :
  NoDup data.*1 →
  Forall2 (λ item out, out.1 = item.1
             ∧ ∃ v, Scripts.string_output item.2 v ∧ out.2 = Scripts.py_str repr v)
          data outs →
  Scripts.answer (Scripts.outputs repr self)
                 (Scripts.Exited (Scripts.JsonText (Scripts.VDict data)))
  = Scripts.Ok outs.
Proof.
  intros Hnd Hall. cbn. by rewrite (outputs_loop_ok repr data outs []).
Qed.

Lemma outputs_of_string_outputs_witness :
  Scripts.answer
    (Scripts.outputs (λ _, "")
       (Scripts.mkBicepDeployment "demo" "demo" (Pathlib.parse "rg.bicep") "" []))
    (Scripts.Exited (Scripts.JsonText (Scripts.VDict
       [("apt_sources", Scripts.VDict [("type", Scripts.VStr "String");
                                       ("value", Scripts.VStr "deb blob://x/y z main")]);
        ("port", Scripts.VDict [("value", Scripts.VInt 8080);
                                ("type", Scripts.VStr "String")])])))
  = Scripts.Ok [("apt_sources", "deb blob://x/y z main"); ("port", "8080")].
Proof.
  apply outputs_of_string_outputs.
  - by apply (bool_decide_unpack _).
  - constructor; [|constructor; [|constructor]].
    + split; [reflexivity|]. exists (Scripts.VStr "deb blob://x/y z main").
      split; [|reflexivity]. by eexists.
    + split; [reflexivity|]. exists (Scripts.VInt 8080).
      split; [|reflexivity]. by eexists.
Defined.

(** X13. [outputs] returns all the outputs or none: when it returns, the
    process has printed a JSON object every entry of which is an object
    with the type [String] and a value, and the keys of the result are the
    keys of that object. *)
Theorem outputs_returns_only_string_outputs (repr : Scripts.value → string) self r outs :
  Scripts.answer (Scripts.outputs repr self) r = Scripts.Ok outs →
  ∃ data,
    r = Scripts.Exited (Scripts.JsonText (Scripts.VDict data))
    ∧ Forall (λ item, ∃ v, Scripts.string_output item.2 v) data
    ∧ ∀ k, k ∈ outs.*1 ↔ k ∈ data.*1.
Proof.
  destruct r as [|[|v]]; try done. destruct v as [| | | | |data]; try done.
  cbn. intros [Hall Hkeys]%outputs_loop_returns. exists data.
  split; [done|]. split; [done|]. intros k. rewrite Hkeys, elem_of_nil. tauto.
Qed.

Lemma outputs_returns_only_string_outputs_witness :
  ∃ data,
    Scripts.Exited (Scripts.JsonText (Scripts.VDict
      [("name", Scripts.VDict [("type", Scripts.VStr "String");
                               ("value", Scripts.VStr "app")])]))
    = Scripts.Exited (Scripts.JsonText (Scripts.VDict data))
    ∧ Forall (λ item, ∃ v, Scripts.string_output item.2 v) data
    ∧ ∀ k, k ∈ [("name", "app")].*1 ↔ k ∈ data.*1.
Proof.
  apply (outputs_returns_only_string_outputs (λ _, "")
           (Scripts.mkBicepDeployment "demo" "demo" (Pathlib.parse "rg.bicep") "" [])).
  reflexivity.
Defined.

(** X14. The first entry that [outputs] does not accept decides its
    exception, whatever follows it: [TypeError] for an entry that is not an
    object, [KeyError] for an object without [type], [ValueError] for a type
    other than the string [String], [KeyError] for a [String] without
    [value]. *)
Theorem outputs_first_rejected_entry (repr : Scripts.value → string) self
    pre k info post e :
  Forall (λ item, ∃ v, Scripts.string_output item.2 v) pre →
  Scripts.rejected_output info e →
  Scripts.answer (Scripts.outputs repr self)
    (Scripts.Exited (Scripts.JsonText (Scripts.VDict (pre ++ (k, info) :: post))))
  = Scripts.Err e.
Proof.
  intros Hpre Hrej. cbn.
  destruct (outputs_loop_skip repr pre ((k, info) :: post) [] Hpre) as [acc ->].
  cbn [Scripts.outputs_loop].
  destruct Hrej as [info Hinfo|d Hty|d ty Hty Hne|d Hty Hval].
  - destruct info as [| | | | |d]; try done. by destruct (Hinfo d).
  - cbn [Scripts.subscript]. by rewrite Hty.
  - cbn [Scripts.subscript]. rewrite Hty.
    destruct (Scripts.is_String ty) eqn:Hs; [|done].
    by apply is_String_true in Hs.
  - cbn [Scripts.subscript]. by rewrite Hty, Hval.
Qed.

Lemma outputs_first_rejected_entry_witness :
  Scripts.answer
    (Scripts.outputs (λ _, "")
       (Scripts.mkBicepDeployment "demo" "demo" (Pathlib.parse "rg.bicep") "" []))
    (Scripts.Exited (Scripts.JsonText (Scripts.VDict
       ([("name", Scripts.VDict [("type", Scripts.VStr "String");
                                 ("value", Scripts.VStr "app")])]
        ++ ("replicas", Scripts.VDict [("type", Scripts.VStr "Int");
                                       ("value", Scripts.VInt 3)])
        :: [("zone", Scripts.VStr "eastus")]))))
  = Scripts.Err Scripts.ValueError.
Proof.
  apply outputs_first_rejected_entry.
  - constructor; [|constructor]. exists (Scripts.VStr "app"). by eexists.
  - by apply (Scripts.rejected_type _ (Scripts.VStr "Int")).
Defined.

(** ** func_app.py: waiting for the trigger *)

Section WaitFacts.

Import Scripts.

(** The [for] loop over a list of names. *)
Lemma find_trigger_names names :
  find_trigger (VStr <$> names)
  = Ok (existsb (λ n, PyStr.contains n "eventGridTrigger") names).
Proof.
  induction names as [|n names IH]; [done|].
  cbn [fmap list_fmap find_trigger py_in existsb].
  fold (fmap (M:=list) VStr). rewrite IH.
  by destruct (PyStr.contains n "eventGridTrigger").
Qed.

Lemma find_trigger_none names :
  (∀ n, n ∈ names → PyStr.contains n "eventGridTrigger" = false) →
  find_trigger (VStr <$> names) = Ok false.
Proof.
  intros H. rewrite find_trigger_names. f_equal.
  apply not_true_is_false. intros (n & Hn%list_elem_of_In & Hc)%existsb_exists.
  by rewrite (H n Hn) in Hc.
Qed.

Lemma find_trigger_some names n :
  n ∈ names → PyStr.contains n "eventGridTrigger" = true →
  find_trigger (VStr <$> names) = Ok true.
Proof.
  intros Hn Hc. rewrite find_trigger_names. f_equal.
  apply existsb_exists. exists n. by rewrite <- list_elem_of_In.
Qed.

(** When the [for] loop returns from the function, one of the elements
    contains the name. *)
Lemma find_trigger_true l :
  find_trigger l = Ok true → ∃ x, x ∈ l ∧ py_in "eventGridTrigger" x = Ok true.
Proof.
  induction l as [|x l IH]; [done|]. cbn [find_trigger].
  destruct (py_in "eventGridTrigger" x) as [[]|e] eqn:Hx; [| |done].
  - intros _. exists x. split; [apply list_elem_of_here | done].
  - intros (y & Hy & Hin)%IH. exists y. split; [by apply list_elem_of_further | done].
Qed.

(** The answer of the polling command. *)
Lemma answer_wait_cmd self r :
  answer (wait_cmd self) r
  = match r with
    | Failed => Err CalledProcessError
    | Exited NotJson => Err JSONDecodeError
    | Exited (JsonText (VList l)) => Ok l
    | Exited (JsonText _) => Err ValueError
    end.
Proof. destruct r as [|[|[]]]; reflexivity. Qed.

(** After a quiet poll the loop sleeps five seconds and polls again. *)
Lemma wait_loop_quiet self r rest slept :
  quiet r →
  wait_loop (wait_cmd self) (r :: rest) slept
  = wait_loop (wait_cmd self) rest (slept + 5).
Proof.
  intros [->|[->|(names & -> & Hnames)]]; cbn [wait_loop]; rewrite answer_wait_cmd;
    [done | done |].
  by rewrite find_trigger_none.
Qed.

Lemma wait_loop_quiet_prefix self pre rest slept :
  Forall quiet pre →
  wait_loop (wait_cmd self) (pre ++ rest) slept
  = wait_loop (wait_cmd self) rest (slept + 5 * length pre).
Proof.
  intros H. revert slept. induction H as [|r pre Hr _ IH]; intros slept.
  - cbn. by rewrite Nat.add_0_r.
  - cbn [app]. rewrite wait_loop_quiet by done. rewrite IH. f_equal.
    cbn [length]. lia.
Qed.

(** The loop returns at a poll that lists a function with the name, having
    slept five seconds for each earlier poll. *)
Lemma wait_loop_returned self responses slept n :
  wait_loop (wait_cmd self) responses slept = Returned n →
  ∃ pre l post x,
    responses = pre ++ Exited (JsonText (VList l)) :: post
    ∧ n = slept + 5 * length pre
    ∧ x ∈ l ∧ py_in "eventGridTrigger" x = Ok true.
Proof.
  revert slept. induction responses as [|r rest IH]; intros slept; [done|].
  cbn [wait_loop]. rewrite answer_wait_cmd.
  assert (wait_loop (wait_cmd self) rest (slept + 5) = Returned n →
          ∃ pre l post x,
            r :: rest = pre ++ Exited (JsonText (VList l)) :: post
            ∧ n = slept + 5 * length pre
            ∧ x ∈ l ∧ py_in "eventGridTrigger" x = Ok true) as Hnext.
  { intros (pre & l & post & x & -> & -> & Hx)%IH.
    exists (r :: pre), l, post, x. split; [done|]. split; [cbn [length]; lia | done]. }
  destruct r as [|[|v]]; [done | done |].
  destruct v as [| | | |l|]; try done.
  destruct (find_trigger l) as [[]|e] eqn:Hl; [| done | done].
  intros [= <-]. apply find_trigger_true in Hl as (x & Hx & Hin).
  exists [], l, rest, x. split; [done|]. split; [cbn; lia | done].
Qed.

End WaitFacts.

(** X15. [wait_for_event_trigger] returns at the first poll that lists a
    function whose name contains [eventGridTrigger], having slept five
    seconds for each poll before it: the polls that failed, that printed no
    JSON, or that listed only other names. *)
Theorem wait_returns_at_first_match self pre names name post :
  Forall Scripts.quiet pre →
  name ∈ names →
  PyStr.contains name "eventGridTrigger" = true →
  Scripts.wait_for_event_trigger self
    (pre ++ Scripts.Exited (Scripts.JsonText (Scripts.VList (Scripts.VStr <$> names)))
         :: post)
  = Scripts.Returned (5 * length pre).
Proof.
  intros Hpre Hname Hc. unfold Scripts.wait_for_event_trigger.
  rewrite wait_loop_quiet_prefix by done. cbn [Scripts.wait_loop].
  rewrite answer_wait_cmd. by rewrite (find_trigger_some names name).
Qed.

Lemma wait_returns_at_first_match_witness :
  Scripts.wait_for_event_trigger
    (Scripts.mkFuncApp "app" "demo" (Pathlib.parse "function_app.zip"))
    ([Scripts.Failed; Scripts.Exited Scripts.NotJson;
      Scripts.Exited (Scripts.JsonText (Scripts.VList (Scripts.VStr <$> [])))]
     ++ Scripts.Exited (Scripts.JsonText (Scripts.VList
          (Scripts.VStr <$> ["app/blob_trigger"; "app/eventGridTrigger"])))
     :: [Scripts.Failed])
  = Scripts.Returned 15.
Proof.
  refine (wait_returns_at_first_match _
            [Scripts.Failed; Scripts.Exited Scripts.NotJson;
             Scripts.Exited (Scripts.JsonText (Scripts.VList (Scripts.VStr <$> [])))]
            ["app/blob_trigger"; "app/eventGridTrigger"] "app/eventGridTrigger"
            [Scripts.Failed] _ _ _).
  - constructor; [by left|]. constructor; [by right; left|].
    constructor; [|constructor]. right. right. exists [].
    split; [reflexivity|]. by intros n ?%elem_of_nil.
  - apply list_elem_of_further, list_elem_of_here.
  - reflexivity.
Defined.

(** X16. [wait_for_event_trigger] never returns without the trigger: when
    it returns, a poll has exited with status zero and printed a JSON list
    one element of which contains [eventGridTrigger], and it has slept five
    seconds for each poll before that one. *)
Theorem wait_returns_only_on_match self responses n :
  Scripts.wait_for_event_trigger self responses = Scripts.Returned n →
  ∃ pre l post x,
    responses = pre ++ Scripts.Exited (Scripts.JsonText (Scripts.VList l)) :: post
    ∧ n = 5 * length pre
    ∧ x ∈ l ∧ Scripts.py_in "eventGridTrigger" x = Scripts.Ok true.
Proof.
  unfold Scripts.wait_for_event_trigger.
  intros (pre & l & post & x & -> & -> & Hx)%wait_loop_returned.
  by exists pre, l, post, x.
Qed.

Lemma wait_returns_only_on_match_witness :
  ∃ pre l post x,
    [Scripts.Failed;
     Scripts.Exited (Scripts.JsonText (Scripts.VList [Scripts.VStr "eventGridTrigger"]))]
    = pre ++ Scripts.Exited (Scripts.JsonText (Scripts.VList l)) :: post
    ∧ 5 = 5 * length pre
    ∧ x ∈ l ∧ Scripts.py_in "eventGridTrigger" x = Scripts.Ok true.
Proof.
  apply (wait_returns_only_on_match
           (Scripts.mkFuncApp "app" "demo" (Pathlib.parse "function_app.zip"))).
  reflexivity.
Defined.

(** X17. Only a failed process and an output that is no JSON are tried
    again.  A poll that prints JSON other than a list ends the wait with
    [ValueError], and a list in which a number, a boolean or [null] comes
    before any matching name ends it with [TypeError]. *)
Theorem wait_raises_on_unexpected_json self pre post :
  Forall Scripts.quiet pre →
  (∀ v, (∀ l, v ≠ Scripts.VList l) →
     Scripts.wait_for_event_trigger self
       (pre ++ Scripts.Exited (Scripts.JsonText v) :: post)
     = Scripts.Raised Scripts.ValueError (5 * length pre))
  ∧ (∀ names x rest,
       (∀ n, n ∈ names → PyStr.contains n "eventGridTrigger" = false) →
       (x = Scripts.VNone ∨ (∃ b, x = Scripts.VBool b) ∨ ∃ z, x = Scripts.VInt z) →
       Scripts.wait_for_event_trigger self
         (pre ++ Scripts.Exited (Scripts.JsonText
                   (Scripts.VList ((Scripts.VStr <$> names) ++ x :: rest))) :: post)
       = Scripts.Raised Scripts.TypeError (5 * length pre)).
Proof.
  intros Hpre. unfold Scripts.wait_for_event_trigger. split.
  - intros v Hv. rewrite wait_loop_quiet_prefix by done. cbn [Scripts.wait_loop].
    rewrite answer_wait_cmd. destruct v as [| | | |l|]; try done. by destruct (Hv l).
  - intros names x rest Hnames Hx. rewrite wait_loop_quiet_prefix by done.
    cbn [Scripts.wait_loop]. rewrite answer_wait_cmd.
    assert (Scripts.find_trigger ((Scripts.VStr <$> names) ++ x :: rest)
            = Scripts.Err Scripts.TypeError) as ->; [|done].
    induction names as [|n names IH].
    + by destruct Hx as [->|[[b ->]|[z ->]]].
    + cbn [fmap list_fmap app Scripts.find_trigger Scripts.py_in].
      rewrite (Hnames n) by apply list_elem_of_here.
      apply IH. intros m Hm. by apply Hnames, list_elem_of_further.
Qed.

Lemma wait_raises_on_unexpected_json_witness :
  Scripts.wait_for_event_trigger
    (Scripts.mkFuncApp "app" "demo" (Pathlib.parse "function_app.zip"))
    ([Scripts.Failed] ++ Scripts.Exited (Scripts.JsonText (Scripts.VDict [])) :: [])
  = Scripts.Raised Scripts.ValueError 5.
Proof.
  refine (proj1 (wait_raises_on_unexpected_json _ [Scripts.Failed] []
                   (Forall_cons_2 _ _ _ (or_introl eq_refl) (Forall_nil_2 _))) _ _).
  intros l. discriminate.
Defined.

(** X18. The wait has no limit: as long as the polls fail, print no JSON
    or list no function with the name, it goes on polling, five seconds
    after each. *)
Theorem wait_polls_while_quiet self responses :
  Forall Scripts.quiet responses →
  Scripts.wait_for_event_trigger self responses
  = Scripts.Polling (5 * length responses).
Proof.
  intros H. unfold Scripts.wait_for_event_trigger.
  rewrite <- (app_nil_r responses) at 1. by rewrite wait_loop_quiet_prefix.
Qed.

Lemma wait_polls_while_quiet_witness :
  Scripts.wait_for_event_trigger
    (Scripts.mkFuncApp "app" "demo" (Pathlib.parse "function_app.zip"))
    [Scripts.Failed; Scripts.Exited Scripts.NotJson]
  = Scripts.Polling 10.
Proof.
  apply (wait_polls_while_quiet _ [Scripts.Failed; Scripts.Exited Scripts.NotJson]).
  constructor; [by left|]. constructor; [by right; left | constructor].
Defined.

(** ** create_resources.py *)

Section MainFacts.

Import Scripts.

Lemma has_suffix_length args :
  has_suffix args = true ↔ ∃ s, arg_suffix args = Some s ∧ 0 < String.length s.
Proof.
  unfold has_suffix. destruct (arg_suffix args) as [s|].
  - destruct s as [|a s]; cbn.
    + split; [done|]. intros (s & [= <-] & H). cbn in H. lia.
    + split; [|done]. intros _. exists (String a s). split; [done|]. cbn. lia.
  - split; [done|]. by intros (s & ? & _).
Qed.

Lemma common_parameters_flags (repr : value → string) n rg t d args :
  parameters (BicepDeployment_init repr n rg t (main_common_parameters args) d)
  = suffix_flags args.
Proof.
  unfold main_common_parameters, has_suffix, suffix_flags.
  destruct (arg_suffix args) as [s|]; [|done].
  by destruct (String.eqb s "").
Qed.

End MainFacts.

(** X19. [main] refuses exactly the suffixes of more than 14 characters,
    before it creates anything; no suffix, an empty one and one of up to 14
    characters pass.  The characters are counted as [len] counts them, not
    the bytes of their encoding. *)
Theorem main_refuses_long_suffix args :
  (Scripts.main_check_suffix args = Scripts.Err Scripts.ValueError
   ↔ ∃ s, Scripts.arg_suffix args = Some s ∧ (14 < PyStr.len s)%nat)
  ∧ (Scripts.main_check_suffix args = Scripts.Ok ()
     ↔ ∀ s, Scripts.arg_suffix args = Some s → (PyStr.len s ≤ 14)%nat).
Proof.
  unfold Scripts.main_check_suffix.
  destruct (Scripts.has_suffix args) eqn:Hs; cbn [andb].
  - apply has_suffix_length in Hs as (s & Hs & Hlen). rewrite Hs.
    change (default "" (Some s)) with s.
    destruct (Nat.ltb_spec 14 (PyStr.len s)) as [H|H].
    + split; split; try done.
      * intros _. by exists s.
      * intros Hall. specialize (Hall s eq_refl). lia.
    + split; split; try done.
      * intros (s' & [= <-] & ?). lia.
      * by intros _ s' [= <-].
  - assert (∀ s, Scripts.arg_suffix args = Some s → PyStr.len s = 0) as H0.
    { intros s Hsome. destruct s as [|c s]; [done|].
      assert (Scripts.has_suffix args = true) as Ht; [|congruence].
      apply has_suffix_length. exists (String c s). split; [done | cbn; lia]. }
    split; split; try done.
    + intros (s & Hsome%H0 & ?). lia.
    + intros _ s Hsome%H0. lia.
Qed.

(** A suffix of eight letters that take two bytes each passes, although it
    has more than 14 bytes. *)
Example main_accepts_eight_wide_letters :
  let suffix := concat_bytes (replicate 8 (PyStr.utf8 233)) in
  Scripts.main_check_suffix (Scripts.mkArgs "demo" "eastus" false (Some suffix))
  = Scripts.Ok ()
  ∧ String.length suffix = 16.
Proof. vm_compute. done. Qed.

(** X20. The parameters [main] deploys with.  The initial resources get
    [use_shared_keys=True], or [False] under [--no-shared-keys], and then
    the suffix; the Event Grid deployment gets the suffix alone; the
    deployment of a bundled function app gets [use_shared_keys=False] and
    the suffix.  The suffix is passed, as [suffix=...], exactly when one
    that is not empty was given. *)
Theorem main_deployment_parameters (repr : Scripts.value → string) args self :
  Scripts.parameters (Scripts.main_initial_resources repr args)
  = ["--parameter";
     "use_shared_keys=" +:+ (if Scripts.arg_no_shared_keys args then "False" else "True")]
    ++ Scripts.suffix_flags args
  ∧ Scripts.parameters (Scripts.main_event_grid_deployment repr args)
    = Scripts.suffix_flags args
  ∧ Scripts.parameters
      (Scripts.FuncAppBundle_func_app_deploy repr self
         (Scripts.main_common_parameters args))
    = ["--parameter"; "use_shared_keys=False"] ++ Scripts.suffix_flags args.
Proof.
  split; [|split]; [|apply common_parameters_flags|].
  - unfold Scripts.main_initial_resources, Scripts.main_initial_parameters,
      Scripts.main_common_parameters, Scripts.has_suffix, Scripts.suffix_flags.
    destruct (Scripts.arg_suffix args) as [s|], (Scripts.arg_no_shared_keys args);
      try reflexivity; by destruct (String.eqb s "").
  - unfold Scripts.FuncAppBundle_func_app_deploy, Scripts.main_common_parameters,
      Scripts.has_suffix, Scripts.suffix_flags.
    destruct (Scripts.arg_suffix args) as [s|]; [|reflexivity].
    by destruct (String.eqb s "").
Qed.

(** ** function_app.py: the names of the metadata records *)

Section RecordNames.

Import Pathlib.

(** Splitting at a separator splits both sides. *)
Lemma split_app_sep c a b :
  PyStr.split c (a +:+ String c b) = PyStr.split c a ++ PyStr.split c b.
Proof.
  induction a as [|x a IH]; cbn [String.append PyStr.split].
  - by rewrite Ascii.eqb_refl.
  - rewrite IH. destruct (Ascii.eqb x c); [done|].
    pose proof (split_nonempty c a) as Hne. by destruct (PyStr.split c a).
Qed.

(** A path that does not start with a separator has no root. *)
Lemma splitroot_relative s :
  PyStr.startswith s "/" = false → splitroot s = ("", s).
Proof.
  destruct s as [|x s]; [done|]. rewrite startswith_unfold. unfold splitroot, sep.
  rewrite (Ascii.eqb_sym x). by destruct (Ascii.eqb "/" x).
Qed.

Lemma startswith_append_cons x a t p :
  PyStr.startswith (String x a +:+ t) (String p "")
  = PyStr.startswith (String x a) (String p "").
Proof.
  cbn [String.append]. rewrite !(startswith_unfold _ (String p "")).
  destruct (Ascii.eqb p x); [|done]. by rewrite !(startswith_unfold _ "").
Qed.

(** A doubled separator inside a name is the same to [Path] as a single
    one. *)
Lemma parse_double_sep a b :
  a ≠ "" → PyStr.startswith a "/" = false →
  parse (a +:+ "//" +:+ b) = parse (a +:+ "/" +:+ b).
Proof.
  intros Ha Hrel. destruct a as [|x a]; [done|].
  unfold parse.
  rewrite !splitroot_relative by (by rewrite startswith_append_cons).
  change ("//" +:+ b) with (String "/" (String "/" b)).
  change ("/" +:+ b) with (String "/" b).
  fold sep. rewrite !split_app_sep. f_equal.
  rewrite !filter_app. f_equal.
Qed.

Lemma cons_neq_self c s : String c s ≠ s.
Proof. induction s as [|x s IH]; [done|]. intros [= -> H]. by apply IH. Qed.

Lemma double_sep_neq a b : a +:+ "//" +:+ b ≠ a +:+ "/" +:+ b.
Proof.
  induction a as [|x a IH]; cbn [String.append].
  - intros [= H]. by apply (cons_neq_self "/" b).
  - intros [= H]. by apply IH.
Qed.

End RecordNames.

(** X21. The name of the metadata record does not determine the package:
    [Path] drops a doubled separator, so the packages [a//b] and [a/b] of
    one container share the record [PackageBlob.__init__] derives for
    them. *)
Theorem doubled_separator_shares_record l a b :
  a ≠ "" →
  PyStr.startswith a "/" = false →
  PyStr.endswith b ".deb" = true →
  a +:+ "//" +:+ b ∈ l.*1 →
  a +:+ "/" +:+ b ∈ l.*1 →
  record_name_of (a +:+ "//" +:+ b) = record_name_of (a +:+ "/" +:+ b)
  ∧ ¬ records_injective l.
Proof.
  intros Ha Hrel Hb H2 H1.
  assert (record_name_of (a +:+ "//" +:+ b) = record_name_of (a +:+ "/" +:+ b)) as Heq.
  { unfold record_name_of. by rewrite parse_double_sep. }
  split; [done|]. intros Hinj.
  apply (double_sep_neq a b), Hinj; try done.
  - unfold is_package_name. by do 2 apply endswith_append_l.
  - unfold is_package_name. by do 2 apply endswith_append_l.
Qed.

Lemma doubled_separator_shares_record_witness :
  record_name_of "pool//foo.deb" = record_name_of "pool/foo.deb"
  ∧ ¬ records_injective [("pool//foo.deb", Demo.foo_deb); ("pool/foo.deb", Demo.bad_deb)].
Proof.
  apply (doubled_separator_shares_record
           [("pool//foo.deb", Demo.foo_deb); ("pool/foo.deb", Demo.bad_deb)]
           "pool" "foo.deb").
  - discriminate.
  - reflexivity.
  - reflexivity.
  - apply list_elem_of_here.
  - apply list_elem_of_further, list_elem_of_here.
Defined.
